(** * webgpu-engine.js: a shallow embedding and its verified properties

    The script keeps two global objects, [gpu] (handles of the WebGPU objects
    it created) and [data] (two [Float32Array]s), initialises the device in
    [initializeWebGPU], and redraws one triangle per animation frame in
    [render].  The browser is the environment: every call into it is an
    entry of [HostCall], answered by a [Host] record, and what the script
    does to the device is recorded in the [World] (buffer contents, the log
    of buffer uploads, the submitted command buffers).

    Numbers.  JavaScript numbers are IEEE-754 doubles and the typed arrays
    hold 32-bit floats.  A store into a [Float32Array] rounds to the nearest
    32-bit float ([Math_fround]); the arithmetic on doubles before the store
    ([Math.sin], [Math.cos], [*], [/]) is idealised as the exact operations
    on real numbers, so statements about stored values are given with a
    tolerance of one unit in the last place rather than as equations. *)

From Stdlib Require Import Reals Lra Lia ZArith List String Bool.
From stdpp Require Import base list.
Import ListNotations.

Open Scope string_scope.
Open Scope Z_scope.
Open Scope R_scope.
Open Scope list_scope.

(** ** Numbers and typed arrays *)

(** [Math.round]: the nearest integer, ties towards +infinity, that is
    floor(x + 1/2).  [up y] is the least integer above [y]. *)
Definition Math_round (x : R) : Z := (up (x + / 2) - 1)%Z.

(** Rounding to the nearest integer, ties to the even one. *)
Definition round_half_even (x : R) : Z :=
  let f := Zfloor x in
  if Rlt_dec (x - IZR f) (/ 2) then f
  else if Rlt_dec (/ 2) (x - IZR f) then (f + 1)%Z
  else if Z.even f then f else (f + 1)%Z.

(** The exponent of the binade of [x], floor (log2 |x|), and -126 from where
    the subnormal numbers begin. *)
Definition binade (x : R) : Z := Z.max (Zfloor (ln (Rabs x) / ln 2)) (-126).

(** [Math.fround], the conversion a store into a [Float32Array] applies: the
    nearest number with a 24-bit significand in the binade of [x], ties to
    even.  From 2^128 - 2^103 on the conversion gives an infinity, which the
    reals do not have; the script stores only the literals of [data] and
    products of a sine or a cosine with 0.3. *)
Definition Math_fround (x : R) : R :=
  if Req_dec_T x 0 then 0
  else IZR (round_half_even (x / powerRZ 2 (binade x - 23))) *
       powerRZ 2 (binade x - 23).

(** A [Float32Array] is the list of its elements; four bytes each. *)
Abbreviation Float32Array := (list R).

Definition byteLength (a : Float32Array) : Z := 4 * Z.of_nat (length a).

(** [a[i] = v] on a typed array: the value is converted to a 32-bit float;
    an index out of range is ignored, which is what the list insert does. *)
Definition array_set (i : nat) (v : R) (a : Float32Array) : Float32Array :=
  <[ i := Math_fround v ]> a.

(** ** Objects of the WebGPU and DOM interfaces *)

Record Adapter := { adapter_id : nat }.
Record Device := { device_id : nat }.
Record Context := { context_id : nat }.

(** The canvas element: its identity as a DOM node and its drawing-buffer
    size.  The script reaches it only through [gpu.canvas]. *)
Record Canvas := { node : nat; width : Z; height : Z }.

Inductive TextureFormat := bgra8unorm | rgba8unorm | rgba16float.

Inductive VertexFormat := float32x2 | float32x4.

(** Bit flags of [GPUBufferUsage], with the values of the WebGPU interface. *)
Definition GPUBufferUsage_COPY_DST : Z := 8.
Definition GPUBufferUsage_VERTEX : Z := 32.
Definition GPUBufferUsage_UNIFORM : Z := 64.

Record BufferDescriptor := { desc_size : Z; desc_usage : Z }.

(** A buffer in device memory: created zero-filled, contents kept as 32-bit
    float elements. *)
Record GPUBuffer := { buf_size : Z; buf_usage : Z; contents : list R }.

(** A [GPUBuffer] handle held by the script is an index into device memory. *)
Abbreviation BufferHandle := nat.

(** What a WGSL source declares to the pipeline: the resource slot of its
    uniform, and the entry points with the locations and types of their
    inputs. *)
Record WGSL := {
  uniform_group : Z;
  uniform_binding : Z;
  uniform_bytes : Z;
  vertex_entry : string;
  vertex_inputs : list (Z * VertexFormat);
  fragment_entry : string;
  fragment_inputs : list (Z * VertexFormat)
}.

Record ShaderModule := { code : WGSL }.

Record VertexAttribute := {
  shaderLocation : Z;
  offset : Z;
  format : VertexFormat
}.

Record VertexBufferLayout := {
  arrayStride : Z;
  attributes : list VertexAttribute
}.

Inductive PipelineLayout := layout_auto.
Inductive PrimitiveTopology := triangle_list.

Record RenderPipeline := {
  layout : PipelineLayout;
  vertex_module : ShaderModule;
  vertex_entryPoint : string;
  vertex_buffers : list VertexBufferLayout;
  fragment_module : ShaderModule;
  fragment_entryPoint : string;
  fragment_targets : list (option TextureFormat);
  topology : PrimitiveTopology
}.

(** [pipeline.getBindGroupLayout(index)] *)
Record BindGroupLayout := { of_pipeline : RenderPipeline; group_index : Z }.

Record BindGroupEntry := { binding : Z; resource_buffer : option BufferHandle }.

Record BindGroup := { bg_layout : BindGroupLayout; entries : list BindGroupEntry }.

Inductive AlphaMode := premultiplied.

Record CanvasConfiguration := {
  config_device : Device;
  config_format : option TextureFormat;
  config_alphaMode : AlphaMode
}.

(** ** Recorded commands *)

Record Texture := { tex_width : Z; tex_height : Z }.
Record TextureView := { view_of : Texture }.

Record Color := { r : R; g : R; b : R; a : R }.

Inductive LoadOp := load_clear | load_load.
Inductive StoreOp := store_store | store_discard.

Record ColorAttachment := {
  view : TextureView;
  clearValue : Color;
  loadOp : LoadOp;
  storeOp : StoreOp
}.

Record RenderPassDescriptor := { colorAttachments : list ColorAttachment }.

Inductive PassCommand :=
| SetPipeline (p : RenderPipeline)
| SetVertexBuffer (slot : Z) (buffer : BufferHandle)
| SetBindGroup (index : Z) (group : option BindGroup)
| Draw (vertexCount instanceCount firstVertex firstInstance : Z).

Record RenderPass := {
  descriptor : RenderPassDescriptor;
  commands : list PassCommand
}.

(** A command encoder, and the command buffer it finishes into, is the list
    of the passes recorded so far. *)
Definition CommandEncoder := list RenderPass.
Definition CommandBuffer := list RenderPass.

(** ** The two global objects *)

Record GpuState := {
  adapter : option Adapter;
  device : option Device;
  canvas : option Canvas;
  context : option Context;
  presentationFormat : option TextureFormat;
  renderPipeline : option RenderPipeline;
  vertexBuffer : option BufferHandle;
  uniformBuffer : option BufferHandle;
  bindGroup : option BindGroup
}.

Record DataState := {
  vertices : Float32Array;
  uniforms : Float32Array
}.

(** [const gpu = { adapter: null, ... }] *)
Definition gpu_init : GpuState :=
  {| adapter := None; device := None; canvas := None; context := None;
     presentationFormat := None; renderPipeline := None;
     vertexBuffer := None; uniformBuffer := None; bindGroup := None |}.

(** [const data = { vertices: ..., uniforms: ... }].  The literals (0, 0.5,
    -0.5 and 1) are 32-bit floats as they stand. *)
Definition data_init : DataState :=
  {| vertices :=
       [ 0.0;  0.5;   1.0; 0.0; 0.0; 1.0;
        -0.5; -0.5;   0.0; 1.0; 0.0; 1.0;
         0.5; -0.5;   0.0; 0.0; 1.0; 1.0 ];
     uniforms :=
       [ 0.0; 0.0;
         0.0; 0.0 ] |}.

(** [const SIZEOF_UNIFORMS = data.uniforms.byteLength], evaluated once when
    the script loads. *)
Definition SIZEOF_UNIFORMS : Z := byteLength (uniforms data_init).

(** ** The world *)

Inductive LogLevel := log | warn | error.

(** The [#message] element, as far as the script touches it. *)
Record MessageElement := {
  innerText : string;
  backgroundColor : string;
  hide_timer : bool
}.

Record BufferWrite := {
  write_target : BufferHandle;
  write_offset : Z;
  write_data : list R
}.

Record World := {
  gpu : GpuState;
  data : DataState;
  messageEl : option MessageElement;
  console : list (LogLevel * string);
  buffers : list GPUBuffer;
  uploads : list BufferWrite;
  configured : option CanvasConfiguration;
  resizeObserver : option R;
  submitted : list CommandBuffer;
  animationFrames : nat
}.

Definition with_gpu (f : GpuState -> GpuState) (w : World) : World :=
  {| gpu := f (gpu w); data := data w; messageEl := messageEl w;
     console := console w; buffers := buffers w; uploads := uploads w;
     configured := configured w; resizeObserver := resizeObserver w;
     submitted := submitted w; animationFrames := animationFrames w |}.

Definition with_data (f : DataState -> DataState) (w : World) : World :=
  {| gpu := gpu w; data := f (data w); messageEl := messageEl w;
     console := console w; buffers := buffers w; uploads := uploads w;
     configured := configured w; resizeObserver := resizeObserver w;
     submitted := submitted w; animationFrames := animationFrames w |}.

Definition with_messageEl (f : MessageElement -> MessageElement) (w : World) : World :=
  {| gpu := gpu w; data := data w; messageEl := option_map f (messageEl w);
     console := console w; buffers := buffers w; uploads := uploads w;
     configured := configured w; resizeObserver := resizeObserver w;
     submitted := submitted w; animationFrames := animationFrames w |}.

Definition with_console (l : LogLevel) (s : string) (w : World) : World :=
  {| gpu := gpu w; data := data w; messageEl := messageEl w;
     console := console w ++ [(l, s)]; buffers := buffers w;
     uploads := uploads w;
     configured := configured w; resizeObserver := resizeObserver w;
     submitted := submitted w; animationFrames := animationFrames w |}.

Definition with_buffers (bs : list GPUBuffer) (w : World) : World :=
  {| gpu := gpu w; data := data w; messageEl := messageEl w;
     console := console w; buffers := bs; uploads := uploads w;
     configured := configured w; resizeObserver := resizeObserver w;
     submitted := submitted w; animationFrames := animationFrames w |}.

Definition with_upload (u : BufferWrite) (w : World) : World :=
  {| gpu := gpu w; data := data w; messageEl := messageEl w;
     console := console w; buffers := buffers w; uploads := uploads w ++ [u];
     configured := configured w; resizeObserver := resizeObserver w;
     submitted := submitted w; animationFrames := animationFrames w |}.

Definition with_configured (c : CanvasConfiguration) (w : World) : World :=
  {| gpu := gpu w; data := data w; messageEl := messageEl w;
     console := console w; buffers := buffers w; uploads := uploads w;
     configured := Some c; resizeObserver := resizeObserver w;
     submitted := submitted w; animationFrames := animationFrames w |}.

Definition with_resizeObserver (dpr : R) (w : World) : World :=
  {| gpu := gpu w; data := data w; messageEl := messageEl w;
     console := console w; buffers := buffers w; uploads := uploads w;
     configured := configured w; resizeObserver := Some dpr;
     submitted := submitted w; animationFrames := animationFrames w |}.

Definition with_submitted (cbs : list CommandBuffer) (w : World) : World :=
  {| gpu := gpu w; data := data w; messageEl := messageEl w;
     console := console w; buffers := buffers w; uploads := uploads w;
     configured := configured w; resizeObserver := resizeObserver w;
     submitted := submitted w ++ cbs; animationFrames := animationFrames w |}.

Definition with_animationFrames (n : nat) (w : World) : World :=
  {| gpu := gpu w; data := data w; messageEl := messageEl w;
     console := console w; buffers := buffers w; uploads := uploads w;
     configured := configured w; resizeObserver := resizeObserver w;
     submitted := submitted w; animationFrames := n |}.

(** Assignments to the fields of [gpu]. *)
Definition set_adapter (x : option Adapter) (s : GpuState) : GpuState :=
  {| adapter := x; device := device s; canvas := canvas s; context := context s;
     presentationFormat := presentationFormat s;
     renderPipeline := renderPipeline s; vertexBuffer := vertexBuffer s;
     uniformBuffer := uniformBuffer s; bindGroup := bindGroup s |}.

Definition set_device (x : option Device) (s : GpuState) : GpuState :=
  {| adapter := adapter s; device := x; canvas := canvas s; context := context s;
     presentationFormat := presentationFormat s;
     renderPipeline := renderPipeline s; vertexBuffer := vertexBuffer s;
     uniformBuffer := uniformBuffer s; bindGroup := bindGroup s |}.

Definition set_canvas (x : option Canvas) (s : GpuState) : GpuState :=
  {| adapter := adapter s; device := device s; canvas := x; context := context s;
     presentationFormat := presentationFormat s;
     renderPipeline := renderPipeline s; vertexBuffer := vertexBuffer s;
     uniformBuffer := uniformBuffer s; bindGroup := bindGroup s |}.

Definition set_context (x : option Context) (s : GpuState) : GpuState :=
  {| adapter := adapter s; device := device s; canvas := canvas s; context := x;
     presentationFormat := presentationFormat s;
     renderPipeline := renderPipeline s; vertexBuffer := vertexBuffer s;
     uniformBuffer := uniformBuffer s; bindGroup := bindGroup s |}.

Definition set_presentationFormat (x : option TextureFormat) (s : GpuState) : GpuState :=
  {| adapter := adapter s; device := device s; canvas := canvas s;
     context := context s; presentationFormat := x;
     renderPipeline := renderPipeline s; vertexBuffer := vertexBuffer s;
     uniformBuffer := uniformBuffer s; bindGroup := bindGroup s |}.

Definition set_renderPipeline (x : option RenderPipeline) (s : GpuState) : GpuState :=
  {| adapter := adapter s; device := device s; canvas := canvas s;
     context := context s; presentationFormat := presentationFormat s;
     renderPipeline := x; vertexBuffer := vertexBuffer s;
     uniformBuffer := uniformBuffer s; bindGroup := bindGroup s |}.

Definition set_vertexBuffer (x : option BufferHandle) (s : GpuState) : GpuState :=
  {| adapter := adapter s; device := device s; canvas := canvas s;
     context := context s; presentationFormat := presentationFormat s;
     renderPipeline := renderPipeline s; vertexBuffer := x;
     uniformBuffer := uniformBuffer s; bindGroup := bindGroup s |}.

Definition set_uniformBuffer (x : option BufferHandle) (s : GpuState) : GpuState :=
  {| adapter := adapter s; device := device s; canvas := canvas s;
     context := context s; presentationFormat := presentationFormat s;
     renderPipeline := renderPipeline s; vertexBuffer := vertexBuffer s;
     uniformBuffer := x; bindGroup := bindGroup s |}.

Definition set_bindGroup (x : option BindGroup) (s : GpuState) : GpuState :=
  {| adapter := adapter s; device := device s; canvas := canvas s;
     context := context s; presentationFormat := presentationFormat s;
     renderPipeline := renderPipeline s; vertexBuffer := vertexBuffer s;
     uniformBuffer := uniformBuffer s; bindGroup := x |}.

(** [gpu.canvas.width = x; gpu.canvas.height = y] *)
Definition set_canvas_size (x y : Z) (s : GpuState) : GpuState :=
  set_canvas
    (option_map (fun c => {| node := node c; width := x; height := y |})
                (canvas s)) s.

Definition set_uniforms (u : Float32Array) (d : DataState) : DataState :=
  {| vertices := vertices d; uniforms := u |}.

(** ** Completions: a state monad in which a throw keeps the state *)

(** What is thrown is an [Error] object, as the script's own [throw new
    Error(...)] and the exceptions and rejections of the WebGPU and DOM
    interfaces are: it has a [message].  A promise rejected with [null] or
    [undefined], on which reading [err.message] in a [catch] block would
    itself raise, is not among the answers of a [Host]. *)
Record Error := { message : string }.

Inductive completion (A : Type) :=
| Normal (x : A)
| Throw (e : Error).

Arguments Normal {A} x.
Arguments Throw {A} e.

Definition M (A : Type) : Type := World -> completion A * World.

Definition ret {A} (x : A) : M A := fun w => (Normal x, w).

Definition throw {A} (msg : string) : M A :=
  fun w => (Throw {| message := msg |}, w).

Definition bind {A B} (c : M A) (k : A -> M B) : M B :=
  fun w =>
    match c w with
    | (Normal x, w') => k x w'
    | (Throw e, w') => (Throw e, w')
    end.

(** [try { c } catch (err) { handler(err) }] *)
Definition try_catch {A} (c : M A) (handler : Error -> M A) : M A :=
  fun w =>
    match c w with
    | (Normal x, w') => (Normal x, w')
    | (Throw e, w') => handler e w'
    end.

Definition modify (f : World -> World) : M unit := fun w => (Normal tt, f w).

Definition read {A} (f : World -> A) : M A := fun w => (Normal (f w), w).

Notation "x <- c ;; k" := (bind c (fun x => k))
  (at level 100, c at next level, right associativity).
Notation "c ;; k" := (bind c (fun _ => k))
  (at level 100, right associativity).

(** ** The host *)

(** The calls into the browser that can raise; the two the script makes
    more than once in a run carry the argument that tells them apart. *)
Inductive HostCall :=
| DeviceLostThen | NewResizeObserver | Observe | GetBoundingClientRect
| GetPreferredCanvasFormat | Configure
| CreateBuffer (d : BufferDescriptor)
| WriteBuffer (buffer : option nat)
| CreateShaderModule | CreateRenderPipeline | GetBindGroupLayout
| CreateBindGroup | SetTimeout
| PerformanceNow | CreateCommandEncoder | GetCurrentTexture | CreateView
| BeginRenderPass | PassSetPipeline | PassSetVertexBuffer | PassSetBindGroup
| PassDraw | PassEnd | Finish | Submit | RequestAnimationFrame.

(** One answer of the browser to each thing the script asks of it.  A
    promise that rejects, or a call that raises, is a [Throw]. *)
Record Host := {
  navigator_gpu : bool;
  requestAdapter : completion (option Adapter);
  requestDevice : completion (option Device);
  canvas_element : option Canvas;
  devicePixelRatio : R;
  boundingClientRect : R * R;
  getContext : completion (option Context);
  preferredCanvasFormat : TextureFormat;
  performance_now : R;
  raises : HostCall -> option string
}.

Definition host_call (h : Host) (c : HostCall) : M unit :=
  fun w =>
    match raises h c with
    | Some msg => (Throw {| message := msg |}, w)
    | None => (Normal tt, w)
    end.

(** [await p], the promise [p] being settled by the time the script goes on;
    also the answer of a synchronous call that may return or raise. *)
Definition await {A} (p : completion A) : M A := fun w => (p, w).

Definition console_log (l : LogLevel) (s : string) : M unit :=
  modify (with_console l s).

(** ** The device, as the script drives it *)

(** [device.createBuffer(desc)]: a fresh zero-filled buffer at the end of
    device memory. *)
Definition createBuffer (h : Host) (d : BufferDescriptor) : M BufferHandle :=
  host_call h (CreateBuffer d) ;;
  fresh <- read (fun w => length (buffers w)) ;;
  modify (fun w =>
    with_buffers
      (buffers w ++
         [{| buf_size := desc_size d; buf_usage := desc_usage d;
             contents := repeat 0 (Z.to_nat (desc_size d / 4)) |}]) w) ;;
  ret fresh.

(** Overwriting the elements of [old] from element [k] on with [new]. *)
Definition overwrite (k : nat) (new old : list R) : list R :=
  take k old ++ new ++ drop (k + length new) old.

(** [device.queue.writeBuffer(buffer, bufferOffset, data)] with a whole typed
    array as [data].  A null buffer is a TypeError, a range that does not
    fit the buffer an OperationError. *)
Definition writeBuffer (h : Host) (buffer : option BufferHandle)
    (bufferOffset : Z) (d : Float32Array) : M unit :=
  host_call h (WriteBuffer buffer) ;;
  match buffer with
  | None => throw "TypeError: parameter 1 is not of type 'GPUBuffer'."
  | Some i =>
      fun w =>
        match buffers w !! i with
        | None => (Throw {| message := "TypeError: not a GPUBuffer of this device." |}, w)
        | Some buf =>
            if ((0 <=? bufferOffset) && (bufferOffset mod 4 =? 0)
                && (bufferOffset + byteLength d <=? buf_size buf))%Z
            then
              (Normal tt,
               with_upload
                 {| write_target := i; write_offset := bufferOffset;
                    write_data := d |}
                 (with_buffers
                    (<[ i := {| buf_size := buf_size buf;
                                buf_usage := buf_usage buf;
                                contents :=
                                  overwrite (Z.to_nat (bufferOffset / 4)) d
                                            (contents buf) |} ]> (buffers w))
                    w))
            else (Throw {| message := "OperationError: write out of range." |}, w)
        end
  end.

Definition createCommandEncoder (h : Host) : M CommandEncoder :=
  host_call h CreateCommandEncoder ;; ret [].

(** [context.getCurrentTexture()]: the image of the canvas at its present
    drawing-buffer size. *)
Definition getCurrentTexture (h : Host) (c : Canvas) : M Texture :=
  host_call h GetCurrentTexture ;;
  ret {| tex_width := width c; tex_height := height c |}.

Definition createView (h : Host) (t : Texture) : M TextureView :=
  host_call h CreateView ;; ret {| view_of := t |}.

Definition beginRenderPass (h : Host) (d : RenderPassDescriptor) : M RenderPass :=
  host_call h BeginRenderPass ;; ret {| descriptor := d; commands := [] |}.

Definition record (c : PassCommand) (p : RenderPass) : RenderPass :=
  {| descriptor := descriptor p; commands := commands p ++ [c] |}.

Definition setPipeline (h : Host) (p : RenderPass) (x : RenderPipeline) : M RenderPass :=
  host_call h PassSetPipeline ;; ret (record (SetPipeline x) p).

Definition setVertexBuffer (h : Host) (p : RenderPass) (slot : Z)
    (x : BufferHandle) : M RenderPass :=
  host_call h PassSetVertexBuffer ;; ret (record (SetVertexBuffer slot x) p).

Definition setBindGroup (h : Host) (p : RenderPass) (index : Z)
    (x : option BindGroup) : M RenderPass :=
  host_call h PassSetBindGroup ;; ret (record (SetBindGroup index x) p).

Definition draw (h : Host) (p : RenderPass)
    (vertexCount instanceCount firstVertex firstInstance : Z) : M RenderPass :=
  host_call h PassDraw ;;
  ret (record (Draw vertexCount instanceCount firstVertex firstInstance) p).

(** [passEncoder.end()] closes the pass into its command encoder. *)
Definition pass_end (h : Host) (enc : CommandEncoder) (p : RenderPass) : M CommandEncoder :=
  host_call h PassEnd ;; ret (enc ++ [p]).

Definition finish (h : Host) (enc : CommandEncoder) : M CommandBuffer :=
  host_call h Finish ;; ret enc.

Definition submit (h : Host) (cbs : list CommandBuffer) : M unit :=
  host_call h Submit ;; modify (with_submitted cbs).

(** ** [render] *)

(** The surface can be drawn to: the second guard of [render], negated. *)
Definition presentable (c : Canvas) : bool :=
  negb ((width c =? 0)%Z || (height c =? 0)%Z).

Definition render (h : Host) : M unit :=
  gpu_ <- read gpu ;;
  match device gpu_, context gpu_, renderPipeline gpu_, canvas gpu_,
        vertexBuffer gpu_ with
  | Some _, Some _, Some pipeline, Some canvas_, Some vertexBuffer_ =>
      if ((width canvas_ =? 0)%Z || (height canvas_ =? 0)%Z) then
        console_log warn "Canvas has zero size, skipping render."
      else
        host_call h PerformanceNow ;;
        let time := performance_now h / 1000 in
        modify (with_data (fun d => set_uniforms (array_set 0 (sin time * 0.3) (uniforms d)) d)) ;;
        modify (with_data (fun d => set_uniforms (array_set 1 (cos time * 0.3) (uniforms d)) d)) ;;
        uniforms_ <- read (fun w => uniforms (data w)) ;;
        writeBuffer h (uniformBuffer gpu_) 0 uniforms_ ;;
        commandEncoder <- createCommandEncoder h ;;
        texture <- getCurrentTexture h canvas_ ;;
        textureView <- createView h texture ;;
        let renderPassDescriptor :=
          {| colorAttachments :=
               [ {| view := textureView;
                    clearValue := {| r := 0.1; g := 0.1; b := 0.2; a := 1.0 |};
                    loadOp := load_clear;
                    storeOp := store_store |} ] |} in
        passEncoder <- beginRenderPass h renderPassDescriptor ;;
        passEncoder <- setPipeline h passEncoder pipeline ;;
        passEncoder <- setVertexBuffer h passEncoder 0 vertexBuffer_ ;;
        passEncoder <- setBindGroup h passEncoder 0 (bindGroup gpu_) ;;
        passEncoder <- draw h passEncoder 3 1 0 0 ;;
        commandEncoder <- pass_end h commandEncoder passEncoder ;;
        commandBuffer <- finish h commandEncoder ;;
        submit h [commandBuffer]
  | _, _, _, _, _ => ret tt
  end.

(** [runGameLoop]: this frame, then the request for the next. *)
Definition runGameLoop (h : Host) : M unit :=
  render h ;;
  host_call h RequestAnimationFrame ;;
  modify (fun w => with_animationFrames (S (animationFrames w)) w).

(** ** The shader *)

(** The WGSL program of [shaderCode], stage by stage. *)
Module Shader.

Definition vec2 : Type := R * R.
Definition vec4 : Type := R * R * R * R.

(** [struct Globals { offset: vec2<f32> }] *)
Record Globals := { offset : vec2 }.

(** [struct VertexOutput { @builtin(position) position; @location(0) color }] *)
Record VertexOutput := { position : vec4; color : vec4 }.

Definition vec2_add (u v : vec2) : vec2 := (fst u + fst v, snd u + snd v).

(** [vec4<f32>(xy, z, w)] *)
Definition vec4_of (xy : vec2) (z w : R) : vec4 := (fst xy, snd xy, z, w).

Definition vs_main (u_globals : Globals) (in_position : vec2) (in_color : vec4)
  : VertexOutput :=
  {| position := vec4_of (vec2_add in_position (offset u_globals)) 0.0 1.0;
     color := in_color |}.


End Shader.

(** The declarations of [shaderCode]: [u_globals] at group 0, binding 0 (one
    [vec2<f32>], eight bytes), [vs_main] reading locations 0 and 1, [fs_main]
    reading location 0. *)
Definition shaderCode : WGSL :=
  {| uniform_group := 0;
     uniform_binding := 0;
     uniform_bytes := 8;
     vertex_entry := "vs_main";
     vertex_inputs := [ (0%Z, float32x2); (1%Z, float32x4) ];
     fragment_entry := "fs_main";
     fragment_inputs := [ (0%Z, float32x4) ] |}.

Definition vertexBufferLayout : VertexBufferLayout :=
  {| arrayStride := 6 * 4;
     attributes :=
       [ {| shaderLocation := 0; offset := 0; format := float32x2 |};
         {| shaderLocation := 1; offset := 2 * 4; format := float32x4 |} ] |}.

(** *** Vertex fetch

    How the pipeline feeds [vs_main]: the attribute at [shaderLocation] of
    vertex [i] lies [i * arrayStride + offset] bytes into the vertex buffer. *)

Definition components (f : VertexFormat) : nat :=
  match f with float32x2 => 2 | float32x4 => 4 end.


Definition fetch (l : VertexBufferLayout) (buf : list R) (i : nat)
    (at_ : VertexAttribute) : option (list R) :=
  let start := Z.to_nat ((Z.of_nat i * arrayStride l + offset at_) / 4) in
  let xs := take (components (format at_)) (drop start buf) in
  if (length xs =? components (format at_))%nat then Some xs else None.

Definition attribute_at (l : VertexBufferLayout) (loc : Z) : option VertexAttribute :=
  find (fun x => (shaderLocation x =? loc)%Z) (attributes l).

Definition fetch_location (l : VertexBufferLayout) (buf : list R) (i : nat)
    (loc : Z) : option (list R) :=
  match attribute_at l loc with
  | Some x => fetch l buf i x
  | None => None
  end.

(** The vertex stage of a pipeline on vertex [i], with the uniform read from
    the start of the bound buffer. *)
Definition vertex_stage (p : RenderPipeline) (vbuf ubuf : list R) (i : nat)
    : option Shader.VertexOutput :=
  match vertex_buffers p, ubuf with
  | [l], ox :: oy :: _ =>
      match fetch_location l vbuf i 0, fetch_location l vbuf i 1 with
      | Some [px; py], Some [cr; cg; cb; ca] =>
          Some (Shader.vs_main {| Shader.offset := (ox, oy) |}
                               (px, py) (cr, cg, cb, ca))
      | _, _ => None
      end
  | _, _ => None
  end.

(** ** [initializeWebGPU] *)

Definition createShaderModule (h : Host) (c : WGSL) : M ShaderModule :=
  host_call h CreateShaderModule ;; ret {| code := c |}.

Definition createRenderPipeline (h : Host) (p : RenderPipeline) : M RenderPipeline :=
  host_call h CreateRenderPipeline ;; ret p.

Definition getBindGroupLayout (h : Host) (p : RenderPipeline) (i : Z) : M BindGroupLayout :=
  host_call h GetBindGroupLayout ;; ret {| of_pipeline := p; group_index := i |}.

Definition createBindGroup (h : Host) (x : BindGroup) : M BindGroup :=
  host_call h CreateBindGroup ;; ret x.

Definition configure (h : Host) (c : CanvasConfiguration) : M unit :=
  host_call h Configure ;; modify (with_configured c).

(** [x > 0] on numbers *)
Definition is_positive (x : R) : bool := if Rlt_dec 0 x then true else false.

(** [window.devicePixelRatio || 1] *)
Definition dpr_of (h : Host) : R :=
  if Req_dec_T (devicePixelRatio h) 0 then 1 else devicePixelRatio h.

(** The two assignments both resize paths make when [width > 0 && height > 0]. *)
Definition resize_to (dpr width_ height_ : R) (s : GpuState) : GpuState :=
  if is_positive width_ && is_positive height_ then
    set_canvas_size (Math_round (width_ * dpr)) (Math_round (height_ * dpr)) s
  else s.

Record ResizeObserverEntry := {
  target : nat;
  contentRect : R * R
}.

(** The callback given to [new ResizeObserver], [dpr] being the value it
    closed over. *)
Definition resize_callback (dpr : R) (entries_ : list ResizeObserverEntry)
    : World -> World :=
  with_gpu (fun s =>
    fold_left
      (fun s entry =>
         match canvas s with
         | Some c =>
             if (target entry =? node c)%nat then
               resize_to dpr (fst (contentRect entry)) (snd (contentRect entry)) s
             else s
         | None => s
         end)
      entries_ s).

Definition set_innerText (t : string) (m : MessageElement) : MessageElement :=
  {| innerText := t; backgroundColor := backgroundColor m;
     hide_timer := hide_timer m |}.

Definition set_backgroundColor (c : string) (m : MessageElement) : MessageElement :=
  {| innerText := innerText m; backgroundColor := c;
     hide_timer := hide_timer m |}.

Definition set_hide_timer (m : MessageElement) : MessageElement :=
  {| innerText := innerText m; backgroundColor := backgroundColor m;
     hide_timer := true |}.

(** The [try] block. *)
Definition initialize_try (h : Host) : M bool :=
  adapter_ <- await (requestAdapter h) ;;
  modify (with_gpu (set_adapter adapter_)) ;;
  match adapter_ with
  | None => throw "Failed to get GPU adapter."
  | Some _ =>
  device_ <- await (requestDevice h) ;;
  modify (with_gpu (set_device device_)) ;;
  match device_ with
  | None => throw "Failed to get GPU device."
  | Some dev =>
  host_call h DeviceLostThen ;;
  modify (with_gpu (set_canvas (canvas_element h))) ;;
  match canvas_element h with
  | None => throw "Failed to get canvas element."
  | Some _ =>
  let dpr := dpr_of h in
  host_call h NewResizeObserver ;;
  host_call h Observe ;;
  modify (with_resizeObserver dpr) ;;
  host_call h GetBoundingClientRect ;;
  modify (with_gpu (resize_to dpr (fst (boundingClientRect h))
                              (snd (boundingClientRect h)))) ;;
  context_ <- await (getContext h) ;;
  modify (with_gpu (set_context context_)) ;;
  match context_ with
  | None => throw "Failed to get WebGPU context from canvas."
  | Some _ =>
  host_call h GetPreferredCanvasFormat ;;
  modify (with_gpu (set_presentationFormat (Some (preferredCanvasFormat h)))) ;;
  format_ <- read (fun w => presentationFormat (gpu w)) ;;
  configure h {| config_device := dev; config_format := format_;
                 config_alphaMode := premultiplied |} ;;
  vertices_ <- read (fun w => vertices (data w)) ;;
  vb <- createBuffer h
          {| desc_size := byteLength vertices_;
             desc_usage := Z.lor GPUBufferUsage_VERTEX GPUBufferUsage_COPY_DST |} ;;
  modify (with_gpu (set_vertexBuffer (Some vb))) ;;
  vertexBuffer_ <- read (fun w => vertexBuffer (gpu w)) ;;
  writeBuffer h vertexBuffer_ 0 vertices_ ;;
  ub <- createBuffer h
          {| desc_size := SIZEOF_UNIFORMS;
             desc_usage := Z.lor GPUBufferUsage_UNIFORM GPUBufferUsage_COPY_DST |} ;;
  modify (with_gpu (set_uniformBuffer (Some ub))) ;;
  uniformBuffer_ <- read (fun w => uniformBuffer (gpu w)) ;;
  uniforms_ <- read (fun w => uniforms (data w)) ;;
  writeBuffer h uniformBuffer_ 0 uniforms_ ;;
  shaderModule <- createShaderModule h shaderCode ;;
  pipeline <- createRenderPipeline h
                {| layout := layout_auto;
                   vertex_module := shaderModule;
                   vertex_entryPoint := "vs_main";
                   vertex_buffers := [vertexBufferLayout];
                   fragment_module := shaderModule;
                   fragment_entryPoint := "fs_main";
                   fragment_targets := [format_];
                   topology := triangle_list |} ;;
  modify (with_gpu (set_renderPipeline (Some pipeline))) ;;
  layout0 <- getBindGroupLayout h pipeline 0 ;;
  group <- createBindGroup h
             {| bg_layout := layout0;
                entries := [ {| binding := 0; resource_buffer := uniformBuffer_ |} ] |} ;;
  modify (with_gpu (set_bindGroup (Some group))) ;;
  console_log log "WebGPU Initialized Successfully!" ;;
  has_message <- read (fun w => match messageEl w with Some _ => true | None => false end) ;;
  (if (has_message : bool) then
     modify (with_messageEl (set_innerText "WebGPU Ready! (Part 5)")) ;;
     modify (with_messageEl (set_backgroundColor "rgba(0, 255, 100, 0.2)")) ;;
     host_call h SetTimeout ;;
     modify (with_messageEl set_hide_timer)
   else ret tt) ;;
  ret true
  end end end end.

(** The [catch] block. *)
Definition initialize_catch (err : Error) : M bool :=
  let errorMsg := ("WebGPU initialization failed: " ++ message err)%string in
  console_log error errorMsg ;;
  modify (with_messageEl (set_innerText errorMsg)) ;;
  ret false.

Definition initializeWebGPU (h : Host) : M bool :=
  console_log log "Initializing WebGPU..." ;;
  if negb (navigator_gpu h) then
    throw "WebGPU not supported on this browser."
  else
    try_catch (initialize_try h) initialize_catch.

(** ** The script as a whole *)

(** Loading the script: the two globals, the lookup of [#message]. *)
Definition script_load (m : option MessageElement) : World :=
  let w :=
    {| gpu := gpu_init; data := data_init; messageEl := m; console := [];
       buffers := []; uploads := []; configured := None;
       resizeObserver := None; submitted := []; animationFrames := 0 |} in
  match m with
  | Some _ => w
  | None => with_console error "Failed to find #message element." w
  end.

(** The start-up function: [h] answers the initialisation, [h1] the first
    frame. *)
Definition startup (h h1 : Host) : M unit :=
  success <- initializeWebGPU h ;;
  if (success : bool) then
    console_log log "WebGPU State:" ;;
    runGameLoop h1
  else
    console_log log "WebGPU setup failed. See console for errors.".

(** What the browser does to the page afterwards: it runs a requested
    animation frame, or delivers observations to the resize observer.  The
    two other callbacks the script registers (on [device.lost] and the
    two-second timer) write only to the console and to the style of
    [#message]. *)
Inductive Event :=
| AnimationFrame (h : Host)
| ResizeObserved (entries_ : list ResizeObserverEntry).

Definition handle (e : Event) (w : World) : World :=
  match e with
  | AnimationFrame h =>
      match animationFrames w with
      | O => w
      | S n => snd (runGameLoop h (with_animationFrames n w))
      end
  | ResizeObserved entries_ =>
      match resizeObserver w with
      | Some dpr => resize_callback dpr entries_ w
      | None => w
      end
  end.

Definition run (es : list Event) (w : World) : World :=
  fold_left (fun w e => handle e w) es w.

(** The worlds the page can be in: the script loaded, started, and any
    number of events handled. *)
Definition reachable (w : World) : Prop :=
  exists m h h1 es, w = run es (snd (startup h h1 (script_load m))).

(** * Vocabulary of the statements *)

(** The uniform array after the two assignments of a frame at clock reading
    [now] (in milliseconds). *)
Definition frame_uniforms (now : R) (u : Float32Array) : Float32Array :=
  array_set 1 (cos (now / 1000) * 0.3) (array_set 0 (sin (now / 1000) * 0.3) u).

(** The one render pass of a frame. *)
Definition frame_pass (p : RenderPipeline) (vb : BufferHandle)
    (bg : option BindGroup) (cv : Canvas) : RenderPass :=
  {| descriptor :=
       {| colorAttachments :=
            [ {| view := {| view_of := {| tex_width := width cv;
                                          tex_height := height cv |} |};
                 clearValue := {| r := 0.1; g := 0.1; b := 0.2; a := 1.0 |};
                 loadOp := load_clear;
                 storeOp := store_store |} ] |};
     commands := [ SetPipeline p; SetVertexBuffer 0 vb; SetBindGroup 0 bg;
                   Draw 3 1 0 0 ] |}.

(** Both guards of [render] let the frame through. *)
Definition ready (w : World) : bool :=
  match device (gpu w), context (gpu w), renderPipeline (gpu w),
        canvas (gpu w), vertexBuffer (gpu w) with
  | Some _, Some _, Some _, Some cv, Some _ => presentable cv
  | _, _, _, _, _ => false
  end.

(** The world after a frame that went through. *)
Definition drawn (now : R) (p : RenderPipeline) (vb ub : BufferHandle)
    (cv : Canvas) (buf : GPUBuffer) (w : World) : World :=
  let us := frame_uniforms now (uniforms (data w)) in
  {| gpu := gpu w;
     data := set_uniforms us (data w);
     messageEl := messageEl w;
     console := console w;
     buffers := <[ ub := {| buf_size := buf_size buf; buf_usage := buf_usage buf;
                            contents := overwrite 0 us (contents buf) |} ]> (buffers w);
     uploads := uploads w ++ [ {| write_target := ub; write_offset := 0;
                                  write_data := us |} ];
     configured := configured w;
     resizeObserver := resizeObserver w;
     submitted := submitted w ++ [ [ frame_pass p vb (bindGroup (gpu w)) cv ] ];
     animationFrames := animationFrames w |}.

(** A host none of whose calls raises. *)
Definition quiet (h : Host) : Prop := forall c, raises h c = None.


(** The canvas after a resize path ran on it. *)
Definition resized (dpr width_ height_ : R) (cv : Canvas) : Canvas :=
  if is_positive width_ && is_positive height_ then
    {| node := node cv;
       width := Math_round (width_ * dpr);
       height := Math_round (height_ * dpr) |}
  else cv.

(** The pipeline and the bind group [initializeWebGPU] asks for. *)
Definition pipeline_for (fmt : TextureFormat) : RenderPipeline :=
  {| layout := layout_auto;
     vertex_module := {| code := shaderCode |};
     vertex_entryPoint := "vs_main";
     vertex_buffers := [vertexBufferLayout];
     fragment_module := {| code := shaderCode |};
     fragment_entryPoint := "fs_main";
     fragment_targets := [Some fmt];
     topology := triangle_list |}.

Definition bindGroup_for (p : RenderPipeline) (ub : BufferHandle) : BindGroup :=
  {| bg_layout := {| of_pipeline := p; group_index := 0 |};
     entries := [ {| binding := 0; resource_buffer := Some ub |} ] |}.

(** The world a successful [initializeWebGPU] leaves behind on a freshly
    loaded script. *)
Definition initialised (h : Host) (a_ : Adapter) (d : Device) (cv : Canvas)
    (ctx : Context) (m : option MessageElement) : World :=
  {| gpu :=
       {| adapter := Some a_;
          device := Some d;
          canvas := Some (resized (dpr_of h) (fst (boundingClientRect h))
                                  (snd (boundingClientRect h)) cv);
          context := Some ctx;
          presentationFormat := Some (preferredCanvasFormat h);
          renderPipeline := Some (pipeline_for (preferredCanvasFormat h));
          vertexBuffer := Some 0%nat;
          uniformBuffer := Some 1%nat;
          bindGroup :=
            Some (bindGroup_for (pipeline_for (preferredCanvasFormat h)) 1%nat) |};
     data := data_init;
     messageEl :=
       option_map
         (fun _ => {| innerText := "WebGPU Ready! (Part 5)";
                      backgroundColor := "rgba(0, 255, 100, 0.2)";
                      hide_timer := true |}) m;
     console :=
       console (script_load m) ++
       [ (log, "Initializing WebGPU...");
         (log, "WebGPU Initialized Successfully!") ];
     buffers :=
       [ {| buf_size := 72;
            buf_usage := Z.lor GPUBufferUsage_VERTEX GPUBufferUsage_COPY_DST;
            contents := vertices data_init |};
         {| buf_size := 16;
            buf_usage := Z.lor GPUBufferUsage_UNIFORM GPUBufferUsage_COPY_DST;
            contents := uniforms data_init |} ];
     uploads :=
       [ {| write_target := 0%nat; write_offset := 0;
            write_data := vertices data_init |};
         {| write_target := 1%nat; write_offset := 0;
            write_data := uniforms data_init |} ];
     configured :=
       Some {| config_device := d;
               config_format := Some (preferredCanvasFormat h);
               config_alphaMode := premultiplied |};
     resizeObserver := Some (dpr_of h);
     submitted := [];
     animationFrames := 0 |}.

(** ** A page on which everything works

    A 640 by 480 canvas at device pixel ratio 1, a host that never raises,
    the clock reading [now] milliseconds. *)
Definition page (now : R) : Host :=
  {| navigator_gpu := true;
     requestAdapter := Normal (Some {| adapter_id := 0%nat |});
     requestDevice := Normal (Some {| device_id := 0%nat |});
     canvas_element := Some {| node := 0%nat; width := 300; height := 150 |};
     devicePixelRatio := 1;
     boundingClientRect := (640, 480);
     getContext := Normal (Some {| context_id := 0%nat |});
     preferredCanvasFormat := bgra8unorm;
     performance_now := now;
     raises := fun _ => None |}.

(** The stations of a frame that went through the guards: the uniforms
    assigned, then the buffer written, then ([drawn]) the commands
    submitted. *)
Definition assigned (now : R) (w : World) : World :=
  with_data (set_uniforms (frame_uniforms now (uniforms (data w)))) w.

Definition uploaded (now : R) (ub : BufferHandle) (buf : GPUBuffer) (w : World)
    : World :=
  let us := frame_uniforms now (uniforms (data w)) in
  with_upload {| write_target := ub; write_offset := 0; write_data := us |}
    (with_buffers
       (<[ ub := {| buf_size := buf_size buf; buf_usage := buf_usage buf;
                    contents := overwrite 0 us (contents buf) |} ]> (buffers w))
       (assigned now w)).

(** ** What stays fixed once initialisation has succeeded *)

(** A uniform block: the two offsets, then two floats of padding. *)
Definition padded (u : list R) : Prop :=
  exists x y z t, u = [x; y; z; t] /\ z = 0 /\ t = 0.

Definition vertex_upload : BufferWrite :=
  {| write_target := 0%nat; write_offset := 0;
     write_data := vertices data_init |}.

Definition uniform_upload (u : BufferWrite) : Prop :=
  write_target u = 1%nat /\ write_offset u = 0%Z /\ padded (write_data u).

Record settled (fmt : TextureFormat) (w : World) : Prop := {
  settled_gpu :
    exists a_ d cv ctx,
      gpu w =
      {| adapter := Some a_; device := Some d; canvas := Some cv;
         context := Some ctx; presentationFormat := Some fmt;
         renderPipeline := Some (pipeline_for fmt);
         vertexBuffer := Some 0%nat; uniformBuffer := Some 1%nat;
         bindGroup := Some (bindGroup_for (pipeline_for fmt) 1%nat) |};
  settled_vertices : vertices (data w) = vertices data_init;
  settled_uniforms : padded (uniforms (data w));
  settled_buffers :
    exists cs,
      padded cs /\
      buffers w =
      [ {| buf_size := 72;
           buf_usage := Z.lor GPUBufferUsage_VERTEX GPUBufferUsage_COPY_DST;
           contents := vertices data_init |};
        {| buf_size := 16;
           buf_usage := Z.lor GPUBufferUsage_UNIFORM GPUBufferUsage_COPY_DST;
           contents := cs |} ];
  settled_uploads :
    exists us, uploads w = vertex_upload :: us /\ Forall uniform_upload us
}.

(** ** Fatal causes of a failed initialisation *)

(** The host gave the script a device, a surface and a compiled shader. *)
Definition provided (h : Host) : Prop :=
  (exists a_, requestAdapter h = Normal (Some a_)) /\
  (exists d, requestDevice h = Normal (Some d)) /\
  (exists cv, canvas_element h = Some cv) /\
  (exists ctx, getContext h = Normal (Some ctx)) /\
  raises h CreateShaderModule = None /\
  raises h CreateRenderPipeline = None.

Inductive FatalCause :=
| NoDevice      (* no adapter or no device, by null or by rejection *)
| NoSurface     (* no canvas element or no WebGPU context on it *)
| ShaderFailure (* the shader module or the pipeline built from it raises *).

Definition suffers (h : Host) (c : FatalCause) : Prop :=
  match c with
  | NoDevice =>
      (forall a_, requestAdapter h <> Normal (Some a_)) \/
      (forall d, requestDevice h <> Normal (Some d))
  | NoSurface =>
      canvas_element h = None \/
      (forall ctx, getContext h <> Normal (Some ctx))
  | ShaderFailure =>
      raises h CreateShaderModule <> None \/
      raises h CreateRenderPipeline <> None
  end.

(** The same page in a browser without WebGPU. *)
Definition page_without_webgpu : Host :=
  {| navigator_gpu := false;
     requestAdapter := requestAdapter (page 0);
     requestDevice := requestDevice (page 0);
     canvas_element := canvas_element (page 0);
     devicePixelRatio := devicePixelRatio (page 0);
     boundingClientRect := boundingClientRect (page 0);
     getContext := getContext (page 0);
     preferredCanvasFormat := preferredCanvasFormat (page 0);
     performance_now := performance_now (page 0);
     raises := raises (page 0) |}.

(** The page after its initialisation, before the first frame. *)
Definition page_world : World :=
  snd (initializeWebGPU (page 0) (script_load None)).

Definition canvas_640x480 : Canvas :=
  {| node := 0%nat; width := 640; height := 480 |}.

(** The page with its canvas collapsed to nothing when the script starts. *)
Definition page_hidden : Host :=
  {| navigator_gpu := true;
     requestAdapter := requestAdapter (page 0);
     requestDevice := requestDevice (page 0);
     canvas_element := Some {| node := 0%nat; width := 0; height := 0 |};
     devicePixelRatio := 1;
     boundingClientRect := (0, 0);
     getContext := getContext (page 0);
     preferredCanvasFormat := bgra8unorm;
     performance_now := 1000;
     raises := fun _ => None |}.

Definition hidden_world : World :=
  snd (initializeWebGPU page_hidden (script_load None)).

(** Whenever a pipeline is stored, the uniform buffer is a live buffer that
    holds the uniform array. *)
Definition wired (w : World) : Prop :=
  renderPipeline (gpu w) = None \/
  exists ub buf,
    uniformBuffer (gpu w) = Some ub /\ buffers w !! ub = Some buf /\
    (byteLength (uniforms (data w)) <= buf_size buf)%Z.

(** ** The calls of an initialisation *)

Definition vertex_descriptor : BufferDescriptor :=
  {| desc_size := byteLength (vertices data_init);
     desc_usage := Z.lor GPUBufferUsage_VERTEX GPUBufferUsage_COPY_DST |}.

Definition uniform_descriptor : BufferDescriptor :=
  {| desc_size := SIZEOF_UNIFORMS;
     desc_usage := Z.lor GPUBufferUsage_UNIFORM GPUBufferUsage_COPY_DST |}.

(** The calls [initializeWebGPU] makes into the host on a freshly loaded
    script, in the order it makes them; the timer only when [#message]
    exists. *)
Definition init_calls (m : option MessageElement) : list HostCall :=
  [ DeviceLostThen; NewResizeObserver; Observe; GetBoundingClientRect;
    GetPreferredCanvasFormat; Configure;
    CreateBuffer vertex_descriptor; WriteBuffer (Some 0%nat);
    CreateBuffer uniform_descriptor; WriteBuffer (Some 1%nat);
    CreateShaderModule; CreateRenderPipeline; GetBindGroupLayout;
    CreateBindGroup ] ++
  match m with Some _ => [ SetTimeout ] | None => [] end.

(** Everything an initialisation needs of the host. *)
Definition obliging (h : Host) (m : option MessageElement) : Prop :=
  navigator_gpu h = true /\
  (exists a_, requestAdapter h = Normal (Some a_)) /\
  (exists d, requestDevice h = Normal (Some d)) /\
  (exists cv, canvas_element h = Some cv) /\
  (exists ctx, getContext h = Normal (Some ctx)) /\
  Forall (fun c => raises h c = None) (init_calls m).

(** The initialisation on a freshly loaded script fails and reports [msg]. *)
Definition reports (h : Host) (m : option MessageElement) (msg : string) : Prop :=
  exists w',
    initializeWebGPU h (script_load m) = (Normal false, w') /\
    last (console w') =
    Some (error, ("WebGPU initialization failed: " ++ msg)%string).

(** The page in a browser that hands out no adapter. *)
Definition page_without_adapter : Host :=
  {| navigator_gpu := true;
     requestAdapter := Normal None;
     requestDevice := requestDevice (page 0);
     canvas_element := canvas_element (page 0);
     devicePixelRatio := devicePixelRatio (page 0);
     boundingClientRect := boundingClientRect (page 0);
     getContext := getContext (page 0);
     preferredCanvasFormat := preferredCanvasFormat (page 0);
     performance_now := performance_now (page 0);
     raises := raises (page 0) |}.

(** ** What the queue and the uniform buffer can hold *)

(** The command buffer of a frame of the triangle on a surface of non-zero
    size: one pass, with the pipeline built for format [fmt], the vertex
    buffer and the bind group that initialisation made. *)
Definition triangle_frame (fmt : TextureFormat) (cb : CommandBuffer) : Prop :=
  exists cv,
    presentable cv = true /\
    cb = [ frame_pass (pipeline_for fmt) 0%nat
             (Some (bindGroup_for (pipeline_for fmt) 1%nat)) cv ].

(** A uniform block whose two offsets are within 0.3 of zero, up to the
    rounding of a 32-bit float below one half (2^-26). *)
Definition on_orbit (u : list R) : Prop :=
  exists x y z t,
    u = [x; y; z; t] /\
    Rabs x <= 0.3 + / 67108864 /\ Rabs y <= 0.3 + / 67108864.
(** * Properties *)

(** ** Rounding *)

Lemma Math_round_bounds (x : R) :
  IZR (Math_round x) <= x + / 2 < IZR (Math_round x) + 1.
Proof.
  unfold Math_round. rewrite minus_IZR.
  destruct (archimed (x + / 2)) as [Hgt Hle]. lra.
Qed.

Lemma Math_round_IZR (n : Z) : Math_round (IZR n) = n.
Proof.
  unfold Math_round.
  rewrite <- (tech_up (IZR n + / 2) (n + 1)).
  - lia.
  - rewrite plus_IZR. lra.
  - rewrite plus_IZR. lra.
Qed.

Lemma Math_round_ge_1 (x : R) : / 2 <= x -> (1 <= Math_round x)%Z.
Proof.
  intros Hx. pose proof (Math_round_bounds x) as [_ Hlt].
  assert (0 < IZR (Math_round x)) as H0 by lra.
  apply lt_IZR in H0. lia.
Qed.

Lemma Math_round_small (x : R) : 0 <= x < / 2 -> Math_round x = 0%Z.
Proof.
  intros [H0 H1]. pose proof (Math_round_bounds x) as [Hle Hlt].
  assert (IZR (Math_round x) < 1) as Ha by lra.
  assert (-1 < IZR (Math_round x)) as Hb by lra.
  apply lt_IZR in Ha. apply lt_IZR in Hb. lia.
Qed.

Lemma is_positive_true (x : R) : 0 < x -> is_positive x = true.
Proof. intros Hx. unfold is_positive. destruct (Rlt_dec 0 x); [reflexivity | contradiction]. Qed.

Lemma is_positive_false (x : R) : x <= 0 -> is_positive x = false.
Proof. intros Hx. unfold is_positive. destruct (Rlt_dec 0 x); [lra | reflexivity]. Qed.

(** ** Storing into a [Float32Array] *)

Lemma Rabs_le_inv (a b : R) : Rabs a <= b -> - b <= a <= b.
Proof. unfold Rabs. destruct (Rcase_abs a); lra. Qed.

Lemma round_half_even_error (x : R) :
  Rabs (IZR (round_half_even x) - x) <= / 2.
Proof.
  unfold round_half_even. pose proof (Zfloor_bound x) as [Hl Hu].
  destruct (Rlt_dec (x - IZR (Zfloor x)) (/ 2)) as [H1 | H1].
  - apply Rabs_le. lra.
  - assert (IZR (Zfloor x + 1) = IZR (Zfloor x) + 1) as Hp by (rewrite plus_IZR; reflexivity).
    destruct (Rlt_dec (/ 2) (x - IZR (Zfloor x))) as [H2 | H2].
    + rewrite Hp. apply Rabs_le. lra.
    + destruct (Z.even (Zfloor x)); [ | rewrite Hp ]; apply Rabs_le; lra.
Qed.

Lemma round_half_even_IZR (n : Z) : round_half_even (IZR n) = n.
Proof.
  unfold round_half_even. rewrite ZfloorZ.
  destruct (Rlt_dec (IZR n - IZR n) (/ 2)) as [_ | H]; [ reflexivity | ].
  exfalso. apply H. lra.
Qed.

Lemma ln_powerRZ_2 (e : Z) : ln (powerRZ 2 e) = IZR e * ln 2.
Proof. rewrite powerRZ_Rpower by lra. apply ln_Rpower. Qed.

Lemma ln_2_pos : 0 < ln 2.
Proof. pose proof ln_lt_2. lra. Qed.

Lemma ln_le_mono (x y : R) : 0 < x -> x <= y -> ln x <= ln y.
Proof.
  intros Hx [Hlt | ->]; [ | lra ]. left. apply ln_increasing; assumption.
Qed.

Lemma binade_eq (x : R) (e : Z) :
  powerRZ 2 e <= Rabs x < powerRZ 2 (e + 1) -> (-126 <= e)%Z -> binade x = e.
Proof.
  intros [Hl Hu] He. unfold binade.
  assert (0 < powerRZ 2 e) as Hpe by (apply powerRZ_lt; lra).
  assert (0 < Rabs x) as Hx by lra.
  pose proof ln_2_pos as H2.
  assert (Zfloor (ln (Rabs x) / ln 2) = e) as ->; [ | lia ].
  apply Zfloor_eq.
  pose proof (ln_le_mono _ _ Hpe Hl) as Hle.
  pose proof (ln_increasing _ _ Hx Hu) as Hlt.
  rewrite ln_powerRZ_2 in Hle, Hlt. rewrite plus_IZR in Hlt.
  split.
  - apply Rmult_le_reg_r with (r := ln 2); [ exact H2 | ].
    unfold Rdiv. rewrite Rmult_assoc, Rinv_l by lra. lra.
  - apply Rmult_lt_reg_r with (r := ln 2); [ exact H2 | ].
    unfold Rdiv. rewrite Rmult_assoc, Rinv_l by lra. lra.
Qed.

Lemma binade_small (x : R) : x <> 0 -> Rabs x < / 2 -> (binade x <= -2)%Z.
Proof.
  intros Hx Hs. unfold binade.
  pose proof ln_2_pos as H2.
  pose proof (Rabs_pos_lt x Hx) as Hpos.
  assert (ln (Rabs x) < - ln 2) as Hln.
  { rewrite <- ln_Rinv by lra. apply ln_increasing; assumption. }
  assert (ln (Rabs x) / ln 2 < -1) as Hq.
  { apply Rmult_lt_reg_r with (r := ln 2); [ exact H2 | ].
    unfold Rdiv. rewrite Rmult_assoc, Rinv_l by lra. lra. }
  pose proof (Zfloor_bound (ln (Rabs x) / ln 2)) as [Hl _].
  assert (IZR (Zfloor (ln (Rabs x) / ln 2)) < IZR (-1)) as Hlt by lra.
  apply lt_IZR in Hlt. lia.
Qed.

Lemma powerRZ_2_le (n m : Z) : (n <= m)%Z -> powerRZ 2 n <= powerRZ 2 m.
Proof.
  intros H. rewrite !powerRZ_Rpower by lra.
  apply Rle_Rpower; [ lra | apply IZR_le; exact H ].
Qed.

Lemma powerRZ_2_m25 : powerRZ 2 (-25) = / 33554432.
Proof. simpl. lra. Qed.

(** Rounding a number below one half to a float moves it by at most half a
    unit in the last place of the binade below one half, 2^-26. *)
Lemma Math_fround_error (x : R) :
  Rabs x < / 2 -> Rabs (Math_fround x - x) <= / 67108864.
Proof.
  intros Hs. unfold Math_fround.
  destruct (Req_dec_T x 0) as [-> | Hx].
  { rewrite Rminus_0_r, Rabs_R0. lra. }
  pose proof (binade_small x Hx Hs) as Hb.
  set (q := powerRZ 2 (binade x - 23)).
  assert (0 < q) as Hq by (apply powerRZ_lt; lra).
  assert (q <= / 33554432) as Hq25.
  { rewrite <- powerRZ_2_m25. apply powerRZ_2_le. lia. }
  pose proof (round_half_even_error (x / q)) as Hr.
  set (n := IZR (round_half_even (x / q))) in *.
  replace (n * q - x) with ((n - x / q) * q) by (field; lra).
  rewrite Rabs_mult, (Rabs_pos_eq q) by lra.
  pose proof (Rabs_pos (n - x / q)). nra.
Qed.

Lemma Math_fround_0 : Math_fround 0 = 0.
Proof. unfold Math_fround. destruct (Req_dec_T 0 0); [ reflexivity | lra ]. Qed.

(** A number with a 24-bit significand in its binade is stored as it is. *)
Lemma Math_fround_exact (x : R) (e n : Z) :
  powerRZ 2 e <= Rabs x < powerRZ 2 (e + 1) -> (-126 <= e)%Z ->
  x = IZR n * powerRZ 2 (e - 23) ->
  Math_fround x = x.
Proof.
  intros Hb He Hx. unfold Math_fround.
  destruct (Req_dec_T x 0) as [H0 | H0]; [ symmetry; exact H0 | ].
  rewrite (binade_eq x e Hb He).
  assert (0 < powerRZ 2 (e - 23)) as Hq by (apply powerRZ_lt; lra).
  replace (x / powerRZ 2 (e - 23)) with (IZR n) by (rewrite Hx; field; lra).
  rewrite round_half_even_IZR. symmetry. exact Hx.
Qed.

Lemma Math_fround_half : Math_fround 0.5 = 0.5.
Proof.
  apply (Math_fround_exact 0.5 (-1) 8388608).
  - rewrite Rabs_pos_eq by lra. simpl. lra.
  - lia.
  - simpl. lra.
Qed.

Lemma Math_fround_minus_half : Math_fround (-0.5) = -0.5.
Proof.
  apply (Math_fround_exact (-0.5) (-1) (-8388608)).
  - rewrite Rabs_left by lra. simpl. lra.
  - lia.
  - simpl. lra.
Qed.

Lemma Math_fround_1 : Math_fround 1 = 1.
Proof.
  apply (Math_fround_exact 1 0 8388608).
  - rewrite Rabs_pos_eq by lra. simpl. lra.
  - lia.
  - simpl. lra.
Qed.

(** The float nearest to 0.3 lies above it. *)
Lemma Math_fround_03 : Math_fround 0.3 = 10066330 / 33554432.
Proof.
  unfold Math_fround.
  destruct (Req_dec_T 0.3 0) as [H0 | _]; [ lra | ].
  rewrite (binade_eq 0.3 (-2)).
  - replace (powerRZ 2 (-2 - 23)) with (/ 33554432) by (simpl; lra).
    assert (round_half_even (0.3 / / 33554432) = 10066330%Z) as ->; [ | lra ].
    unfold round_half_even.
    assert (Zfloor (0.3 / / 33554432) = 10066329%Z) as ->
      by (apply Zfloor_eq; lra).
    destruct (Rlt_dec (0.3 / / 33554432 - 10066329) (/ 2)) as [H | _]; [ lra | ].
    destruct (Rlt_dec (/ 2) (0.3 / / 33554432 - 10066329)) as [_ | H]; [ reflexivity | ].
    exfalso. apply H. lra.
  - rewrite Rabs_pos_eq by lra. simpl. lra.
  - lia.
Qed.

(** The literals of [data] are 32-bit floats. *)
Lemma data_init_float32 :
  Forall (fun v => Math_fround v = v) (vertices data_init ++ uniforms data_init).
Proof.
  assert (Math_fround 0.0 = 0.0) as H0
    by (replace 0.0 with 0 by lra; apply Math_fround_0).
  assert (Math_fround 1.0 = 1.0) as H1
    by (replace 1.0 with 1 by lra; apply Math_fround_1).
  pose proof Math_fround_half. pose proof Math_fround_minus_half.
  cbn [data_init vertices uniforms app]. repeat constructor; assumption.
Qed.

(** What a frame stores is within 2^-26 of 0.3 times a sine or a cosine. *)
Lemma Math_fround_offset (c : R) :
  -1 <= c <= 1 ->
  Rabs (Math_fround (c * 0.3) - c * 0.3) <= / 67108864 /\
  Rabs (Math_fround (c * 0.3)) <= 0.3 + / 67108864.
Proof.
  intros Hc.
  assert (Rabs (c * 0.3) <= 0.3) as Hb by (apply Rabs_le; lra).
  assert (Rabs (Math_fround (c * 0.3) - c * 0.3) <= / 67108864) as He
    by (apply Math_fround_error; lra).
  split; [ exact He | ].
  replace (Math_fround (c * 0.3))
    with ((Math_fround (c * 0.3) - c * 0.3) + c * 0.3) by ring.
  eapply Rle_trans; [ apply Rabs_triang | lra ].
Qed.

(** ** Reasoning about completions *)

Lemma bind_Normal {A B} (c : M A) (k : A -> M B) (w w' : World) (x : B) :
  bind c k w = (Normal x, w') <->
  exists y w1, c w = (Normal y, w1) /\ k y w1 = (Normal x, w').
Proof.
  unfold bind. split.
  - destruct (c w) as [[y|e] w1]; [ eauto | discriminate ].
  - intros (y & w1 & -> & H). exact H.
Qed.

Lemma host_call_Normal (h : Host) (c : HostCall) (w w' : World) (u : unit) :
  host_call h c w = (Normal u, w') <-> raises h c = None /\ w' = w.
Proof.
  unfold host_call. destruct (raises h c); split.
  - discriminate.
  - intros [? _]; discriminate.
  - intros [= _ ->]. auto.
  - intros [_ ->]. destruct u. reflexivity.
Qed.

Lemma modify_Normal (f : World -> World) (w w' : World) (u : unit) :
  modify f w = (Normal u, w') <-> w' = f w.
Proof.
  unfold modify. destruct u. split; [ intros [= <-] | intros -> ]; reflexivity.
Qed.

Lemma read_Normal {A} (f : World -> A) (w w' : World) (x : A) :
  read f w = (Normal x, w') <-> x = f w /\ w' = w.
Proof.
  unfold read. split; [ intros [= <- <-]; auto | intros [-> ->]; reflexivity ].
Qed.

Lemma ret_Normal {A} (v x : A) (w w' : World) :
  ret v w = (Normal x, w') <-> x = v /\ w' = w.
Proof.
  unfold ret. split; [ intros [= <- <-]; auto | intros [-> ->]; reflexivity ].
Qed.

Lemma await_Normal {A} (p : completion A) (x : A) (w w' : World) :
  await p w = (Normal x, w') <-> p = Normal x /\ w' = w.
Proof.
  unfold await. split; [ intros [= -> <-]; auto | intros [-> ->]; reflexivity ].
Qed.

Lemma host_call_None (h : Host) (c : HostCall) (w : World) :
  raises h c = None -> host_call h c w = (Normal tt, w).
Proof. intros H. unfold host_call. rewrite H. reflexivity. Qed.

(** Splitting a normal completion of a sequence into its steps. *)
Ltac inv_M H :=
  cbv beta in H;
  lazymatch type of H with
  | bind _ _ _ = (Normal _, _) =>
      let y := fresh "y" in
      let w1 := fresh "w" in
      let H1 := fresh "Hs" in
      let H2 := fresh "Hs" in
      apply bind_Normal in H; destruct H as (y & w1 & H1 & H2);
      inv_M H1; inv_M H2
  | host_call _ _ _ = (Normal _, _) =>
      let E := fresh "Hhost" in
      apply host_call_Normal in H; destruct H as [E ?]; subst
  | modify _ _ = (Normal _, _) => apply modify_Normal in H; subst
  | read _ _ = (Normal _, _) => apply read_Normal in H; destruct H as [? ?]; subst
  | ret _ _ = (Normal _, _) => apply ret_Normal in H; destruct H as [? ?]; subst
  | console_log _ _ _ = (Normal _, _) =>
      unfold console_log in H; apply modify_Normal in H; subst
  | await _ _ = (Normal _, _) => apply await_Normal in H; destruct H as [H ?]; subst
  | throw _ _ = (Normal _, _) => discriminate H
  | match ?x with Some _ => _ | None => _ end _ = (Normal _, _) =>
      let E := fresh "Hsome" in
      destruct x eqn:E; [ inv_M H | discriminate H ]
  | (if ?c then _ else _) _ = (Normal _, _) =>
      let E := fresh "Hif" in
      destruct c eqn:E; inv_M H
  | match ?x with Some _ => _ | None => _ end = (Normal _, _) =>
      let E := fresh "Hsome" in
      destruct x eqn:E; [ inv_M H | discriminate H ]
  | (if ?c then _ else _) = (Normal _, _) =>
      let E := fresh "Hif" in
      destruct c eqn:E; inv_M H
  | (Normal _, _) = (Normal _, _) => inversion H; subst; clear H
  | (Throw _, _) = (Normal _, _) => discriminate H
  | _ => idtac
  end.

Lemma render_not_initialised (h : Host) (w : World) :
  device (gpu w) = None \/ context (gpu w) = None \/
  renderPipeline (gpu w) = None \/ canvas (gpu w) = None \/
  vertexBuffer (gpu w) = None ->
  render h w = (Normal tt, w).
Proof.
  intros H. unfold render, bind, read. cbn.
  destruct (device (gpu w)), (context (gpu w)), (renderPipeline (gpu w)),
    (canvas (gpu w)), (vertexBuffer (gpu w)); try reflexivity.
  exfalso. intuition discriminate.
Qed.

Lemma render_zero_size (h : Host) (w : World) d c p cv vb :
  device (gpu w) = Some d -> context (gpu w) = Some c ->
  renderPipeline (gpu w) = Some p -> canvas (gpu w) = Some cv ->
  vertexBuffer (gpu w) = Some vb ->
  presentable cv = false ->
  render h w = (Normal tt, with_console warn "Canvas has zero size, skipping render." w).
Proof.
  intros Hd Hc Hp Hcv Hvb Hz. unfold render, bind, read. cbn.
  rewrite Hd, Hc, Hp, Hcv, Hvb.
  unfold presentable in Hz. apply negb_false_iff in Hz. rewrite Hz.
  reflexivity.
Qed.

Lemma writeBuffer_Normal (h : Host) (b_ : option BufferHandle) (off : Z)
    (d : Float32Array) (w w' : World) (u : unit) :
  writeBuffer h b_ off d w = (Normal u, w') <->
  raises h (WriteBuffer b_) = None /\
  exists i buf,
    b_ = Some i /\ buffers w !! i = Some buf /\
    (0 <= off)%Z /\ (off mod 4 = 0)%Z /\ (off + byteLength d <= buf_size buf)%Z /\
    w' = with_upload {| write_target := i; write_offset := off; write_data := d |}
           (with_buffers
              (<[ i := {| buf_size := buf_size buf; buf_usage := buf_usage buf;
                          contents := overwrite (Z.to_nat (off / 4)) d (contents buf) |} ]>
                 (buffers w)) w).
Proof.
  unfold writeBuffer. split.
  - intros H. inv_M H. split; [ assumption | ].
    apply andb_true_iff in Hif. destruct Hif as [Hif Hfit].
    apply andb_true_iff in Hif. destruct Hif as [H0 H4].
    apply Z.leb_le in H0, Hfit. apply Z.eqb_eq in H4.
    eexists _, _. repeat split; try reflexivity; eassumption.
  - intros (Hq & i & buf & -> & Hbuf & H0 & H4 & Hfit & ->).
    unfold bind, host_call. rewrite Hq, Hbuf.
    apply Z.leb_le in H0, Hfit. apply Z.eqb_eq in H4.
    rewrite H0, H4, Hfit. destruct u. reflexivity.
Qed.

(** Running a sequence whose steps all complete normally. *)
Ltac run_M :=
  lazymatch goal with
  | |- bind _ _ _ = (Normal _, _) =>
      apply bind_Normal; eexists _, _; split; [ run_M | cbv beta iota; run_M ]
  | |- host_call _ _ _ = (Normal _, _) =>
      apply host_call_None; solve [ auto ]
  | |- modify _ _ = (Normal _, _) => reflexivity
  | |- read _ _ = (Normal _, _) => reflexivity
  | |- ret _ _ = (Normal _, _) => try reflexivity
  | |- console_log _ _ _ = (Normal _, _) => reflexivity
  | |- await _ _ = (Normal _, _) => apply await_Normal; split; [ eassumption | reflexivity ]
  | |- (Normal _, _) = (Normal _, _) => reflexivity
  | |- (if ?c then _ else _) _ = (Normal _, _) =>
      let c' := eval cbn in c in
      change c with c'; cbv iota; run_M
  | |- writeBuffer _ _ _ _ _ = (Normal ?u, _) =>
      unify u tt;
      apply writeBuffer_Normal; split; [ solve [ auto ] | ];
      eexists _, _;
      split; [ cbn; reflexivity | ];
      split; [ cbn; reflexivity | ];
      split; [ lia | ];
      split; [ reflexivity | ];
      split; [ cbn; first [ lia | unfold SIZEOF_UNIFORMS, byteLength; cbn; lia ] | reflexivity ]
  | |- _ => idtac
  end.

Lemma render_drawn (h : Host) (w w' : World) d c p cv vb :
  device (gpu w) = Some d -> context (gpu w) = Some c ->
  renderPipeline (gpu w) = Some p -> canvas (gpu w) = Some cv ->
  vertexBuffer (gpu w) = Some vb ->
  presentable cv = true ->
  render h w = (Normal tt, w') ->
  exists ub buf,
    uniformBuffer (gpu w) = Some ub /\ buffers w !! ub = Some buf /\
    (byteLength (frame_uniforms (performance_now h) (uniforms (data w)))
       <= buf_size buf)%Z /\
    w' = drawn (performance_now h) p vb ub cv buf w.
Proof.
  intros Hd Hc Hp Hcv Hvb Hz H. unfold render in H.
  apply bind_Normal in H. destruct H as (s & w1 & Hread & H).
  unfold read in Hread. injection Hread as <- <-.
  rewrite Hd, Hc, Hp, Hcv, Hvb in H.
  unfold presentable in Hz. apply negb_true_iff in Hz. rewrite Hz in H.
  unfold createCommandEncoder, getCurrentTexture, createView, beginRenderPass,
    setPipeline, setVertexBuffer, setBindGroup, draw, pass_end, finish, submit in H.
  inv_M H.
  apply writeBuffer_Normal in Hs.
  destruct Hs as (_ & ub & buf & Hub & Hbuf & _ & _ & Hfit & ->).
  exists ub, buf. repeat split; assumption.
Qed.

Lemma render_quiet (h : Host) (w : World) d c p cv vb ub buf :
  quiet h ->
  device (gpu w) = Some d -> context (gpu w) = Some c ->
  renderPipeline (gpu w) = Some p -> canvas (gpu w) = Some cv ->
  vertexBuffer (gpu w) = Some vb ->
  presentable cv = true ->
  uniformBuffer (gpu w) = Some ub -> buffers w !! ub = Some buf ->
  (byteLength (frame_uniforms (performance_now h) (uniforms (data w)))
     <= buf_size buf)%Z ->
  render h w = (Normal tt, drawn (performance_now h) p vb ub cv buf w).
Proof.
  intros Hq Hd Hc Hp Hcv Hvb Hz Hub Hbuf Hfit.
  unfold render. apply bind_Normal. exists (gpu w), w. split; [ reflexivity | ].
  rewrite Hd, Hc, Hp, Hcv, Hvb.
  unfold presentable in Hz. apply negb_true_iff in Hz. rewrite Hz.
  unfold createCommandEncoder, getCurrentTexture, createView, beginRenderPass,
    setPipeline, setVertexBuffer, setBindGroup, draw, pass_end, finish, submit.
  apply bind_Normal; eexists _, _; split; [ run_M | ].
  apply bind_Normal; eexists _, _; split; [ run_M | ].
  apply bind_Normal; eexists _, _; split; [ run_M | ].
  apply bind_Normal; eexists _, _; split; [ run_M | ].
  apply bind_Normal; exists tt; eexists; split.
  { apply writeBuffer_Normal. split; [ apply Hq | ].
    exists ub, buf. cbn. repeat split; try eassumption; try reflexivity; lia. }
  run_M.
Qed.

(** Every normal completion of [render] is a skipped frame or a drawn one. *)
Lemma render_inv (h : Host) (w w' : World) :
  render h w = (Normal tt, w') ->
  (ready w = false /\
   (w' = w \/ w' = with_console warn "Canvas has zero size, skipping render." w)) \/
  (ready w = true /\
   exists p vb ub cv buf,
     renderPipeline (gpu w) = Some p /\ vertexBuffer (gpu w) = Some vb /\
     canvas (gpu w) = Some cv /\ uniformBuffer (gpu w) = Some ub /\
     buffers w !! ub = Some buf /\
     (byteLength (frame_uniforms (performance_now h) (uniforms (data w)))
        <= buf_size buf)%Z /\
     w' = drawn (performance_now h) p vb ub cv buf w).
Proof.
  intros H. unfold ready.
  destruct (device (gpu w)) as [d|] eqn:Hd;
    [ | rewrite render_not_initialised in H by auto; injection H as <-; auto ].
  destruct (context (gpu w)) as [c|] eqn:Hc;
    [ | rewrite render_not_initialised in H by auto; injection H as <-; auto ].
  destruct (renderPipeline (gpu w)) as [p|] eqn:Hp;
    [ | rewrite render_not_initialised in H by auto; injection H as <-; auto ].
  destruct (canvas (gpu w)) as [cv|] eqn:Hcv;
    [ | rewrite render_not_initialised in H by auto; injection H as <-; auto ].
  destruct (vertexBuffer (gpu w)) as [vb|] eqn:Hvb;
    [ | rewrite render_not_initialised in H by auto 6; injection H as <-; auto ].
  destruct (presentable cv) eqn:Hz.
  - right. split; [ reflexivity | ].
    destruct (render_drawn h w w' d c p cv vb Hd Hc Hp Hcv Hvb Hz H)
      as (ub & buf & Hub & Hbuf & Hfit & ->).
    exists p, vb, ub, cv, buf. auto 10.
  - left. split; [ reflexivity | ].
    rewrite (render_zero_size h w d c p cv vb) in H by assumption.
    injection H as <-. auto.
Qed.

(** ** Lists as arrays and buffers *)

Lemma overwrite_0 (new old : list R) :
  overwrite 0 new old = new ++ drop (length new) old.
Proof. reflexivity. Qed.

Lemma overwrite_0_twice (new old : list R) :
  overwrite 0 new (overwrite 0 new old) = overwrite 0 new old.
Proof.
  rewrite !overwrite_0. f_equal.
  rewrite drop_app_length. reflexivity.
Qed.

Lemma frame_uniforms_twice (now : R) (u : Float32Array) :
  frame_uniforms now (frame_uniforms now u) = frame_uniforms now u.
Proof.
  unfold frame_uniforms, array_set.
  destruct u as [|x [|y u]]; reflexivity.
Qed.

Lemma frame_uniforms_length (now : R) (u : Float32Array) :
  length (frame_uniforms now u) = length u.
Proof. destruct u as [|x [|y u]]; reflexivity. Qed.

Lemma frame_uniforms_length_bytes (now : R) (u : Float32Array) :
  byteLength (frame_uniforms now u) = byteLength u.
Proof. unfold byteLength. rewrite frame_uniforms_length. reflexivity. Qed.

Lemma frame_uniforms_shape (now x y z t : R) :
  frame_uniforms now [x; y; z; t] =
  [Math_fround (sin (now / 1000) * 0.3); Math_fround (cos (now / 1000) * 0.3);
   z; t].
Proof. reflexivity. Qed.

(** ** What [initializeWebGPU] does when it succeeds *)

Lemma World_ext (w1 w2 : World) :
  gpu w1 = gpu w2 -> data w1 = data w2 -> messageEl w1 = messageEl w2 ->
  console w1 = console w2 -> buffers w1 = buffers w2 ->
  uploads w1 = uploads w2 -> configured w1 = configured w2 ->
  resizeObserver w1 = resizeObserver w2 -> submitted w1 = submitted w2 ->
  animationFrames w1 = animationFrames w2 ->
  w1 = w2.
Proof.
  destruct w1, w2. cbn. intros. subst. reflexivity.
Qed.

Lemma canvas_resize_to (dpr x y : R) (s : GpuState) :
  resize_to dpr x y s = set_canvas (option_map (resized dpr x y) (canvas s)) s.
Proof.
  unfold resize_to, resized. destruct (is_positive x && is_positive y).
  - reflexivity.
  - destruct s as [? ? [cv|] ? ? ? ? ? ?]; [ destruct cv | ]; reflexivity.
Qed.

Lemma initializeWebGPU_true (h : Host) (m : option MessageElement) (w' : World) :
  initializeWebGPU h (script_load m) = (Normal true, w') ->
  exists a_ d cv ctx,
    navigator_gpu h = true /\
    requestAdapter h = Normal (Some a_) /\
    requestDevice h = Normal (Some d) /\
    canvas_element h = Some cv /\
    getContext h = Normal (Some ctx) /\
    w' = initialised h a_ d cv ctx m.
Proof.
  intros H. unfold initializeWebGPU in H.
  inv_M H.
  destruct (navigator_gpu h) eqn:Hnav; [ | discriminate ].
  cbn [negb] in Hs0. unfold try_catch in Hs0.
  destruct (initialize_try h _) as [[ok|e] w1] eqn:Htry;
    [ | unfold initialize_catch, bind, console_log, modify, ret in Hs0; discriminate ].
  injection Hs0 as -> ->.
  unfold initialize_try, configure, createBuffer, createShaderModule,
    createRenderPipeline, getBindGroupLayout, createBindGroup in Htry.
  destruct m as [msg|]; inv_M Htry;
    (apply writeBuffer_Normal in Hs2;
     destruct Hs2 as (_ & i & buf & Hi & Hbuf & _ & _ & Hfit & ->);
     cbn in Hi; injection Hi as <-; cbn in Hbuf; injection Hbuf as <-;
     apply writeBuffer_Normal in Hs3;
     destruct Hs3 as (_ & i & buf & Hi & Hbuf & _ & _ & Hfit2 & ->);
     cbn in Hi; injection Hi as <-; cbn in Hbuf; injection Hbuf as <-;
     clear Hfit Hfit2;
     try (match goal with
          | Hm : _ = false |- _ => cbn in Hm; discriminate Hm
          | Hm : _ = true |- _ => cbn in Hm; discriminate Hm
          end);
     exists a0, d, c, c0; repeat split; try assumption;
     apply World_ext; cbn -[resize_to resized]; try reflexivity;
     rewrite canvas_resize_to; reflexivity).
Qed.

Lemma initializeWebGPU_quiet (h : Host) (m : option MessageElement) a_ d cv ctx :
  quiet h ->
  navigator_gpu h = true ->
  requestAdapter h = Normal (Some a_) ->
  requestDevice h = Normal (Some d) ->
  canvas_element h = Some cv ->
  getContext h = Normal (Some ctx) ->
  initializeWebGPU h (script_load m) = (Normal true, initialised h a_ d cv ctx m).
Proof.
  intros Hq Hnav Ha Hd Hcv Hctx.
  unfold initializeWebGPU. apply bind_Normal. eexists _, _.
  split; [ reflexivity | ].
  rewrite Hnav. cbn [negb]. unfold try_catch.
  assert (initialize_try h (with_console log "Initializing WebGPU..." (script_load m))
          = (Normal true, initialised h a_ d cv ctx m)) as ->; [ | reflexivity ].
  unfold initialize_try, configure, createBuffer, createShaderModule,
    createRenderPipeline, getBindGroupLayout, createBindGroup.
  rewrite Hcv.
  destruct m as [msg|]; run_M;
    (unfold ret; f_equal; apply World_ext; cbn -[resize_to resized];
     try reflexivity; rewrite canvas_resize_to; reflexivity).
Qed.

(** ** Completions of any kind *)

Lemma bind_any {A B} (c : M A) (k : A -> M B) (w w' : World) (x : completion B) :
  bind c k w = (x, w') ->
  (exists e, c w = (Throw e, w') /\ x = Throw e) \/
  (exists y w1, c w = (Normal y, w1) /\ k y w1 = (x, w')).
Proof.
  unfold bind. destruct (c w) as [[y|e] w1].
  - eauto.
  - intros [= <- <-]. eauto.
Qed.

Lemma bind_bind {A B C} (c : M A) (f : A -> M B) (k : B -> M C) (w : World) :
  bind (bind c f) k w = bind c (fun x => bind (f x) k) w.
Proof. unfold bind. destruct (c w) as [[y|e] w1]; reflexivity. Qed.

Lemma bind_ret {A B} (v : A) (k : A -> M B) (w : World) :
  bind (ret v) k w = k v w.
Proof. reflexivity. Qed.

Lemma bind_modify {B} (f : World -> World) (k : unit -> M B) (w : World) :
  bind (modify f) k w = k tt (f w).
Proof. reflexivity. Qed.

Lemma bind_read {A B} (f : World -> A) (k : A -> M B) (w : World) :
  bind (read f) k w = k (f w) w.
Proof. reflexivity. Qed.

Lemma bind_throw {A B} (msg : string) (k : A -> M B) (w : World) :
  bind (throw msg) k w = (Throw {| message := msg |}, w).
Proof. reflexivity. Qed.

Lemma bind_host_call {B} (h : Host) (c : HostCall) (k : unit -> M B) (w : World) :
  bind (host_call h c) k w =
  match raises h c with
  | Some msg => (Throw {| message := msg |}, w)
  | None => k tt w
  end.
Proof. unfold bind, host_call. destruct (raises h c); reflexivity. Qed.

Lemma bind_await {A B} (p : completion A) (k : A -> M B) (w : World) :
  bind (await p) k w =
  match p with
  | Normal x => k x w
  | Throw e => (Throw e, w)
  end.
Proof. unfold bind, await. destruct p; reflexivity. Qed.

Lemma writeBuffer_Throw (h : Host) (b_ : option BufferHandle) (off : Z)
    (d : Float32Array) (w w' : World) (e : Error) :
  writeBuffer h b_ off d w = (Throw e, w') -> w' = w.
Proof.
  unfold writeBuffer. rewrite bind_host_call.
  destruct (raises h (WriteBuffer b_)); [ intros [= _ <-]; reflexivity | ].
  destruct b_ as [i|]; [ | intros [= _ <-]; reflexivity ].
  destruct (buffers w !! i) as [buf|]; [ | intros [= _ <-]; reflexivity ].
  destruct (_ && _); [ discriminate | intros [= _ <-]; reflexivity ].
Qed.

(** One step of a sequence that may complete either way: the throwing
    branch is left with the world it threw in. *)
Ltac step_any H :=
  cbv beta iota in H;
  lazymatch type of H with
  | bind (bind _ _) _ _ = _ => rewrite bind_bind in H; step_any H
  | bind (host_call ?h ?c) _ _ = _ =>
      let E := fresh "Hhost" in
      rewrite bind_host_call in H;
      destruct (raises h c) eqn:E; [ | step_any H ]
  | bind (modify _) _ _ = _ => rewrite bind_modify in H; step_any H
  | bind (console_log _ _) _ _ = _ =>
      unfold console_log in H; rewrite bind_modify in H; step_any H
  | bind (read _) _ _ = _ => rewrite bind_read in H; step_any H
  | bind (ret _) _ _ = _ => rewrite bind_ret in H; step_any H
  | bind (throw _) _ _ = _ => rewrite bind_throw in H
  | bind (await ?p) _ _ = _ =>
      let E := fresh "Hawait" in
      rewrite bind_await in H;
      destruct p eqn:E; [ step_any H | ]
  | bind (writeBuffer _ _ _ _) _ _ = _ =>
      let e := fresh "e" in
      let y := fresh "y" in
      let w1 := fresh "w" in
      let Hw := fresh "Hwrite" in
      apply bind_any in H;
      destruct H as [(e & Hw & ->) | (y & w1 & Hw & H)];
      [ apply writeBuffer_Throw in Hw
      | apply writeBuffer_Normal in Hw;
        destruct Hw as (_ & ? & ? & ? & ? & _ & _ & ? & ?); subst w1;
        step_any H ]
  | bind (match ?x with Some _ => _ | None => _ end) _ _ = _ =>
      let E := fresh "Hsome" in
      destruct x eqn:E; step_any H
  | bind (if ?c then _ else _) _ _ = _ =>
      let E := fresh "Hif" in
      destruct c eqn:E; step_any H
  | match ?x with Some _ => _ | None => _ end _ = _ =>
      let E := fresh "Hsome" in
      destruct x eqn:E; step_any H
  | (if ?c then _ else _) _ = _ =>
      let E := fresh "Hif" in
      destruct c eqn:E; step_any H
  | _ => idtac
  end.

Lemma render_any (h : Host) (w w' : World) (x : completion unit) :
  render h w = (x, w') ->
  w' = w \/
  w' = with_console warn "Canvas has zero size, skipping render." w \/
  (ready w = true /\
   (w' = assigned (performance_now h) w \/
    exists p vb ub cv buf,
      renderPipeline (gpu w) = Some p /\ vertexBuffer (gpu w) = Some vb /\
      canvas (gpu w) = Some cv /\ uniformBuffer (gpu w) = Some ub /\
      buffers w !! ub = Some buf /\
      (byteLength (frame_uniforms (performance_now h) (uniforms (data w)))
         <= buf_size buf)%Z /\
      (w' = uploaded (performance_now h) ub buf w \/
       w' = drawn (performance_now h) p vb ub cv buf w))).
Proof.
  intros H. unfold render in H. rewrite bind_read in H. unfold ready.
  destruct (device (gpu w)) as [d|]; [ | injection H as _ <-; auto ].
  destruct (context (gpu w)) as [c|]; [ | injection H as _ <-; auto ].
  destruct (renderPipeline (gpu w)) as [p|]; [ | injection H as _ <-; auto ].
  destruct (canvas (gpu w)) as [cv|]; [ | injection H as _ <-; auto ].
  destruct (vertexBuffer (gpu w)) as [vb|]; [ | injection H as _ <-; auto ].
  unfold presentable.
  destruct ((width cv =? 0)%Z || (height cv =? 0)%Z) eqn:Hz.
  { injection H as _ <-. auto. }
  unfold createCommandEncoder, getCurrentTexture, createView, beginRenderPass,
    setPipeline, setVertexBuffer, setBindGroup, draw, pass_end, finish, submit in H.
  step_any H;
    try (unfold modify in H); try (injection H as _ <-); subst;
    first
      [ left; reflexivity
      | right; right; split; [ reflexivity | ];
        first
          [ left; reflexivity
          | right; do 5 eexists; repeat split; try eassumption; try reflexivity;
            first [ left; reflexivity | right; reflexivity ] ] ].
Qed.

(** ** The invariant of a page whose initialisation succeeded *)

Lemma padded_frame_uniforms (now : R) (u : list R) :
  padded u -> padded (frame_uniforms now u).
Proof.
  intros (x & y & z & t & -> & Hz & Ht). rewrite frame_uniforms_shape.
  eexists _, _, _, _. eauto.
Qed.

Lemma overwrite_padded (us cs : list R) :
  padded us -> padded cs -> overwrite 0 us cs = us.
Proof.
  intros (x & y & z & t & -> & _ & _) (x' & y' & z' & t' & -> & _ & _).
  reflexivity.
Qed.

Lemma padded_uniforms_init : padded (uniforms data_init).
Proof. eexists _, _, _, _. cbn. repeat split; lra. Qed.

Lemma settled_initialised (h : Host) a_ d cv ctx m :
  settled (preferredCanvasFormat h) (initialised h a_ d cv ctx m).
Proof.
  split; cbn.
  - eexists _, _, _, _. reflexivity.
  - reflexivity.
  - apply padded_uniforms_init.
  - eexists. split; [ | reflexivity ]. apply padded_uniforms_init.
  - eexists. split; [ reflexivity | ].
    constructor; [ | constructor ].
    repeat split. apply padded_uniforms_init.
Qed.

Lemma settled_with_console fmt l s w :
  settled fmt w -> settled fmt (with_console l s w).
Proof. intros [? ? ? ? ?]. split; assumption. Qed.

Lemma settled_with_animationFrames fmt n w :
  settled fmt w -> settled fmt (with_animationFrames n w).
Proof. intros [? ? ? ? ?]. split; assumption. Qed.

Lemma settled_assigned fmt now w :
  settled fmt w -> settled fmt (assigned now w).
Proof.
  intros [? ? ? ? ?]. split; try assumption.
  cbn. apply padded_frame_uniforms. assumption.
Qed.

Lemma settled_ready_parts fmt w ub buf :
  settled fmt w ->
  uniformBuffer (gpu w) = Some ub -> buffers w !! ub = Some buf ->
  ub = 1%nat /\ buf_size buf = 16%Z /\
  buf_usage buf = Z.lor GPUBufferUsage_UNIFORM GPUBufferUsage_COPY_DST /\
  padded (contents buf).
Proof.
  intros [(a_ & d & cv & ctx & Hg) _ _ (cs & Hcs & Hb) _] Hub Hbuf.
  rewrite Hg in Hub. cbn in Hub. injection Hub as <-.
  rewrite Hb in Hbuf. cbn in Hbuf. injection Hbuf as <-. auto.
Qed.

Lemma settled_uploaded fmt now w ub buf :
  settled fmt w ->
  uniformBuffer (gpu w) = Some ub -> buffers w !! ub = Some buf ->
  settled fmt (uploaded now ub buf w).
Proof.
  intros Hs Hub Hbuf.
  destruct (settled_ready_parts fmt w ub buf Hs Hub Hbuf) as (-> & Hsz & Hus & Hpad).
  destruct Hs as [Hg Hv Hu (cs & Hcs & Hb) (us & Hup & Hall)].
  pose proof (padded_frame_uniforms now _ Hu) as Hfu.
  split; cbn -[overwrite frame_uniforms].
  - assumption.
  - assumption.
  - assumption.
  - exists (frame_uniforms now (uniforms (data w))). split; [ assumption | ].
    rewrite Hb. cbn -[overwrite frame_uniforms]. rewrite Hsz, Hus.
    rewrite Hb in Hbuf. cbn in Hbuf. injection Hbuf as <-.
    cbn -[overwrite frame_uniforms].
    rewrite (overwrite_padded _ _ Hfu Hcs). reflexivity.
  - exists (us ++ [ {| write_target := 1%nat; write_offset := 0;
                       write_data := frame_uniforms now (uniforms (data w)) |} ]).
    split; [ rewrite Hup; reflexivity | ].
    apply Forall_app. split; [ assumption | ].
    constructor; [ | constructor ]. repeat split. assumption.
Qed.

Lemma settled_with_submitted fmt cbs w :
  settled fmt w -> settled fmt (with_submitted cbs w).
Proof. intros [? ? ? ? ?]. split; assumption. Qed.

Lemma drawn_uploaded now p vb ub cv buf w :
  drawn now p vb ub cv buf w =
  with_submitted [ [ frame_pass p vb (bindGroup (gpu w)) cv ] ]
                 (uploaded now ub buf w).
Proof. reflexivity. Qed.

Lemma settled_render fmt (h : Host) (w w' : World) (x : completion unit) :
  settled fmt w -> render h w = (x, w') -> settled fmt w'.
Proof.
  intros Hs H.
  destruct (render_any h w w' x H)
    as [-> | [-> | (_ & [-> | (p & vb & ub & cv & buf & _ & _ & _ & Hub & Hbuf & _ & [-> | ->])])]].
  - assumption.
  - apply settled_with_console. assumption.
  - apply settled_assigned. assumption.
  - apply settled_uploaded; assumption.
  - rewrite drawn_uploaded. apply settled_with_submitted.
    apply settled_uploaded; assumption.
Qed.

(** ** Resizing *)

Lemma set_canvas_same (s : GpuState) : set_canvas (canvas s) s = s.
Proof. destruct s. reflexivity. Qed.

Lemma resize_entries_canvas (dpr : R) (es : list ResizeObserverEntry) (s : GpuState) :
  exists c',
    fold_left
      (fun s entry =>
         match canvas s with
         | Some c =>
             if (target entry =? node c)%nat then
               resize_to dpr (fst (contentRect entry)) (snd (contentRect entry)) s
             else s
         | None => s
         end) es s = set_canvas c' s /\
    (canvas s = None <-> c' = None).
Proof.
  revert s. induction es as [|e es IH]; intros s; cbn [fold_left].
  - exists (canvas s). split; [ symmetry; apply set_canvas_same | tauto ].
  - destruct (canvas s) as [c|] eqn:Hc.
    + destruct (target e =? node c)%nat.
      * rewrite canvas_resize_to, Hc. cbn [option_map].
        destruct (IH (set_canvas (Some (resized dpr (contentRect e).1 (contentRect e).2 c)) s))
          as (c' & -> & Hiff).
        exists c'. split; [ reflexivity | ].
        cbn in Hiff. split; [ discriminate | ].
        intros H. apply Hiff in H. discriminate.
      * destruct (IH s) as (c' & -> & Hiff). exists c'. split; [ reflexivity | ].
        rewrite Hc in Hiff. exact Hiff.
    + destruct (IH s) as (c' & -> & Hiff). exists c'. split; [ reflexivity | ].
      rewrite Hc in Hiff. exact Hiff.
Qed.

Lemma resize_callback_canvas (dpr : R) (es : list ResizeObserverEntry) (w : World) :
  exists c',
    resize_callback dpr es w = with_gpu (set_canvas c') w /\
    (canvas (gpu w) = None <-> c' = None).
Proof.
  destruct (resize_entries_canvas dpr es (gpu w)) as (c' & Heq & Hiff).
  exists c'. split; [ | exact Hiff ].
  unfold resize_callback, with_gpu. rewrite Heq. reflexivity.
Qed.

Lemma resize_callback_single (dpr x y : R) (w : World) (cv : Canvas) :
  canvas (gpu w) = Some cv ->
  resize_callback dpr [ {| target := node cv; contentRect := (x, y) |} ] w =
  with_gpu (set_canvas (Some (resized dpr x y cv))) w.
Proof.
  intros Hc. unfold resize_callback, with_gpu. cbn [fold_left target contentRect fst snd].
  rewrite Hc, Nat.eqb_refl, canvas_resize_to, Hc. reflexivity.
Qed.

Lemma settled_resize fmt dpr es w :
  settled fmt w -> settled fmt (resize_callback dpr es w).
Proof.
  intros [(a_ & d & cv & ctx & Hg) Hv Hu Hb Hup].
  destruct (resize_callback_canvas dpr es w) as (c' & -> & Hiff).
  destruct c' as [cv'|].
  - split; try assumption. cbn. rewrite Hg. eexists _, _, _, _. reflexivity.
  - assert (canvas (gpu w) = None) as Hn by (apply Hiff; reflexivity).
    rewrite Hg in Hn. discriminate.
Qed.

(** ** The loop and the events *)

Lemma runGameLoop_any (h : Host) (w w' : World) (x : completion unit) :
  runGameLoop h w = (x, w') ->
  exists y w1,
    render h w = (y, w1) /\
    (w' = w1 \/
     (y = Normal tt /\ raises h RequestAnimationFrame = None /\
      w' = with_animationFrames (S (animationFrames w1)) w1)).
Proof.
  unfold runGameLoop. intros H. apply bind_any in H.
  destruct H as [(e & Hr & ->) | ([] & w1 & Hr & H)].
  - eauto.
  - exists (Normal tt), w1. split; [ assumption | ].
    step_any H.
    + injection H as _ <-. auto.
    + unfold modify in H. injection H as _ <-. auto.
Qed.

Lemma settled_handle fmt (e : Event) (w : World) :
  settled fmt w -> settled fmt (handle e w).
Proof.
  intros Hs. destruct e as [h|es]; cbn [handle].
  - destruct (animationFrames w) as [|n]; [ assumption | ].
    destruct (runGameLoop h (with_animationFrames n w)) as [x w'] eqn:Hloop.
    apply runGameLoop_any in Hloop.
    destruct Hloop as (y & w1 & Hr & Hw).
    apply settled_render with (fmt := fmt) in Hr;
      [ | apply settled_with_animationFrames; assumption ].
    cbn [snd]. destruct Hw as [-> | (_ & _ & ->)];
      [ assumption | apply settled_with_animationFrames; assumption ].
  - destruct (resizeObserver w); [ apply settled_resize | ]; assumption.
Qed.

Lemma settled_run fmt (es : list Event) (w : World) :
  settled fmt w -> settled fmt (run es w).
Proof.
  revert w. induction es as [|e es IH]; intros w Hs; cbn.
  - assumption.
  - apply IH. apply settled_handle. assumption.
Qed.

Lemma startup_true (h h1 : Host) (w w1 : World) :
  initializeWebGPU h w = (Normal true, w1) ->
  startup h h1 w = runGameLoop h1 (with_console log "WebGPU State:" w1).
Proof. intros H. unfold startup, bind at 1. rewrite H. reflexivity. Qed.

Lemma startup_false (h h1 : Host) (w w1 : World) :
  initializeWebGPU h w = (Normal false, w1) ->
  startup h h1 w =
  (Normal tt, with_console log "WebGPU setup failed. See console for errors." w1).
Proof. intros H. unfold startup, bind at 1. rewrite H. reflexivity. Qed.

Lemma startup_Throw (h h1 : Host) (w w1 : World) (e : Error) :
  initializeWebGPU h w = (Throw e, w1) ->
  startup h h1 w = (Throw e, w1).
Proof. intros H. unfold startup, bind at 1. rewrite H. reflexivity. Qed.

Lemma settled_startup (h h1 : Host) (m : option MessageElement) (w1 : World) :
  initializeWebGPU h (script_load m) = (Normal true, w1) ->
  settled (preferredCanvasFormat h) (snd (startup h h1 (script_load m))).
Proof.
  intros H. rewrite (startup_true h h1 _ w1 H).
  apply initializeWebGPU_true in H.
  destruct H as (a_ & d & cv & ctx & _ & _ & _ & _ & _ & ->).
  destruct (runGameLoop h1 _) as [x w'] eqn:Hloop.
  apply runGameLoop_any in Hloop. destruct Hloop as (y & w2 & Hr & Hw).
  apply settled_render with (fmt := preferredCanvasFormat h) in Hr;
    [ | apply settled_with_console, settled_initialised ].
  cbn [snd]. destruct Hw as [-> | (_ & _ & ->)];
    [ assumption | apply settled_with_animationFrames; assumption ].
Qed.

(** Every world of a page whose initialisation succeeded is settled. *)
Lemma settled_reachable (h h1 : Host) (m : option MessageElement)
    (es : list Event) (w1 : World) :
  initializeWebGPU h (script_load m) = (Normal true, w1) ->
  settled (preferredCanvasFormat h) (run es (snd (startup h h1 (script_load m)))).
Proof.
  intros H. apply settled_run. apply settled_startup with (w1 := w1). exact H.
Qed.

(** ** What [initializeWebGPU] does when it fails *)

Lemma renderPipeline_resize_to (dpr x y : R) (s : GpuState) :
  renderPipeline (resize_to dpr x y s) = renderPipeline s.
Proof. rewrite canvas_resize_to. reflexivity. Qed.

Lemma initialize_try_any (h : Host) (w w' : World) (x : completion bool) :
  initialize_try h w = (x, w') ->
  animationFrames w' = animationFrames w /\
  submitted w' = submitted w /\
  data w' = data w /\
  (renderPipeline (gpu w') = renderPipeline (gpu w) \/ provided h).
Proof.
  intros H.
  unfold initialize_try, configure, createBuffer, createShaderModule,
    createRenderPipeline, getBindGroupLayout, createBindGroup in H.
  step_any H;
    try (unfold ret in H); try (injection H as <- <-); subst;
    (split; [ reflexivity | ]; split; [ reflexivity | ]; split; [ reflexivity | ];
     first
       [ left; cbn -[resize_to]; rewrite ?renderPipeline_resize_to; reflexivity
       | right; unfold provided; eauto 10 ]).
Qed.

(** ** The page on which everything works *)

Lemma quiet_page (now : R) : quiet (page now).
Proof. intros c. reflexivity. Qed.

Lemma resized_page :
  resized (dpr_of (page 0)) (fst (boundingClientRect (page 0)))
          (snd (boundingClientRect (page 0)))
          {| node := 0%nat; width := 300; height := 150 |} = canvas_640x480.
Proof.
  unfold resized, dpr_of. cbn.
  destruct (Req_dec_T 1 0) as [H|_]; [ lra | ].
  rewrite !is_positive_true by lra. cbn.
  rewrite !Rmult_1_r, !Math_round_IZR. reflexivity.
Qed.

Lemma page_world_eq :
  page_world =
  initialised (page 0) {| adapter_id := 0 |} {| device_id := 0 |}
              {| node := 0%nat; width := 300; height := 150 |}
              {| context_id := 0 |} None.
Proof.
  unfold page_world.
  rewrite (initializeWebGPU_quiet (page 0) None {| adapter_id := 0 |}
             {| device_id := 0 |} {| node := 0%nat; width := 300; height := 150 |}
             {| context_id := 0 |});
    auto using quiet_page.
Qed.

Lemma page_world_gpu :
  gpu page_world =
  {| adapter := Some {| adapter_id := 0 |};
     device := Some {| device_id := 0 |};
     canvas := Some canvas_640x480;
     context := Some {| context_id := 0 |};
     presentationFormat := Some bgra8unorm;
     renderPipeline := Some (pipeline_for bgra8unorm);
     vertexBuffer := Some 0%nat;
     uniformBuffer := Some 1%nat;
     bindGroup := Some (bindGroup_for (pipeline_for bgra8unorm) 1%nat) |}.
Proof.
  rewrite page_world_eq. unfold initialised. cbn [gpu].
  rewrite resized_page. reflexivity.
Qed.

Lemma page_world_ready : ready page_world = true.
Proof. unfold ready. rewrite page_world_gpu. reflexivity. Qed.

Lemma page_world_initialised :
  initializeWebGPU (page 0) (script_load None) = (Normal true, page_world).
Proof.
  rewrite page_world_eq.
  apply initializeWebGPU_quiet; auto using quiet_page.
Qed.

Lemma page_world_data : data page_world = data_init.
Proof. rewrite page_world_eq. reflexivity. Qed.

Lemma page_world_buffers :
  buffers page_world =
  [ {| buf_size := 72;
       buf_usage := Z.lor GPUBufferUsage_VERTEX GPUBufferUsage_COPY_DST;
       contents := vertices data_init |};
    {| buf_size := 16;
       buf_usage := Z.lor GPUBufferUsage_UNIFORM GPUBufferUsage_COPY_DST;
       contents := uniforms data_init |} ].
Proof. rewrite page_world_eq. reflexivity. Qed.

(** A frame of the page at clock reading [now]. *)
Lemma page_world_render (now : R) :
  render (page now) page_world =
  (Normal tt,
   drawn now (pipeline_for bgra8unorm) 0 1 canvas_640x480
     {| buf_size := 16;
        buf_usage := Z.lor GPUBufferUsage_UNIFORM GPUBufferUsage_COPY_DST;
        contents := uniforms data_init |} page_world).
Proof.
  apply (render_quiet (page now) page_world {| device_id := 0 |}
           {| context_id := 0 |});
    rewrite ?page_world_gpu, ?page_world_buffers, ?page_world_data;
    try reflexivity.
  apply quiet_page.
Qed.

Lemma ready_true (w : World) :
  ready w = true ->
  exists d c p cv vb,
    device (gpu w) = Some d /\ context (gpu w) = Some c /\
    renderPipeline (gpu w) = Some p /\ canvas (gpu w) = Some cv /\
    vertexBuffer (gpu w) = Some vb /\ presentable cv = true.
Proof.
  unfold ready.
  destruct (device (gpu w)), (context (gpu w)), (renderPipeline (gpu w)),
    (canvas (gpu w)), (vertexBuffer (gpu w)); try discriminate.
  intros H. eexists _, _, _, _, _. auto 10.
Qed.

Lemma hidden_world_eq :
  hidden_world =
  initialised page_hidden {| adapter_id := 0 |} {| device_id := 0 |}
              {| node := 0%nat; width := 0; height := 0 |}
              {| context_id := 0 |} None.
Proof.
  unfold hidden_world.
  rewrite (initializeWebGPU_quiet page_hidden None {| adapter_id := 0 |}
             {| device_id := 0 |} {| node := 0%nat; width := 0; height := 0 |}
             {| context_id := 0 |});
    try reflexivity.
  intros c. reflexivity.
Qed.

Lemma hidden_world_gpu :
  gpu hidden_world =
  {| adapter := Some {| adapter_id := 0 |};
     device := Some {| device_id := 0 |};
     canvas := Some {| node := 0%nat; width := 0; height := 0 |};
     context := Some {| context_id := 0 |};
     presentationFormat := Some bgra8unorm;
     renderPipeline := Some (pipeline_for bgra8unorm);
     vertexBuffer := Some 0%nat;
     uniformBuffer := Some 1%nat;
     bindGroup := Some (bindGroup_for (pipeline_for bgra8unorm) 1%nat) |}.
Proof.
  rewrite hidden_world_eq. unfold initialised, resized. cbn.
  rewrite is_positive_false by lra. reflexivity.
Qed.




Lemma resized_applied (dpr x y : R) (cv : Canvas) :
  0 < x -> 0 < y ->
  resized dpr x y cv =
  {| node := node cv; width := Math_round (x * dpr);
     height := Math_round (y * dpr) |}.
Proof.
  intros Hx Hy. unfold resized. rewrite !is_positive_true by assumption.
  reflexivity.
Qed.


(** ** A browser without WebGPU, and the fatal causes inside the [try] *)

Lemma initializeWebGPU_unsupported (h : Host) (w : World) :
  navigator_gpu h = false ->
  initializeWebGPU h w =
  (Throw {| message := "WebGPU not supported on this browser." |},
   with_console log "Initializing WebGPU..." w).
Proof.
  intros H. unfold initializeWebGPU, console_log. rewrite bind_modify, H.
  reflexivity.
Qed.

Lemma initializeWebGPU_supported (h : Host) (w : World) :
  navigator_gpu h = true ->
  exists ok w', initializeWebGPU h w = (Normal ok, w').
Proof.
  intros H. unfold initializeWebGPU, console_log. rewrite bind_modify, H.
  cbn [negb]. unfold try_catch.
  destruct (initialize_try h _) as [[ok|e] w1]; [ eauto | ].
  unfold initialize_catch, console_log. rewrite !bind_modify. eauto.
Qed.

Lemma initializeWebGPU_any (h : Host) (w w' : World) (x : completion bool) :
  initializeWebGPU h w = (x, w') ->
  animationFrames w' = animationFrames w /\
  submitted w' = submitted w /\
  data w' = data w /\
  (renderPipeline (gpu w') = renderPipeline (gpu w) \/ provided h).
Proof.
  unfold initializeWebGPU, console_log. rewrite bind_modify.
  destruct (negb (navigator_gpu h)).
  { intros [= _ <-]. auto. }
  unfold try_catch.
  destruct (initialize_try h _) as [[ok|e] w1] eqn:Htry;
    apply initialize_try_any in Htry.
  - intros [= _ <-]. exact Htry.
  - unfold initialize_catch, console_log. rewrite !bind_modify.
    intros [= _ <-]. exact Htry.
Qed.

Lemma suffers_not_provided (h : Host) (c : FatalCause) :
  suffers h c -> ~ provided h.
Proof.
  intros Hs ((a_ & Ha) & (d & Hd) & (cv & Hcv) & (ctx & Hctx) & Hsm & Hrp).
  destruct c; cbn in Hs; destruct Hs as [H | H]; try congruence;
    eapply H; eassumption.
Qed.

(** A fatal cause in a browser that has [navigator.gpu]: [false] comes back,
    no pipeline was stored, no frame was requested, nothing was submitted. *)
Lemma fatal_initialisation_returns_false (h : Host) (m : option MessageElement)
    (c : FatalCause) :
  navigator_gpu h = true ->
  suffers h c ->
  exists w',
    initializeWebGPU h (script_load m) = (Normal false, w') /\
    renderPipeline (gpu w') = None /\
    animationFrames w' = 0%nat /\ submitted w' = [].
Proof.
  intros Hnav Hs.
  destruct (initializeWebGPU_supported h (script_load m) Hnav) as (ok & w' & H).
  pose proof (initializeWebGPU_any _ _ _ _ H) as (Hf & Hsub & _ & Hp).
  pose proof (suffers_not_provided h c Hs) as Hnp.
  destruct Hp as [Hp | Hp]; [ | contradiction ].
  assert (renderPipeline (gpu w') = None) as Hnone
    by (rewrite Hp; destruct m; reflexivity).
  destruct ok.
  - apply initializeWebGPU_true in H.
    destruct H as (? & ? & ? & ? & _ & _ & _ & _ & _ & ->). discriminate.
  - exists w'. repeat split; try assumption.
    + rewrite Hf. destruct m; reflexivity.
    + rewrite Hsub. destruct m; reflexivity.
Qed.

(** While no frame is requested, events leave everything but the canvas
    size as it is. *)
Lemma idle_run (es : list Event) (w : World) :
  animationFrames w = 0%nat ->
  animationFrames (run es w) = 0%nat /\
  submitted (run es w) = submitted w /\
  uploads (run es w) = uploads w /\
  buffers (run es w) = buffers w /\
  data (run es w) = data w /\
  renderPipeline (gpu (run es w)) = renderPipeline (gpu w) /\
  device (gpu (run es w)) = device (gpu w).
Proof.
  revert w. induction es as [|e es IH]; intros w H0; cbn [run fold_left].
  - auto 10.
  - assert (animationFrames (handle e w) = 0%nat /\
            submitted (handle e w) = submitted w /\
            uploads (handle e w) = uploads w /\
            buffers (handle e w) = buffers w /\
            data (handle e w) = data w /\
            renderPipeline (gpu (handle e w)) = renderPipeline (gpu w) /\
            device (gpu (handle e w)) = device (gpu w))
      as (H1 & H2 & H3 & H4 & H5 & H6 & H7).
    { destruct e as [h|entries_]; cbn [handle].
      - rewrite H0. auto 10.
      - destruct (resizeObserver w) as [dpr|]; [ | auto 10 ].
        destruct (resize_callback_canvas dpr entries_ w) as (c' & -> & _).
        cbn. auto 10. }
    destruct (IH (handle e w) H1) as (I1 & I2 & I3 & I4 & I5 & I6 & I7).
    fold (run es (handle e w)).
    rewrite I2, I3, I4, I5, I6, I7. auto 10.
Qed.

(** After a fatal cause the loop never starts and [render], should anything
    call it, does nothing. *)
Lemma fatal_page_never_draws (h h1 hf : Host) (m : option MessageElement)
    (c : FatalCause) (es : list Event) :
  navigator_gpu h = true ->
  suffers h c ->
  let w := run es (snd (startup h h1 (script_load m))) in
  animationFrames w = 0%nat /\ submitted w = [] /\
  render hf w = (Normal tt, w).
Proof.
  intros Hnav Hs.
  destruct (fatal_initialisation_returns_false h m c Hnav Hs)
    as (w' & Hinit & Hp & Hf & Hsub).
  rewrite (startup_false h h1 _ w' Hinit). cbn [snd].
  set (w0 := with_console log "WebGPU setup failed. See console for errors." w').
  destruct (idle_run es w0 Hf) as (I1 & I2 & _ & _ & _ & I6 & _).
  cbn zeta. split; [ exact I1 | ]. split; [ rewrite I2; exact Hsub | ].
  apply render_not_initialised. right. right. left. rewrite I6. exact Hp.
Qed.

(** ** Vertex fetch through the layout of the script *)

Lemma fetch_position (vbuf : list R) (i : nat) px py cr cg cb ca :
  take 6 (drop (6 * i) vbuf) = [px; py; cr; cg; cb; ca] ->
  fetch_location vertexBufferLayout vbuf i 0 = Some [px; py].
Proof.
  intros H.
  assert (Z.to_nat ((Z.of_nat i * (6 * 4) + 0) / 4) = (6 * i)%nat) as Hstart.
  { replace (Z.of_nat i * (6 * 4) + 0)%Z with (Z.of_nat (6 * i) * 4)%Z by lia.
    rewrite Z.div_mul by lia. lia. }
  revert H Hstart. generalize (6 * i)%nat as n. intros n H Hstart.
  change (fetch_location vertexBufferLayout vbuf i 0)
    with (let xs := take 2 (drop (Z.to_nat ((Z.of_nat i * (6 * 4) + 0) / 4)) vbuf) in
          if (length xs =? 2)%nat then Some xs else None).
  rewrite Hstart.
  rewrite <- (take_drop 6 (drop n vbuf)), H. reflexivity.
Qed.

Lemma fetch_color (vbuf : list R) (i : nat) px py cr cg cb ca :
  take 6 (drop (6 * i) vbuf) = [px; py; cr; cg; cb; ca] ->
  fetch_location vertexBufferLayout vbuf i 1 = Some [cr; cg; cb; ca].
Proof.
  intros H.
  assert (Z.to_nat ((Z.of_nat i * (6 * 4) + 2 * 4) / 4) = (6 * i + 2)%nat) as Hstart.
  { replace (Z.of_nat i * (6 * 4) + 2 * 4)%Z with (Z.of_nat (6 * i + 2) * 4)%Z by lia.
    rewrite Z.div_mul by lia. lia. }
  revert H Hstart. generalize (6 * i)%nat as n. intros n H Hstart.
  change (fetch_location vertexBufferLayout vbuf i 1)
    with (let xs := take 4 (drop (Z.to_nat ((Z.of_nat i * (6 * 4) + 2 * 4) / 4)) vbuf) in
          if (length xs =? 4)%nat then Some xs else None).
  rewrite Hstart, <- drop_drop.
  rewrite <- (take_drop 6 (drop n vbuf)), H. reflexivity.
Qed.

(** ** What a frame uploads *)

Lemma render_writes (h : Host) (w w' : World) (x : completion unit) :
  render h w = (x, w') ->
  vertices (data w') = vertices (data w) /\
  (forall ub, uniformBuffer (gpu w) = Some ub ->
     forall i, i <> ub -> buffers w' !! i = buffers w !! i) /\
  exists new,
    uploads w' = uploads w ++ new /\ (length new <= 1)%nat /\
    Forall (fun u => uniformBuffer (gpu w) = Some (write_target u)) new.
Proof.
  intros H.
  destruct (render_any h w w' x H)
    as [-> | [-> | (_ & [-> | (p & vb & ub & cv & buf & _ & _ & _ & Hub & Hbuf & _ & Hw)])]].
  - split; [ reflexivity | ]. split; [ reflexivity | ].
    exists []. rewrite app_nil_r. repeat split; [ cbn; lia | constructor ].
  - split; [ reflexivity | ]. split; [ reflexivity | ].
    exists []. cbn. rewrite app_nil_r. repeat split; [ lia | constructor ].
  - split; [ reflexivity | ]. split; [ reflexivity | ].
    exists []. cbn. rewrite app_nil_r. repeat split; [ lia | constructor ].
  - assert (w' = uploaded (performance_now h) ub buf w \/
            w' = with_submitted [ [ frame_pass p vb (bindGroup (gpu w)) cv ] ]
                   (uploaded (performance_now h) ub buf w)) as Hw'
      by (destruct Hw as [-> | ->]; [ left | right ]; reflexivity).
    split; [ destruct Hw' as [-> | ->]; reflexivity | ]. split.
    + intros ub' Hub' i Hi.
      assert (ub' = ub) as -> by congruence.
      destruct Hw' as [-> | ->]; cbn -[frame_uniforms overwrite];
        apply list_lookup_insert_ne; congruence.
    + eexists [ _ ]. split; [ destruct Hw' as [-> | ->]; reflexivity | ].
      split; [ cbn; lia | ].
      constructor; [ exact Hub | constructor ].
Qed.

(** ** What [render] finds in any world the page can be in *)

Lemma initialize_try_wired (h : Host) (m : option MessageElement) (w' : World)
    (x : completion bool) :
  initialize_try h (with_console log "Initializing WebGPU..." (script_load m))
  = (x, w') ->
  wired w'.
Proof.
  intros H.
  unfold initialize_try, configure, createBuffer, createShaderModule,
    createRenderPipeline, getBindGroupLayout, createBindGroup in H.
  destruct m as [msg|]; step_any H;
    try (unfold ret in H); try (injection H as <- <-); subst; unfold wired;
    first
      [ left; cbn -[resize_to]; rewrite ?renderPipeline_resize_to; reflexivity
      | right;
        repeat match goal with
               | Hx : _ = Some ?i |- _ =>
                   is_var i; cbn -[resize_to] in Hx; injection Hx as <-
               end;
        eexists _, _;
        split; [ cbn -[resize_to]; reflexivity | ];
        split; [ cbn -[resize_to]; reflexivity | ];
        cbn -[resize_to]; unfold SIZEOF_UNIFORMS, byteLength; cbn; lia ].
Qed.

Lemma wired_same (w w' : World) :
  renderPipeline (gpu w') = renderPipeline (gpu w) ->
  uniformBuffer (gpu w') = uniformBuffer (gpu w) ->
  buffers w' = buffers w ->
  byteLength (uniforms (data w')) = byteLength (uniforms (data w)) ->
  wired w -> wired w'.
Proof.
  intros Hp Hu Hb Hd [Hw | (ub & buf & Hub & Hbuf & Hfit)].
  - left. congruence.
  - right. exists ub, buf. rewrite Hu, Hb, Hd. auto.
Qed.

Lemma wired_uploaded (now : R) (ub : BufferHandle) (buf : GPUBuffer) (w : World) :
  uniformBuffer (gpu w) = Some ub -> buffers w !! ub = Some buf ->
  wired w -> wired (uploaded now ub buf w).
Proof.
  intros Hub Hbuf [Hw | (ub' & buf' & Hub' & Hbuf' & Hfit)].
  - left. exact Hw.
  - right. assert (ub' = ub) as -> by congruence.
    assert (buf' = buf) as -> by congruence.
    eexists ub, _. split; [ exact Hub | ]. split.
    + cbn -[frame_uniforms overwrite]. apply list_lookup_insert_eq.
      eapply lookup_lt_Some. exact Hbuf.
    + cbn -[frame_uniforms byteLength].
      rewrite frame_uniforms_length_bytes. exact Hfit.
Qed.

Lemma wired_render (h : Host) (w w' : World) (x : completion unit) :
  wired w -> render h w = (x, w') -> wired w'.
Proof.
  intros Hw H.
  destruct (render_any h w w' x H)
    as [-> | [-> | (_ & [-> | (p & vb & ub & cv & buf & _ & _ & _ & Hub & Hbuf & _ & [-> | ->])])]].
  - exact Hw.
  - revert Hw. apply wired_same; reflexivity.
  - revert Hw. apply wired_same; try reflexivity.
    cbn -[frame_uniforms byteLength]. apply frame_uniforms_length_bytes.
  - apply wired_uploaded; assumption.
  - rewrite drawn_uploaded.
    generalize (wired_uploaded (performance_now h) ub buf w Hub Hbuf Hw).
    apply wired_same; reflexivity.
Qed.

Lemma wired_handle (e : Event) (w : World) : wired w -> wired (handle e w).
Proof.
  intros Hw. destruct e as [h|es]; cbn [handle].
  - destruct (animationFrames w) as [|n]; [ assumption | ].
    destruct (runGameLoop h (with_animationFrames n w)) as [x w'] eqn:Hloop.
    apply runGameLoop_any in Hloop. destruct Hloop as (y & w1 & Hr & Hw1).
    apply wired_render in Hr; [ | revert Hw; apply wired_same; reflexivity ].
    cbn [snd]. destruct Hw1 as [-> | (_ & _ & ->)]; [ assumption | ].
    revert Hr. apply wired_same; reflexivity.
  - destruct (resizeObserver w) as [dpr|]; [ | assumption ].
    destruct (resize_callback_canvas dpr es w) as (c' & -> & _).
    revert Hw. apply wired_same; reflexivity.
Qed.

Lemma wired_run (es : list Event) (w : World) : wired w -> wired (run es w).
Proof.
  revert w. induction es as [|e es IH]; intros w Hw; cbn.
  - assumption.
  - apply IH, wired_handle, Hw.
Qed.

Lemma wired_initializeWebGPU (h : Host) (m : option MessageElement) (w' : World)
    (x : completion bool) :
  initializeWebGPU h (script_load m) = (x, w') -> wired w'.
Proof.
  unfold initializeWebGPU, console_log. rewrite bind_modify.
  destruct (negb (navigator_gpu h)).
  { intros [= _ <-]. left. destruct m; reflexivity. }
  unfold try_catch.
  destruct (initialize_try h _) as [[ok|e] w1] eqn:Htry;
    apply initialize_try_wired in Htry.
  - intros [= _ <-]. exact Htry.
  - unfold initialize_catch, console_log. rewrite !bind_modify.
    intros [= _ <-]. revert Htry. apply wired_same; reflexivity.
Qed.

Lemma wired_startup (h h1 : Host) (m : option MessageElement) :
  wired (snd (startup h h1 (script_load m))).
Proof.
  destruct (initializeWebGPU h (script_load m)) as [[[|]|e] w1] eqn:Hinit;
    pose proof (wired_initializeWebGPU h m w1 _ Hinit) as Hw.
  - rewrite (startup_true h h1 _ w1 Hinit).
    destruct (runGameLoop h1 _) as [x w'] eqn:Hloop.
    apply runGameLoop_any in Hloop. destruct Hloop as (y & w2 & Hr & Hw2).
    apply wired_render in Hr; [ | revert Hw; apply wired_same; reflexivity ].
    cbn [snd]. destruct Hw2 as [-> | (_ & _ & ->)]; [ assumption | ].
    revert Hr. apply wired_same; reflexivity.
  - rewrite (startup_false h h1 _ w1 Hinit). cbn [snd].
    revert Hw. apply wired_same; reflexivity.
  - rewrite (startup_Throw h h1 _ w1 e Hinit). exact Hw.
Qed.

Lemma wired_reachable (w : World) : reachable w -> wired w.
Proof.
  intros (m & h & h1 & es & ->). apply wired_run, wired_startup.
Qed.

Lemma writeBuffer_Throw_cause (h : Host) (i : BufferHandle) (d : Float32Array)
    (w w' : World) (e : Error) (buf : GPUBuffer) :
  buffers w !! i = Some buf ->
  (byteLength d <= buf_size buf)%Z ->
  writeBuffer h (Some i) 0 d w = (Throw e, w') ->
  raises h (WriteBuffer (Some i)) = Some (message e).
Proof.
  intros Hbuf Hfit. unfold writeBuffer. rewrite bind_host_call.
  destruct (raises h (WriteBuffer (Some i))) as [s|]; [ intros [= <- _]; reflexivity | ].
  rewrite Hbuf.
  assert (((0 <=? 0) && (0 mod 4 =? 0) && (0 + byteLength d <=? buf_size buf))%Z
          = true) as ->.
  { rewrite Z.add_0_l. apply Z.leb_le in Hfit. rewrite Hfit. reflexivity. }
  discriminate.
Qed.

(** In a wired world [render] throws only what a call into the host raised. *)
Lemma render_Throw_cause (h : Host) (w w' : World) (e : Error) :
  wired w ->
  render h w = (Throw e, w') ->
  exists c, raises h c = Some (message e).
Proof.
  intros Hw H. unfold render in H. rewrite bind_read in H.
  destruct (device (gpu w)) as [d|]; [ | discriminate ].
  destruct (context (gpu w)) as [c|]; [ | discriminate ].
  destruct (renderPipeline (gpu w)) as [p|] eqn:Hp; [ | discriminate ].
  destruct (canvas (gpu w)) as [cv|]; [ | discriminate ].
  destruct (vertexBuffer (gpu w)) as [vb|]; [ | discriminate ].
  destruct ((width cv =? 0)%Z || (height cv =? 0)%Z); [ discriminate | ].
  destruct Hw as [Hw | (ub & buf & Hub & Hbuf & Hfit)]; [ congruence | ].
  rewrite bind_host_call in H.
  destruct (raises h PerformanceNow) as [s|] eqn:Hnow;
    [ injection H as <- _; eauto | ].
  rewrite !bind_modify, bind_read in H.
  apply bind_any in H. destruct H as [(e' & Hwrite & He) | (y & w1 & _ & H)].
  - injection He as <-. rewrite Hub in Hwrite.
    exists (WriteBuffer (Some ub)).
    apply (writeBuffer_Throw_cause h ub _ _ _ _ buf) in Hwrite;
      [ exact Hwrite | exact Hbuf | ].
    cbn -[frame_uniforms byteLength].
    change (byteLength (frame_uniforms (performance_now h) (uniforms (data w)))
            <= buf_size buf)%Z.
    rewrite frame_uniforms_length_bytes. exact Hfit.
  - unfold createCommandEncoder, getCurrentTexture, createView, beginRenderPass,
      setPipeline, setVertexBuffer, setBindGroup, draw, pass_end, finish, submit in H.
    step_any H; try discriminate; injection H as <- _; eauto.
Qed.

(** ** Frames never touch [gpu]; on a quiet host a settled page draws *)

Lemma render_gpu (h : Host) (w w' : World) (x : completion unit) :
  render h w = (x, w') -> gpu w' = gpu w.
Proof.
  intros H.
  destruct (render_any h w w' x H)
    as [-> | [-> | (_ & [-> | (p & vb & ub & cv & buf & _ & _ & _ & _ & _ & _ & [-> | ->])])]];
    reflexivity.
Qed.

Lemma runGameLoop_gpu (h : Host) (w w' : World) (x : completion unit) :
  runGameLoop h w = (x, w') -> gpu w' = gpu w.
Proof.
  intros H. apply runGameLoop_any in H.
  destruct H as (y & w1 & Hr & Hw). apply render_gpu in Hr.
  destruct Hw as [-> | (_ & _ & ->)]; exact Hr.
Qed.

Lemma render_quiet_settled fmt (h : Host) (w : World) :
  quiet h -> settled fmt w -> ready w = true ->
  exists w', render h w = (Normal tt, w').
Proof.
  intros Hq Hs Hr.
  destruct (ready_true w Hr) as (d & c & p & cv & vb & Hd & Hc & Hp & Hcv & Hvb & Hz).
  destruct Hs as [(a_ & d' & cv' & ctx & Hg) _ Hu (cs & _ & Hb) _].
  eexists.
  apply (render_quiet h w d c p cv vb 1
           {| buf_size := 16;
              buf_usage := Z.lor GPUBufferUsage_UNIFORM GPUBufferUsage_COPY_DST;
              contents := cs |}); try assumption.
  - rewrite Hg. reflexivity.
  - rewrite Hb. reflexivity.
  - rewrite frame_uniforms_length_bytes.
    destruct Hu as (x & y & z & t & -> & _ & _).
    unfold byteLength. cbn [length buf_size]. lia.
Qed.

Lemma page_started_gpu :
  gpu (snd (startup (page 0) (page 0) (script_load None))) = gpu page_world.
Proof.
  rewrite (startup_true _ _ _ _ page_world_initialised).
  destruct (runGameLoop (page 0) _) as [x w'] eqn:Hloop.
  apply runGameLoop_gpu in Hloop. exact Hloop.
Qed.

Lemma page_started_ready :
  ready (run [] (snd (startup (page 0) (page 0) (script_load None)))) = true.
Proof.
  cbn [run fold_left]. unfold ready. rewrite page_started_gpu, page_world_gpu.
  reflexivity.
Qed.

(** * The specification, claim by claim *)

(** ** The frame *)

(** C10.  [render] may be called in any state.  If one of [gpu.device],
    [gpu.context], [gpu.renderPipeline], [gpu.canvas], [gpu.vertexBuffer] is
    still null, the call returns at once: it completes normally whatever the
    host would answer, and the world (the two globals, device memory, the
    upload log, the queue, the console) is exactly what it was.  And in
    every world the page can reach, initialisation failed or not, a call
    that does throw throws what a call into the host raised: nothing the
    script left uninitialised makes [render] fail. *)
Theorem C10_render_is_safe_in_any_state (h : Host) (w : World) :
  (device (gpu w) = None \/ context (gpu w) = None \/
   renderPipeline (gpu w) = None \/ canvas (gpu w) = None \/
   vertexBuffer (gpu w) = None ->
   render h w = (Normal tt, w)) /\
  (reachable w ->
   forall (e : Error) (w' : World),
     render h w = (Throw e, w') -> exists c, raises h c = Some (message e)).
Proof.
  split.
  - apply render_not_initialised.
  - intros Hreach e w'. apply render_Throw_cause, wired_reachable, Hreach.
Qed.

Lemma C10_witness :
  device (gpu (script_load None)) = None /\
  render page_without_webgpu (script_load None) = (Normal tt, script_load None).
Proof.
  split; [ reflexivity | ].
  apply (proj1 (C10_render_is_safe_in_any_state page_without_webgpu
                  (script_load None))).
  left. reflexivity.
Defined.

(** C5.  On a tick where the canvas has zero width or zero height, [render]
    skips the frame: whatever the host, it completes normally, submits
    nothing, uploads nothing, and leaves device memory and both globals as
    they were.  Once a resize has given the canvas a size of at least one
    pixel each way, the next frame on a quiet host is drawn and submitted. *)
Theorem C5_zero_size_frame_is_skipped (h : Host) (w : World) (cv : Canvas) :
  canvas (gpu w) = Some cv ->
  presentable cv = false ->
  (exists w',
     render h w = (Normal tt, w') /\
     submitted w' = submitted w /\ uploads w' = uploads w /\
     buffers w' = buffers w /\ data w' = data w /\ gpu w' = gpu w) /\
  (forall (h2 : Host) (dpr x y : R) d c p vb ub buf,
     device (gpu w) = Some d -> context (gpu w) = Some c ->
     renderPipeline (gpu w) = Some p -> vertexBuffer (gpu w) = Some vb ->
     uniformBuffer (gpu w) = Some ub -> buffers w !! ub = Some buf ->
     (byteLength (uniforms (data w)) <= buf_size buf)%Z ->
     0 < x -> 0 < y -> / 2 <= x * dpr -> / 2 <= y * dpr ->
     quiet h2 ->
     exists cv' w2,
       canvas (gpu (resize_callback dpr
                      [ {| target := node cv; contentRect := (x, y) |} ]
                      (snd (render h w)))) = Some cv' /\
       presentable cv' = true /\
       render h2 (resize_callback dpr
                    [ {| target := node cv; contentRect := (x, y) |} ]
                    (snd (render h w))) = (Normal tt, w2) /\
       submitted w2 = submitted w ++ [ [ frame_pass p vb (bindGroup (gpu w)) cv' ] ]).
Proof.
  intros Hcv Hz.
  assert (ready w = false) as Hr.
  { unfold ready. rewrite Hcv, Hz.
    destruct (device (gpu w)), (context (gpu w)), (renderPipeline (gpu w)),
      (vertexBuffer (gpu w)); reflexivity. }
  assert (exists w', render h w = (Normal tt, w') /\
            (w' = w \/ w' = with_console warn "Canvas has zero size, skipping render." w))
    as (w' & Hrender & Hw').
  { destruct (device (gpu w)) as [d|] eqn:Hd;
      [ | eexists; split; [ apply render_not_initialised | ]; auto ].
    destruct (context (gpu w)) as [c|] eqn:Hc;
      [ | eexists; split; [ apply render_not_initialised | ]; auto ].
    destruct (renderPipeline (gpu w)) as [p|] eqn:Hp;
      [ | eexists; split; [ apply render_not_initialised | ]; auto ].
    destruct (vertexBuffer (gpu w)) as [vb|] eqn:Hvb;
      [ | eexists; split; [ apply render_not_initialised | ]; auto 6 ].
    eexists. split; [ apply (render_zero_size h w d c p cv vb); assumption | ].
    auto. }
  split.
  - exists w'. split; [ assumption | ].
    destruct Hw' as [-> | ->]; repeat split; reflexivity.
  - intros h2 dpr x y d c p vb ub buf Hd Hc Hp Hvb Hub Hbuf Hfit Hx Hy Hxr Hyr Hq.
    rewrite Hrender. cbn [snd].
    assert (canvas (gpu w') = Some cv) as Hcv'
      by (destruct Hw' as [-> | ->]; assumption).
    rewrite (resize_callback_single dpr x y w' cv Hcv').
    set (cv' := resized dpr x y cv).
    assert (presentable cv' = true) as Hpres.
    { unfold cv', resized. rewrite !is_positive_true by assumption. cbn.
      unfold presentable. cbn.
      pose proof (Math_round_ge_1 _ Hxr). pose proof (Math_round_ge_1 _ Hyr).
      destruct (Z.eqb_spec (Math_round (x * dpr)) 0); [ lia | ].
      destruct (Z.eqb_spec (Math_round (y * dpr)) 0); [ lia | ].
      reflexivity. }
    exists cv'. eexists. split; [ reflexivity | ]. split; [ assumption | ].
    split.
    + apply (render_quiet h2 _ d c p cv' vb ub buf); try assumption;
        destruct Hw' as [-> | ->]; cbn -[frame_uniforms byteLength];
        try assumption; try reflexivity;
        rewrite frame_uniforms_length_bytes; assumption.
    + destruct Hw' as [-> | ->]; reflexivity.
Qed.

Lemma C5_witness :
  canvas (gpu hidden_world) = Some {| node := 0%nat; width := 0; height := 0 |} /\
  presentable {| node := 0%nat; width := 0; height := 0 |} = false /\
  (exists w',
     render page_hidden hidden_world = (Normal tt, w') /\
     submitted w' = submitted hidden_world /\ uploads w' = uploads hidden_world) /\
  (exists cv' w2,
     presentable cv' = true /\
     render (page 1000)
       (resize_callback 1 [ {| target := 0%nat; contentRect := (640, 480) |} ]
          (snd (render page_hidden hidden_world))) = (Normal tt, w2) /\
     length (submitted w2) = 1%nat).
Proof.
  assert (canvas (gpu hidden_world) = Some {| node := 0%nat; width := 0; height := 0 |})
    as Hcv by (rewrite hidden_world_gpu; reflexivity).
  split; [ exact Hcv | ]. split; [ reflexivity | ].
  destruct (C5_zero_size_frame_is_skipped page_hidden hidden_world _ Hcv eq_refl)
    as [(w' & Hr & Hs & Hu & _) Hresume].
  split; [ exists w'; auto | ].
  assert (buffers hidden_world !! 1%nat =
          Some {| buf_size := 16;
                  buf_usage := Z.lor GPUBufferUsage_UNIFORM GPUBufferUsage_COPY_DST;
                  contents := uniforms data_init |}) as Hbuf
    by (rewrite hidden_world_eq; reflexivity).
  assert (byteLength (uniforms (data hidden_world)) <= 16)%Z as Hfit
    by (rewrite hidden_world_eq; unfold byteLength; cbn [initialised data uniforms data_init length]; lia).
  assert (0 < 640) as Hx by lra.
  assert (0 < 480) as Hy by lra.
  assert (/ 2 <= 640 * 1) as Hxr by lra.
  assert (/ 2 <= 480 * 1) as Hyr by lra.
  pose proof hidden_world_gpu as Hg.
  destruct (Hresume (page 1000) 1 640 480 {| device_id := 0 |} {| context_id := 0 |}
              (pipeline_for bgra8unorm) 0%nat 1%nat _
              ltac:(rewrite Hg; reflexivity) ltac:(rewrite Hg; reflexivity)
              ltac:(rewrite Hg; reflexivity) ltac:(rewrite Hg; reflexivity)
              ltac:(rewrite Hg; reflexivity) Hbuf Hfit Hx Hy Hxr Hyr
              (quiet_page 1000))
    as (cv' & w2 & _ & Hp & Hr2 & Hs2).
  exists cv', w2. split; [ exact Hp | ]. split; [ exact Hr2 | ].
  rewrite Hs2, hidden_world_eq. reflexivity.
Defined.

(** C2.  A call of [render] that passes both guards and completes records
    one render pass, which clears the current image of the canvas to
    (0.1, 0.1, 0.2, 1.0), sets the pipeline, the vertex buffer in slot 0 and
    the bind group of [gpu.bindGroup] at index 0, and draws once, 3 vertices
    and 1 instance; it submits that pass as one command buffer, the only
    addition to the queue. *)
Theorem C2_frame_is_one_pass_one_draw_one_submit (h : Host) (w w' : World) :
  ready w = true ->
  render h w = (Normal tt, w') ->
  exists p vb cv,
    renderPipeline (gpu w) = Some p /\ vertexBuffer (gpu w) = Some vb /\
    canvas (gpu w) = Some cv /\
    submitted w' =
    submitted w ++
    [ [ {| descriptor :=
             {| colorAttachments :=
                  [ {| view := {| view_of := {| tex_width := width cv;
                                                tex_height := height cv |} |};
                       clearValue := {| r := 0.1; g := 0.1; b := 0.2; a := 1.0 |};
                       loadOp := load_clear;
                       storeOp := store_store |} ] |};
           commands := [ SetPipeline p; SetVertexBuffer 0 vb;
                         SetBindGroup 0 (bindGroup (gpu w)); Draw 3 1 0 0 ] |} ] ].
Proof.
  intros Hr H.
  destruct (render_inv h w w' H) as [[Hn _] | (_ & p & vb & ub & cv & buf & Hp & Hvb & Hcv & _ & _ & _ & ->)].
  - rewrite Hr in Hn. discriminate.
  - exists p, vb, cv. repeat split; assumption.
Qed.

Lemma C2_witness :
  ready page_world = true /\
  exists w',
    render (page 0) page_world = (Normal tt, w') /\
    length (submitted w') = 1%nat.
Proof.
  split; [ exact page_world_ready | ].
  eexists. split; [ apply page_world_render | ].
  destruct (C2_frame_is_one_pass_one_draw_one_submit (page 0) page_world _
              page_world_ready (page_world_render 0))
    as (p & vb & cv & _ & _ & _ & ->).
  rewrite page_world_eq. reflexivity.
Defined.

(** C1, as the code has it.  A frame drawn when the clock reads [t] seconds
    leaves in the first two uniforms the 32-bit floats that 0.3 sin t and
    0.3 cos t are stored as: each lies within 2^-25 of that product, so the
    offset has magnitude at most 0.3 + 2^-24.  At t = 0 the offset is
    (0, 10066330 / 2^25), the second being the float nearest to 0.3,
    0.300000011920928955078125, which is more than 0.3. *)
Theorem C1_frame_offset (h : Host) (w w' : World) (t : R) :
  ready w = true ->
  (2 <= length (uniforms (data w)))%nat ->
  performance_now h = 1000 * t ->
  render h w = (Normal tt, w') ->
  exists x y,
    uniforms (data w') !! 0%nat = Some x /\
    uniforms (data w') !! 1%nat = Some y /\
    Rabs (x - 0.3 * sin t) <= / 33554432 /\
    Rabs (y - 0.3 * cos t) <= / 33554432 /\
    sqrt (x * x + y * y) <= 0.3 + / 16777216 /\
    (t = 0 -> x = 0 /\ y = 10066330 / 33554432 /\ 0.3 < y).
Proof.
  intros Hr Hlen Ht H.
  destruct (render_inv h w w' H)
    as [[Hn _] | (_ & p & vb & ub & cv & buf & _ & _ & _ & _ & _ & _ & ->)].
  { rewrite Hr in Hn. discriminate. }
  cbn [drawn data set_uniforms uniforms].
  destruct (uniforms (data w)) as [|u0 [|u1 us]]; cbn in Hlen; try lia.
  unfold frame_uniforms, array_set. cbn.
  assert (performance_now h / 1000 = t) as -> by (rewrite Ht; field).
  exists (Math_fround (sin t * 0.3)), (Math_fround (cos t * 0.3)).
  split; [ reflexivity | ]. split; [ reflexivity | ].
  destruct (Math_fround_offset (sin t) (SIN_bound t)) as [Hx _].
  destruct (Math_fround_offset (cos t) (COS_bound t)) as [Hy _].
  pose proof (SIN_bound t) as Hsin. pose proof (COS_bound t) as Hcos.
  pose proof (sin2_cos2 t) as Hone. unfold Rsqr in Hone.
  set (x := Math_fround (sin t * 0.3)) in *.
  set (y := Math_fround (cos t * 0.3)) in *.
  apply Rabs_le_inv in Hx, Hy.
  split; [ apply Rabs_le; lra | ]. split; [ apply Rabs_le; lra | ]. split.
  - assert (x * x + y * y <= (0.3 + / 16777216) * (0.3 + / 16777216)) as Hsq.
    { set (a := sin t * 0.3) in *. set (b := cos t * 0.3) in *.
      assert (a * a + b * b = 0.3 * 0.3) as Hab by (unfold a, b; nra).
      assert (-0.3 <= a <= 0.3) as Ha by (unfold a; lra).
      assert (-0.3 <= b <= 0.3) as Hb by (unfold b; lra).
      set (dx := x - a) in *. set (dy := y - b) in *.
      replace x with (a + dx) by (unfold dx; ring).
      replace y with (b + dy) by (unfold dy; ring).
      assert (a * dx <= 0.3 * / 67108864) by nra.
      assert (b * dy <= 0.3 * / 67108864) by nra.
      assert (dx * dx <= / 67108864 * / 67108864) by nra.
      assert (dy * dy <= / 67108864 * / 67108864) by nra.
      nra. }
    apply sqrt_le_1_alt in Hsq.
    rewrite sqrt_square in Hsq by lra. exact Hsq.
  - intros ->. unfold x, y. rewrite sin_0, cos_0, Rmult_0_l, Rmult_1_l.
    rewrite Math_fround_0, Math_fround_03. repeat split; lra.
Qed.

Lemma C1_witness :
  ready page_world = true /\
  exists x y,
    uniforms (data (snd (render (page 0) page_world))) !! 0%nat = Some x /\
    uniforms (data (snd (render (page 0) page_world))) !! 1%nat = Some y /\
    x = 0 /\ y = 10066330 / 33554432.
Proof.
  split; [ exact page_world_ready | ].
  assert (2 <= length (uniforms (data page_world)))%nat as Hlen
    by (rewrite page_world_data; cbn; lia).
  assert (performance_now (page 0) = 1000 * 0) as Ht by (cbn; lra).
  rewrite page_world_render. cbn [snd].
  destruct (C1_frame_offset (page 0) page_world _ 0 page_world_ready Hlen Ht
              (page_world_render 0))
    as (x & y & Hx & Hy & _ & _ & _ & H0).
  exists x, y. destruct (H0 eq_refl) as (Hx0 & Hy0 & _). auto.
Defined.

(** C1, at the point where the claim as written fails: a frame of the page
    drawn when the clock reads 0 leaves the offset (0, 0.3) as a 32-bit
    float, not (0, 0). *)
Lemma C1_offset_at_time_zero_is_not_the_origin :
  fst (render (page 0) page_world) = Normal tt /\
  ~ (uniforms (data (snd (render (page 0) page_world))) !! 0%nat = Some 0 /\
     uniforms (data (snd (render (page 0) page_world))) !! 1%nat = Some 0).
Proof.
  rewrite page_world_render. split; [ reflexivity | ].
  cbn [snd drawn data set_uniforms uniforms]. rewrite page_world_data.
  unfold frame_uniforms, array_set. cbn.
  intros [_ Hy]. injection Hy as Hy.
  replace (0 / 1000) with 0 in Hy by field.
  rewrite cos_0, Rmult_1_l, Math_fround_03 in Hy. lra.
Qed.

(** C7.  Two calls of [render] in succession at the same clock reading: if
    the first completes, then however the second ends, the uniform array and
    every device buffer, the uniform buffer among them, are after the second
    call what they were after the first. *)
Theorem C7_same_time_same_uniforms (h1 h2 : Host) (w w1 w2 : World)
    (x2 : completion unit) :
  performance_now h1 = performance_now h2 ->
  render h1 w = (Normal tt, w1) ->
  render h2 w1 = (x2, w2) ->
  uniforms (data w2) = uniforms (data w1) /\ buffers w2 = buffers w1.
Proof.
  intros Hnow H1 H2.
  destruct (render_inv h1 w w1 H1)
    as [[Hn Hw1] | (Hr & p & vb & ub & cv & buf & Hp & Hvb & Hcv & Hub & Hbuf & Hfit & ->)].
  - assert (ready w1 = false) as Hn1 by (destruct Hw1 as [-> | ->]; exact Hn).
    destruct (render_any h2 w1 w2 x2 H2) as [-> | [-> | (Hr & _)]].
    + auto.
    + auto.
    + rewrite Hr in Hn1. discriminate.
  - set (w1 := drawn (performance_now h1) p vb ub cv buf w) in *.
    assert (uniforms (data w1) =
            frame_uniforms (performance_now h1) (uniforms (data w))) as Hu1
      by reflexivity.
    assert (Hlt : (ub < length (buffers w))%nat)
      by (eapply lookup_lt_Some; eassumption).
    assert (buffers w1 !! ub =
            Some {| buf_size := buf_size buf; buf_usage := buf_usage buf;
                    contents := overwrite 0 (frame_uniforms (performance_now h1)
                                               (uniforms (data w))) (contents buf) |})
      as Hb1 by (apply list_lookup_insert_eq; assumption).
    destruct (render_any h2 w1 w2 x2 H2)
      as [-> | [-> | (_ & [-> | (p' & vb' & ub' & cv' & buf' & _ & _ & _ & Hub' & Hbuf' & _ & Hw2)])]].
    + auto.
    + auto.
    + split; [ | reflexivity ].
      cbn [assigned data with_data set_uniforms uniforms].
      rewrite Hu1, <- Hnow. apply frame_uniforms_twice.
    + assert (ub' = ub) as -> by (cbn in Hub'; congruence).
      rewrite Hb1 in Hbuf'. injection Hbuf' as <-.
      assert (uniforms (data w2) = uniforms (data w1) /\ buffers w2 = buffers w1);
        [ | assumption ].
      assert (buffers (uploaded (performance_now h2) ub
                         {| buf_size := buf_size buf; buf_usage := buf_usage buf;
                            contents := overwrite 0 (frame_uniforms (performance_now h1)
                                                       (uniforms (data w))) (contents buf) |}
                         w1) = buffers w1) as Hsame.
      { cbn [uploaded buffers with_upload with_buffers buf_size buf_usage contents].
        rewrite Hu1, <- Hnow, frame_uniforms_twice, overwrite_0_twice.
        apply list_insert_id. exact Hb1. }
      destruct Hw2 as [-> | ->]; (split; [ | exact Hsame ]);
        cbn [drawn uploaded assigned data with_upload with_buffers with_data
               set_uniforms uniforms];
        rewrite Hu1, <- Hnow; apply frame_uniforms_twice.
Qed.

Lemma C7_witness :
  performance_now (page 0) = performance_now (page 0) /\
  uniforms (data (snd (render (page 0) (snd (render (page 0) page_world))))) =
  uniforms (data (snd (render (page 0) page_world))).
Proof.
  split; [ reflexivity | ].
  destruct (render (page 0) (snd (render (page 0) page_world))) as [x2 w2] eqn:H2.
  pose proof (page_world_render 0) as H1.
  rewrite H1 in H2 |- *. cbn [snd] in H2 |- *.
  exact (proj1 (C7_same_time_same_uniforms (page 0) (page 0) page_world _ w2 x2
                  eq_refl H1 H2)).
Defined.

(** ** Resizing *)




(** A resize with both dimensions positive need not leave a surface that
    can be presented: four tenths of a pixel round to none. *)
Lemma resize_below_half_a_pixel :
  canvas (gpu (resize_callback 1
                 [ {| target := 0%nat; contentRect := (0.4, 480) |} ]
                 page_world)) =
  Some {| node := 0%nat; width := 0; height := 480 |} /\
  presentable {| node := 0%nat; width := 0; height := 480 |} = false.
Proof.
  assert (canvas (gpu page_world) = Some canvas_640x480) as Hcv
    by (rewrite page_world_gpu; reflexivity).
  split; [ | reflexivity ].
  change 0%nat with (node canvas_640x480) at 1.
  rewrite (resize_callback_single 1 0.4 480 page_world _ Hcv).
  rewrite resized_applied by lra. cbn.
  rewrite (Math_round_small (0.4 * 1)) by lra.
  rewrite Rmult_1_r, Math_round_IZR. reflexivity.
Qed.

(** ** Initialisation *)

(** C4, where the code departs from it.  In a browser without
    [navigator.gpu] the initialisation does not come back with a result:
    [initializeWebGPU] throws before its [try] block, no [true] or [false]
    reaches the start-up function, which ends by the same exception, its
    failure branch not run.  (The loop is not started there either.) *)
Theorem C4_browser_without_webgpu_throws :
  initializeWebGPU page_without_webgpu (script_load None) =
  (Throw {| message := "WebGPU not supported on this browser." |},
   with_console log "Initializing WebGPU..." (script_load None)) /\
  (forall ok w, initializeWebGPU page_without_webgpu (script_load None)
                <> (Normal ok, w)) /\
  startup page_without_webgpu (page 0) (script_load None) =
  (Throw {| message := "WebGPU not supported on this browser." |},
   with_console log "Initializing WebGPU..." (script_load None)) /\
  animationFrames (snd (startup page_without_webgpu (page 0) (script_load None)))
  = 0%nat.
Proof.
  assert (initializeWebGPU page_without_webgpu (script_load None) =
          (Throw {| message := "WebGPU not supported on this browser." |},
           with_console log "Initializing WebGPU..." (script_load None))) as H
    by (apply initializeWebGPU_unsupported; reflexivity).
  split; [ exact H | ]. split.
  - intros ok w Hn. rewrite H in Hn. discriminate.
  - rewrite (startup_Throw _ _ _ _ _ H). split; reflexivity.
Qed.

(** ** The shader and its inputs *)



(** ** The two buffers *)

(** C8.  Once initialisation has succeeded, and whatever frames and resizes
    follow: the vertex data is still the literal array of the script; it was
    uploaded once, first of all uploads, to the vertex buffer, whose contents
    are that array; every later upload went to the uniform buffer.  A call of
    [render], however it ends, leaves the vertex data and every buffer other
    than the uniform buffer as they were, and uploads at most once, to the
    uniform buffer. *)
Theorem C8_vertex_data_is_uploaded_once (h h1 : Host) (m : option MessageElement)
    (es : list Event) (w1 : World) :
  initializeWebGPU h (script_load m) = (Normal true, w1) ->
  vertices (data (run es (snd (startup h h1 (script_load m))))) =
    [ 0.0;  0.5;   1.0; 0.0; 0.0; 1.0;
     -0.5; -0.5;   0.0; 1.0; 0.0; 1.0;
      0.5; -0.5;   0.0; 0.0; 1.0; 1.0 ] /\
  vertexBuffer (gpu (run es (snd (startup h h1 (script_load m))))) = Some 0%nat /\
  uniformBuffer (gpu (run es (snd (startup h h1 (script_load m))))) = Some 1%nat /\
  (exists vbuf,
     buffers (run es (snd (startup h h1 (script_load m)))) !! 0%nat = Some vbuf /\
     contents vbuf = vertices data_init) /\
  (exists us,
     uploads (run es (snd (startup h h1 (script_load m)))) =
       {| write_target := 0%nat; write_offset := 0;
          write_data := vertices data_init |} :: us /\
     Forall (fun u => write_target u = 1%nat) us) /\
  (forall (hf : Host) (x : completion unit) (w' : World),
     render hf (run es (snd (startup h h1 (script_load m)))) = (x, w') ->
     vertices (data w') = vertices data_init /\
     (forall i, i <> 1%nat ->
        buffers w' !! i =
        buffers (run es (snd (startup h h1 (script_load m)))) !! i) /\
     exists new,
       uploads w' =
         uploads (run es (snd (startup h h1 (script_load m)))) ++ new /\
       (length new <= 1)%nat /\
       Forall (fun u => write_target u = 1%nat) new).
Proof.
  intros H.
  pose proof (settled_reachable h h1 m es w1 H) as Hs.
  set (w := run es (snd (startup h h1 (script_load m)))) in *.
  destruct Hs as [(a_ & d & cv & ctx & Hg) Hv _ (cs & _ & Hb) (us & Hup & Hall)].
  split; [ rewrite Hv; reflexivity | ].
  split; [ rewrite Hg; reflexivity | ].
  split; [ rewrite Hg; reflexivity | ].
  split; [ rewrite Hb; eexists; split; reflexivity | ].
  split.
  { exists us. split; [ exact Hup | ].
    eapply Forall_impl; [ exact Hall | ]. intros u (Ht & _). exact Ht. }
  intros hf x w' Hr.
  destruct (render_writes hf w w' x Hr) as (Hv' & Hbufs & new & Hnew & Hlen & Hto).
  split; [ rewrite Hv'; exact Hv | ]. split.
  - apply Hbufs. rewrite Hg. reflexivity.
  - exists new. split; [ exact Hnew | ]. split; [ exact Hlen | ].
    eapply Forall_impl; [ exact Hto | ]. intros u Hu. cbn in Hu.
    rewrite Hg in Hu. cbn in Hu. congruence.
Qed.

Lemma C8_witness :
  initializeWebGPU (page 0) (script_load None) = (Normal true, page_world) /\
  vertexBuffer (gpu (run [AnimationFrame (page 16)]
                       (snd (startup (page 0) (page 0) (script_load None)))))
  = Some 0%nat.
Proof.
  split; [ exact page_world_initialised | ].
  exact (proj1 (proj2 (C8_vertex_data_is_uploaded_once (page 0) (page 0) None
                         [AnimationFrame (page 16)] page_world
                         page_world_initialised))).
Defined.

(** C9.  The uniform array starts as four zero floats, sixteen bytes, and
    [SIZEOF_UNIFORMS] is 16.  Once initialisation has succeeded, and whatever
    frames and resizes follow: the uniform buffer is sixteen bytes and holds
    two offsets followed by two zeros; every upload to it wrote sixteen bytes
    at offset 0, the last two floats zero; and a frame drawn when the clock
    reads pi/2 seconds leaves (0.3, 0, 0, 0) in it, approximately: the first
    two floats within 2^-25 of 0.3 and of 0, the last two zero. *)
Theorem C9_uniform_block_is_sixteen_bytes (h h1 : Host)
    (m : option MessageElement) (es : list Event) (w1 : World) :
  initializeWebGPU h (script_load m) = (Normal true, w1) ->
  (length (uniforms (data (script_load m))) = 4%nat /\
   Forall (fun v => v = 0) (uniforms (data (script_load m))) /\
   byteLength (uniforms (data (script_load m))) = 16%Z /\
   SIZEOF_UNIFORMS = 16%Z) /\
  (exists ubuf x y z t,
     uniformBuffer (gpu (run es (snd (startup h h1 (script_load m))))) = Some 1%nat /\
     buffers (run es (snd (startup h h1 (script_load m)))) !! 1%nat = Some ubuf /\
     (16 <= buf_size ubuf)%Z /\
     contents ubuf = [x; y; z; t] /\ z = 0 /\ t = 0) /\
  (forall u,
     In u (uploads (run es (snd (startup h h1 (script_load m))))) ->
     write_target u = 1%nat ->
     write_offset u = 0%Z /\ byteLength (write_data u) = 16%Z /\
     exists x y z t, write_data u = [x; y; z; t] /\ z = 0 /\ t = 0) /\
  (forall (hf : Host) (w' : World),
     ready (run es (snd (startup h h1 (script_load m)))) = true ->
     performance_now hf = 1000 * (PI / 2) ->
     render hf (run es (snd (startup h h1 (script_load m)))) = (Normal tt, w') ->
     exists ubuf x y z t,
       buffers w' !! 1%nat = Some ubuf /\
       contents ubuf = [x; y; z; t] /\
       Rabs (x - 0.3) <= / 33554432 /\ Rabs y <= / 33554432 /\
       z = 0 /\ t = 0).
Proof.
  intros H.
  pose proof (settled_reachable h h1 m es w1 H) as Hs.
  set (w := run es (snd (startup h h1 (script_load m)))) in *.
  split.
  { destruct m; cbn; (split; [ reflexivity | ]);
      (split; [ repeat constructor; lra | ]); split; reflexivity. }
  pose proof Hs as [(a_ & d & cv & ctx & Hg) Hv Hu (cs & Hcs & Hb) (us & Hup & Hall)].
  split.
  { destruct Hcs as (x & y & z & t & -> & Hz & Ht).
    eexists _, x, y, z, t. rewrite Hg, Hb. cbn.
    repeat split; try reflexivity; assumption. }
  split.
  { intros u Hin Htarget. rewrite Hup in Hin. destruct Hin as [<- | Hin].
    - discriminate Htarget.
    - rewrite Forall_forall in Hall.
      destruct (Hall u) as (_ & Hoff & (x & y & z & t & Hd & Hz & Ht)).
      { apply list_elem_of_In. exact Hin. }
      split; [ exact Hoff | ]. split; [ rewrite Hd; reflexivity | ].
      exists x, y, z, t. auto. }
  intros hf w' Hready Hnow Hr.
  destruct (render_inv hf w w' Hr)
    as [[Hn _] | (_ & p & vb & ub & cv' & buf & _ & _ & _ & Hub & Hbuf & _ & ->)].
  { rewrite Hready in Hn. discriminate. }
  destruct (settled_ready_parts _ w ub buf Hs Hub Hbuf) as (-> & Hsz & _ & Hpad).
  destruct Hu as (x & y & z & t & Hu & Hz & Ht).
  assert (performance_now hf / 1000 = PI / 2) as Htime by (rewrite Hnow; field).
  exists {| buf_size := buf_size buf; buf_usage := buf_usage buf;
            contents := overwrite 0 (frame_uniforms (performance_now hf)
                                       (uniforms (data w))) (contents buf) |}.
  exists (Math_fround (sin (PI / 2) * 0.3)), (Math_fround (cos (PI / 2) * 0.3)),
    z, t.
  split.
  { cbn [drawn buffers]. apply list_lookup_insert_eq.
    eapply lookup_lt_Some. exact Hbuf. }
  split.
  { cbn [contents]. rewrite overwrite_padded.
    - rewrite Hu, frame_uniforms_shape, Htime. reflexivity.
    - apply padded_frame_uniforms. exists x, y, z, t. auto.
    - exact Hpad. }
  rewrite sin_PI2, cos_PI2, Rmult_1_l, Rmult_0_l, Math_fround_03, Math_fround_0.
  repeat split; try assumption; apply Rabs_le; lra.
Qed.

Lemma C9_witness :
  initializeWebGPU (page 0) (script_load None) = (Normal true, page_world) /\
  SIZEOF_UNIFORMS = 16%Z /\
  (exists ubuf,
     buffers (run [] (snd (startup (page 0) (page 0) (script_load None)))) !! 1%nat
     = Some ubuf /\ (16 <= buf_size ubuf)%Z) /\
  (exists w' ubuf x y z t,
     render (page (1000 * (PI / 2)))
       (run [] (snd (startup (page 0) (page 0) (script_load None))))
     = (Normal tt, w') /\
     buffers w' !! 1%nat = Some ubuf /\ contents ubuf = [x; y; z; t] /\
     Rabs (x - 0.3) <= / 33554432 /\ Rabs y <= / 33554432 /\
     z = 0 /\ t = 0).
Proof.
  split; [ exact page_world_initialised | ].
  destruct (C9_uniform_block_is_sixteen_bytes (page 0) (page 0) None []
              page_world page_world_initialised)
    as ((_ & _ & _ & Hsz) & (ubuf & x & y & z & t & _ & Hb & Hle & _) & _ & Hframe).
  split; [ exact Hsz | ]. split; [ exists ubuf; auto | ].
  destruct (render_quiet_settled bgra8unorm (page (1000 * (PI / 2)))
              (run [] (snd (startup (page 0) (page 0) (script_load None)))))
    as (w' & Hr).
  - apply quiet_page.
  - exact (settled_reachable (page 0) (page 0) None [] page_world
             page_world_initialised).
  - exact page_started_ready.
  - destruct (Hframe (page (1000 * (PI / 2))) w' page_started_ready eq_refl Hr)
      as (ubuf' & x' & y' & z' & t' & H).
    exists w', ubuf', x', y', z', t'. split; [ exact Hr | exact H ].
Defined.

(** * Further properties of the script *)

(** ** Initialisation *)

Lemma initializeWebGPU_true_calls (h : Host) (m : option MessageElement) (w' : World) :
  initializeWebGPU h (script_load m) = (Normal true, w') ->
  Forall (fun c => raises h c = None) (init_calls m).
Proof.
  intros H. unfold initializeWebGPU in H.
  inv_M H.
  destruct (navigator_gpu h) eqn:Hnav; [ | discriminate ].
  cbn [negb] in Hs0. unfold try_catch in Hs0.
  destruct (initialize_try h _) as [[ok|e] w1] eqn:Htry;
    [ | unfold initialize_catch, bind, console_log, modify, ret in Hs0; discriminate ].
  injection Hs0 as -> ->.
  unfold initialize_try, configure, createBuffer, createShaderModule,
    createRenderPipeline, getBindGroupLayout, createBindGroup in Htry.
  destruct m as [msg|]; inv_M Htry;
    (apply writeBuffer_Normal in Hs2;
     destruct Hs2 as (Hw1 & i & buf & Hi & Hbuf & _ & _ & Hfit & ->);
     cbn in Hi; injection Hi as <-; cbn in Hbuf; injection Hbuf as <-;
     apply writeBuffer_Normal in Hs3;
     destruct Hs3 as (Hw2 & i' & buf' & Hi' & Hbuf' & _ & _ & Hfit2 & ->);
     cbn in Hi'; injection Hi' as <-; cbn in Hbuf'; injection Hbuf' as <-;
     clear Hfit Hfit2;
     try (match goal with
          | Hm : _ = false |- _ => cbn in Hm; discriminate Hm
          | Hm : _ = true |- _ => cbn in Hm; discriminate Hm
          end);
     unfold init_calls; cbn [app]; repeat constructor; assumption).
Qed.

(** Running a sequence whose host calls are answered by [tac]. *)
Ltac run_M_by tac :=
  lazymatch goal with
  | |- bind _ _ _ = (Normal _, _) =>
      apply bind_Normal; eexists _, _; split;
      [ run_M_by tac | cbv beta iota; run_M_by tac ]
  | |- host_call _ _ _ = (Normal _, _) => apply host_call_None; tac
  | |- modify _ _ = (Normal _, _) => reflexivity
  | |- read _ _ = (Normal _, _) => reflexivity
  | |- ret _ _ = (Normal _, _) => try reflexivity
  | |- console_log _ _ _ = (Normal _, _) => reflexivity
  | |- await _ _ = (Normal _, _) => apply await_Normal; split; [ eassumption | reflexivity ]
  | |- (Normal _, _) = (Normal _, _) => reflexivity
  | |- (if ?c then _ else _) _ = (Normal _, _) =>
      let c' := eval cbn in c in
      change c with c'; cbv iota; run_M_by tac
  | |- writeBuffer _ _ _ _ _ = (Normal ?u, _) =>
      unify u tt;
      apply writeBuffer_Normal; split; [ tac | ];
      eexists _, _;
      split; [ cbn; reflexivity | ];
      split; [ cbn; reflexivity | ];
      split; [ lia | ];
      split; [ reflexivity | ];
      split; [ cbn; first [ lia | unfold SIZEOF_UNIFORMS, byteLength; cbn; lia ]
             | reflexivity ]
  | |- _ => idtac
  end.

Lemma initializeWebGPU_obliging (h : Host) (m : option MessageElement) a_ d cv ctx :
  navigator_gpu h = true ->
  requestAdapter h = Normal (Some a_) ->
  requestDevice h = Normal (Some d) ->
  canvas_element h = Some cv ->
  getContext h = Normal (Some ctx) ->
  (forall c, In c (init_calls m) -> raises h c = None) ->
  initializeWebGPU h (script_load m) = (Normal true, initialised h a_ d cv ctx m).
Proof.
  intros Hnav Ha Hd Hcv Hctx Hq.
  unfold initializeWebGPU. apply bind_Normal. eexists _, _.
  split; [ reflexivity | ].
  rewrite Hnav. cbn [negb]. unfold try_catch.
  assert (initialize_try h (with_console log "Initializing WebGPU..." (script_load m))
          = (Normal true, initialised h a_ d cv ctx m)) as ->; [ | reflexivity ].
  unfold initialize_try, configure, createBuffer, createShaderModule,
    createRenderPipeline, getBindGroupLayout, createBindGroup.
  rewrite Hcv.
  destruct m as [msg|];
    run_M_by ltac:(apply Hq; cbn [init_calls app In];
                   repeat (first [ left; reflexivity | right ]));
    (unfold ret; f_equal; apply World_ext; cbn -[resize_to resized];
     try reflexivity; rewrite canvas_resize_to; reflexivity).
Qed.

(** X1.  On a freshly loaded script [initializeWebGPU] comes back with [true]
    exactly when the browser has [navigator.gpu], hands out an adapter, a
    device, the canvas element and a WebGPU context on it, and none of the
    calls the script makes on the way raises. *)
Theorem X1_initialisation_succeeds_exactly_when (h : Host)
    (m : option MessageElement) :
  (exists w', initializeWebGPU h (script_load m) = (Normal true, w')) <->
  obliging h m.
Proof.
  split.
  - intros (w' & H).
    pose proof (initializeWebGPU_true_calls h m w' H) as Hcalls.
    apply initializeWebGPU_true in H.
    destruct H as (a_ & d & cv & ctx & Hnav & Ha & Hd & Hcv & Hctx & _).
    unfold obliging. eauto 10.
  - intros (Hnav & (a_ & Ha) & (d & Hd) & (cv & Hcv) & (ctx & Hctx) & Hcalls).
    eexists. apply (initializeWebGPU_obliging h m a_ d cv ctx); try assumption.
    intros c Hin. rewrite Forall_forall in Hcalls. apply Hcalls.
    apply list_elem_of_In. exact Hin.
Qed.

Lemma initialize_try_returns_true (h : Host) (w w' : World) (x : completion bool) :
  initialize_try h w = (x, w') -> forall ok, x = Normal ok -> ok = true.
Proof.
  intros H.
  unfold initialize_try, configure, createBuffer, createShaderModule,
    createRenderPipeline, getBindGroupLayout, createBindGroup in H.
  step_any H;
    try (unfold ret in H); try (injection H as <- <-); subst;
    intros ok Hok; congruence.
Qed.

Lemma initialize_try_messageEl (h : Host) (w w' : World) (x : completion bool) :
  initialize_try h w = (x, w') ->
  (messageEl w = None <-> messageEl w' = None).
Proof.
  intros H.
  unfold initialize_try, configure, createBuffer, createShaderModule,
    createRenderPipeline, getBindGroupLayout, createBindGroup in H.
  step_any H;
    try (unfold ret in H); try (injection H as <- <-); subst;
    cbn; destruct (messageEl w); cbn; split; congruence.
Qed.

Lemma initializeWebGPU_false (h : Host) (w w' : World) :
  initializeWebGPU h w = (Normal false, w') ->
  exists e w1,
    initialize_try h (with_console log "Initializing WebGPU..." w) = (Throw e, w1) /\
    w' = with_messageEl
           (set_innerText ("WebGPU initialization failed: " ++ message e)%string)
           (with_console error
              ("WebGPU initialization failed: " ++ message e)%string w1).
Proof.
  unfold initializeWebGPU, console_log. rewrite bind_modify.
  destruct (negb (navigator_gpu h)); [ discriminate | ].
  unfold try_catch.
  destruct (initialize_try h _) as [[ok|e] w1] eqn:Htry.
  - intros [= -> <-].
    pose proof (initialize_try_returns_true _ _ _ _ Htry false eq_refl).
    discriminate.
  - unfold initialize_catch, console_log. rewrite !bind_modify.
    intros [= <-]. eauto.
Qed.

(** X3.  When [initializeWebGPU] answers [false] on a freshly loaded script,
    the failure has been reported: the last line of the console is the
    error "WebGPU initialization failed: " followed by the message of what
    was thrown, the [#message] element, if the page has one, shows the same
    text, and no frame was requested and nothing submitted. *)
Theorem X3_failed_initialisation_is_reported (h : Host)
    (m : option MessageElement) (w' : World) :
  initializeWebGPU h (script_load m) = (Normal false, w') ->
  exists msg,
    last (console w') = Some (error, ("WebGPU initialization failed: " ++ msg)%string) /\
    match m with
    | Some _ =>
        exists el, messageEl w' = Some el /\
                   innerText el = ("WebGPU initialization failed: " ++ msg)%string
    | None => messageEl w' = None
    end /\
    animationFrames w' = 0%nat /\ submitted w' = [].
Proof.
  intros H.
  pose proof (initializeWebGPU_any _ _ _ _ H) as (Hf & Hsub & _ & _).
  apply initializeWebGPU_false in H. destruct H as (e & w1 & Htry & ->).
  exists (message e). split; [ | split ].
  - cbn [with_messageEl with_console console]. apply last_snoc.
  - apply initialize_try_messageEl in Htry. cbn [with_messageEl messageEl with_console].
    cbn [with_console messageEl] in Htry.
    destruct m as [el0|]; cbn [script_load messageEl with_console] in Htry.
    + destruct (messageEl w1) as [el|].
      * eexists. split; reflexivity.
      * assert (Some el0 = None) as Habs by (apply Htry; reflexivity).
        discriminate.
    + destruct (messageEl w1) as [el|]; [ | reflexivity ].
      assert (Some el = None) as Habs by (apply Htry; reflexivity). discriminate.
  - rewrite Hf, Hsub. destruct m; split; reflexivity.
Qed.

Lemma X3_witness :
  initializeWebGPU page_without_adapter (script_load None) =
  (Normal false, snd (initializeWebGPU page_without_adapter (script_load None))) /\
  exists msg,
    last (console (snd (initializeWebGPU page_without_adapter (script_load None)))) =
    Some (error, ("WebGPU initialization failed: " ++ msg)%string).
Proof.
  assert (initializeWebGPU page_without_adapter (script_load None) =
          (Normal false,
           snd (initializeWebGPU page_without_adapter (script_load None)))) as H
    by reflexivity.
  split; [ exact H | ].
  destruct (X3_failed_initialisation_is_reported page_without_adapter None _ H)
    as (msg & Hlast & _).
  exists msg. exact Hlast.
Defined.

(** Running the [try] block forward on the goal. *)
Ltac forward_init :=
  repeat first
    [ rewrite bind_bind | rewrite bind_await | rewrite bind_modify
    | rewrite bind_host_call | rewrite bind_throw | rewrite bind_read
    | rewrite bind_ret
    | match goal with
      | H : requestAdapter _ = _ |- _ => rewrite H
      | H : requestDevice _ = _ |- _ => rewrite H
      | H : canvas_element _ = _ |- _ => rewrite H
      | H : getContext _ = _ |- _ => rewrite H
      | H : raises _ _ = _ |- _ => rewrite H
      end
    | progress cbv beta iota ].

Ltac report_init Hnav :=
  unfold reports, initializeWebGPU, console_log; eexists; split;
  [ rewrite bind_modify, Hnav; cbn [negb];
    unfold try_catch, initialize_try; forward_init;
    unfold throw; cbv beta iota;
    unfold initialize_catch, console_log; rewrite !bind_modify; reflexivity
  | cbn [with_messageEl with_console console]; apply last_snoc ].

(** X4.  Each of the script's own checks names what is missing.  With
    [navigator.gpu] present: a rejected [requestAdapter] is reported with the
    message of the rejection; a null adapter as "Failed to get GPU adapter.";
    a null device as "Failed to get GPU device."; a page without the
    [game-canvas] element as "Failed to get canvas element."; a canvas that
    gives no WebGPU context as "Failed to get WebGPU context from canvas.". *)
Theorem X4_each_check_names_what_is_missing (h : Host)
    (m : option MessageElement) :
  navigator_gpu h = true ->
  (forall e, requestAdapter h = Throw e -> reports h m (message e)) /\
  (requestAdapter h = Normal None ->
   reports h m "Failed to get GPU adapter.") /\
  (forall a_, requestAdapter h = Normal (Some a_) ->
   requestDevice h = Normal None ->
   reports h m "Failed to get GPU device.") /\
  (forall a_ d, requestAdapter h = Normal (Some a_) ->
   requestDevice h = Normal (Some d) ->
   raises h DeviceLostThen = None ->
   canvas_element h = None ->
   reports h m "Failed to get canvas element.") /\
  (forall a_ d cv, requestAdapter h = Normal (Some a_) ->
   requestDevice h = Normal (Some d) ->
   raises h DeviceLostThen = None ->
   canvas_element h = Some cv ->
   raises h NewResizeObserver = None -> raises h Observe = None ->
   raises h GetBoundingClientRect = None ->
   getContext h = Normal None ->
   reports h m "Failed to get WebGPU context from canvas.").
Proof.
  intros Hnav. repeat split; intros; report_init Hnav.
Qed.

Lemma X4_witness :
  navigator_gpu page_without_adapter = true /\
  reports page_without_adapter None "Failed to get GPU adapter.".
Proof.
  split; [ reflexivity | ].
  apply (proj1 (proj2 (X4_each_check_names_what_is_missing page_without_adapter
                         None eq_refl))).
  reflexivity.
Defined.

(** X5.  A fatal cause met inside the [try] block (no device, no surface,
    the shader module or the pipeline raising) in a browser with
    [navigator.gpu]: [initializeWebGPU] answers [false], the start-up
    function completes and logs "WebGPU setup failed. See console for
    errors.", and from then on, whatever animation frames and resizes the
    browser delivers, no frame is pending, the queue is empty and a call of
    [render] changes nothing. *)
Theorem X5_after_a_fatal_cause_the_page_stays_idle (h h1 hf : Host)
    (m : option MessageElement) (c : FatalCause) (es : list Event) :
  navigator_gpu h = true ->
  suffers h c ->
  (exists w0, initializeWebGPU h (script_load m) = (Normal false, w0)) /\
  fst (startup h h1 (script_load m)) = Normal tt /\
  last (console (snd (startup h h1 (script_load m)))) =
    Some (log, "WebGPU setup failed. See console for errors.") /\
  animationFrames (run es (snd (startup h h1 (script_load m)))) = 0%nat /\
  submitted (run es (snd (startup h h1 (script_load m)))) = [] /\
  render hf (run es (snd (startup h h1 (script_load m)))) =
    (Normal tt, run es (snd (startup h h1 (script_load m)))).
Proof.
  intros Hnav Hs.
  destruct (fatal_initialisation_returns_false h m c Hnav Hs)
    as (w' & Hinit & Hp & Hf & Hsub).
  split; [ eauto | ].
  rewrite (startup_false h h1 _ w' Hinit). cbn [fst snd].
  split; [ reflexivity | ].
  split; [ cbn [with_console console]; apply last_snoc | ].
  set (w0 := with_console log "WebGPU setup failed. See console for errors." w').
  destruct (idle_run es w0 Hf) as (I1 & I2 & _ & _ & _ & I6 & _).
  split; [ exact I1 | ]. split; [ rewrite I2; exact Hsub | ].
  apply render_not_initialised. right. right. left. rewrite I6. exact Hp.
Qed.

Lemma X5_witness :
  navigator_gpu page_without_adapter = true /\
  suffers page_without_adapter NoDevice /\
  submitted (run [AnimationFrame (page 16)]
               (snd (startup page_without_adapter (page 0) (script_load None)))) = [].
Proof.
  assert (suffers page_without_adapter NoDevice) as Hs
    by (left; intros a_; discriminate).
  split; [ reflexivity | ]. split; [ exact Hs | ].
  exact (proj1 (proj2 (proj2 (proj2 (proj2
           (X5_after_a_fatal_cause_the_page_stays_idle page_without_adapter
              (page 0) (page 0) None NoDevice [AnimationFrame (page 16)]
              eq_refl Hs)))))).
Defined.



(** ** The frame and the loop *)

Lemma render_frame (h : Host) (w w' : World) (x : completion unit) :
  render h w = (x, w') ->
  gpu w' = gpu w /\ messageEl w' = messageEl w /\
  configured w' = configured w /\ resizeObserver w' = resizeObserver w /\
  animationFrames w' = animationFrames w /\
  vertices (data w') = vertices (data w) /\
  (submitted w' = submitted w \/ exists cb, submitted w' = submitted w ++ [cb]) /\
  (console w' = console w \/
   console w' = console w ++ [(warn, "Canvas has zero size, skipping render.")]).
Proof.
  intros H.
  destruct (render_any h w w' x H)
    as [-> | [-> | (Hr & [-> | (p & vb & ub & cv & buf & _ & _ & _ & _ & _ & _ & [-> | ->])])]].
  - auto 10.
  - repeat split; auto.
  - auto 10.
  - repeat split; auto.
  - repeat split; auto. right. eexists. reflexivity.
Qed.

Lemma runGameLoop_Normal (h : Host) (w w1 : World) :
  render h w = (Normal tt, w1) ->
  raises h RequestAnimationFrame = None ->
  runGameLoop h w = (Normal tt, with_animationFrames (S (animationFrames w1)) w1).
Proof.
  intros Hr Hraf. unfold runGameLoop.
  apply bind_Normal. exists tt, w1. split; [ exact Hr | ].
  rewrite bind_host_call, Hraf. reflexivity.
Qed.

Lemma runGameLoop_render_Throw (h : Host) (w w1 : World) (e : Error) :
  render h w = (Throw e, w1) -> runGameLoop h w = (Throw e, w1).
Proof. intros Hr. unfold runGameLoop, bind at 1. rewrite Hr. reflexivity. Qed.

Lemma runGameLoop_request_raises (h : Host) (w w1 : World) (s : string) :
  render h w = (Normal tt, w1) ->
  raises h RequestAnimationFrame = Some s ->
  runGameLoop h w = (Throw {| message := s |}, w1).
Proof.
  intros Hr Hraf. unfold runGameLoop, bind at 1. rewrite Hr.
  rewrite bind_host_call, Hraf. reflexivity.
Qed.

Lemma handle_animationFrames (e : Event) (w : World) :
  (animationFrames (handle e w) <= animationFrames w)%nat.
Proof.
  destruct e as [h|es]; cbn [handle].
  - destruct (animationFrames w) as [|n] eqn:Hn; [ rewrite Hn; lia | ].
    destruct (runGameLoop h (with_animationFrames n w)) as [x w'] eqn:Hloop.
    apply runGameLoop_any in Hloop. destruct Hloop as (y & w1 & Hr & Hw).
    apply render_frame in Hr. destruct Hr as (_ & _ & _ & _ & Hf & _).
    cbn [snd]. destruct Hw as [-> | (_ & _ & ->)]; cbn in *; lia.
  - destruct (resizeObserver w) as [dpr|]; [ | lia ].
    destruct (resize_callback_canvas dpr es w) as (c' & -> & _). cbn. lia.
Qed.

Lemma run_animationFrames (es : list Event) (w : World) :
  (animationFrames (run es w) <= animationFrames w)%nat.
Proof.
  revert w. induction es as [|e es IH]; intros w; cbn; [ lia | ].
  etransitivity; [ apply IH | apply handle_animationFrames ].
Qed.

Lemma run_app (es es' : list Event) (w : World) :
  run (es ++ es') w = run es' (run es w).
Proof. unfold run. apply fold_left_app. Qed.

Lemma startup_animationFrames (h h1 : Host) (m : option MessageElement) :
  (animationFrames (snd (startup h h1 (script_load m))) <= 1)%nat.
Proof.
  destruct (initializeWebGPU h (script_load m)) as [[[|]|e] w1] eqn:Hinit;
    pose proof (initializeWebGPU_any _ _ _ _ Hinit) as (Hf & _).
  - rewrite (startup_true h h1 _ w1 Hinit).
    destruct (runGameLoop h1 _) as [x w'] eqn:Hloop.
    apply runGameLoop_any in Hloop. destruct Hloop as (y & w2 & Hr & Hw).
    apply render_frame in Hr. destruct Hr as (_ & _ & _ & _ & Hf2 & _).
    cbn in Hf2. rewrite Hf in Hf2.
    cbn [snd]. destruct Hw as [-> | (_ & _ & ->)]; cbn;
      rewrite ?Hf2; destruct m; cbn; lia.
  - rewrite (startup_false h h1 _ w1 Hinit). cbn. rewrite Hf. destruct m; cbn; lia.
  - rewrite (startup_Throw h h1 _ w1 e Hinit). cbn. rewrite Hf. destruct m; cbn; lia.
Qed.

(** X7.  At most one animation frame is ever pending, and a loop that has
    stopped stays stopped: once no frame is pending, whatever the browser
    delivers afterwards, none is requested again and the queue of submitted
    command buffers no longer grows. *)
Theorem X7_one_frame_pending_at_most_and_no_restart (h h1 : Host)
    (m : option MessageElement) (es es' : list Event) :
  (animationFrames (run es (snd (startup h h1 (script_load m)))) <= 1)%nat /\
  (animationFrames (run es (snd (startup h h1 (script_load m)))) = 0%nat ->
   animationFrames (run (es ++ es') (snd (startup h h1 (script_load m)))) = 0%nat /\
   submitted (run (es ++ es') (snd (startup h h1 (script_load m)))) =
   submitted (run es (snd (startup h h1 (script_load m))))).
Proof.
  split.
  - etransitivity; [ apply run_animationFrames | apply startup_animationFrames ].
  - intros H0. rewrite run_app.
    destruct (idle_run es' _ H0) as (I1 & I2 & _). auto.
Qed.

(** X8.  What a call of [render] never does, however it ends: it does not
    change [gpu] (no handle, not the canvas size), the [#message] element,
    the canvas configuration, the resize observer, the pending animation
    frames or the vertex array; it adds at most one command buffer to the
    queue and at most the one zero-size warning to the console. *)
Theorem X8_render_leaves_the_page_state_alone (h : Host) (w w' : World)
    (x : completion unit) :
  render h w = (x, w') ->
  gpu w' = gpu w /\ messageEl w' = messageEl w /\
  configured w' = configured w /\ resizeObserver w' = resizeObserver w /\
  animationFrames w' = animationFrames w /\
  vertices (data w') = vertices (data w) /\
  (submitted w' = submitted w \/ exists cb, submitted w' = submitted w ++ [cb]) /\
  (console w' = console w \/
   console w' = console w ++ [(warn, "Canvas has zero size, skipping render.")]).
Proof. apply render_frame. Qed.

Lemma X8_witness :
  render (page 0) page_world = (Normal tt, snd (render (page 0) page_world)) /\
  gpu (snd (render (page 0) page_world)) = gpu page_world.
Proof.
  assert (render (page 0) page_world = (Normal tt, snd (render (page 0) page_world)))
    as H by (rewrite page_world_render; reflexivity).
  split; [ exact H | ].
  exact (proj1 (X8_render_leaves_the_page_state_alone (page 0) page_world _ _ H)).
Defined.

(** X9.  A frame callback re-requests itself exactly when it gets to the
    end: with one frame pending, the frame is pending again after the
    callback if [render] returned and [requestAnimationFrame] did not raise;
    if [render] throws, the request that follows it in [runGameLoop] is never
    made, and the page is left as [render] left it, with no frame pending. *)
Theorem X9_frame_is_requested_again_only_after_render_returns (h : Host)
    (w : World) (n : nat) :
  animationFrames w = S n ->
  (forall w1,
     render h (with_animationFrames n w) = (Normal tt, w1) ->
     raises h RequestAnimationFrame = None ->
     handle (AnimationFrame h) w = with_animationFrames (S n) w1) /\
  (forall e w1,
     render h (with_animationFrames n w) = (Throw e, w1) ->
     handle (AnimationFrame h) w = w1 /\ animationFrames w1 = n) /\
  (raises h RequestAnimationFrame <> None ->
   animationFrames (handle (AnimationFrame h) w) = n).
Proof.
  intros Hn. cbn [handle]. rewrite Hn. split; [ | split ].
  - intros w1 Hr Hraf.
    pose proof (render_frame _ _ _ _ Hr) as (_ & _ & _ & _ & Hf & _).
    rewrite (runGameLoop_Normal h _ w1 Hr Hraf). cbn [snd]. rewrite Hf. reflexivity.
  - intros e w1 Hr.
    pose proof (render_frame _ _ _ _ Hr) as (_ & _ & _ & _ & Hf & _).
    rewrite (runGameLoop_render_Throw h _ w1 e Hr). auto.
  - intros Hraf.
    destruct (render h (with_animationFrames n w)) as [[[]|e] w1] eqn:Hr;
      pose proof (render_frame _ _ _ _ Hr) as (_ & _ & _ & _ & Hf & _).
    + destruct (raises h RequestAnimationFrame) as [s|] eqn:Hs; [ | contradiction ].
      rewrite (runGameLoop_request_raises h _ w1 s Hr Hs). exact Hf.
    + rewrite (runGameLoop_render_Throw h _ w1 e Hr). exact Hf.
Qed.

Lemma startup_quiet_first_frame (h h1 : Host) (m : option MessageElement) (w1 : World) :
  initializeWebGPU h (script_load m) = (Normal true, w1) ->
  ready w1 = true -> quiet h1 ->
  settled (preferredCanvasFormat h) (snd (startup h h1 (script_load m))) /\
  ready (snd (startup h h1 (script_load m))) = true /\
  animationFrames (snd (startup h h1 (script_load m))) = 1%nat /\
  length (submitted (snd (startup h h1 (script_load m)))) = 1%nat.
Proof.
  intros Hinit Hready Hq.
  pose proof (settled_startup h h1 m w1 Hinit) as Hs.
  split; [ exact Hs | ]. clear Hs.
  rewrite (startup_true h h1 _ w1 Hinit).
  pose proof (initializeWebGPU_any _ _ _ _ Hinit) as (Hf & Hsub & _).
  apply initializeWebGPU_true in Hinit.
  destruct Hinit as (a_ & d & cv & ctx & _ & _ & _ & _ & _ & ->).
  set (w0 := with_console log "WebGPU State:" (initialised h a_ d cv ctx m)) in *.
  assert (settled (preferredCanvasFormat h) w0) as Hs0
    by (apply settled_with_console, settled_initialised).
  destruct (render_quiet_settled _ h1 w0 Hq Hs0 Hready) as (w2 & Hr).
  rewrite (runGameLoop_Normal h1 w0 w2 Hr (Hq RequestAnimationFrame)). cbn [snd].
  pose proof (render_frame _ _ _ _ Hr) as (Hg & _ & _ & _ & Hf2 & _).
  destruct (render_inv h1 w0 w2 Hr)
    as [[Hn _] | (_ & p & vb & ub & cv' & buf & _ & _ & _ & _ & _ & _ & Hw2)].
  { unfold w0 in Hn. cbn in Hn. cbn in Hready. congruence. }
  split; [ | split ].
  - unfold ready in *. cbn [with_animationFrames gpu]. rewrite Hg. exact Hready.
  - cbn. rewrite Hf2. reflexivity.
  - rewrite Hw2. unfold drawn. cbn [with_animationFrames submitted].
    rewrite length_app. cbn. lia.
Qed.

Lemma quiet_frame fmt (h : Host) (w : World) :
  settled fmt w -> ready w = true -> animationFrames w = 1%nat -> quiet h ->
  settled fmt (handle (AnimationFrame h) w) /\
  ready (handle (AnimationFrame h) w) = true /\
  animationFrames (handle (AnimationFrame h) w) = 1%nat /\
  length (submitted (handle (AnimationFrame h) w)) = S (length (submitted w)).
Proof.
  intros Hs Hready Hf Hq.
  split; [ apply settled_handle; exact Hs | ].
  cbn [handle]. rewrite Hf.
  set (w0 := with_animationFrames 0 w).
  assert (settled fmt w0) as Hs0 by (apply settled_with_animationFrames; exact Hs).
  destruct (render_quiet_settled _ h w0 Hq Hs0 Hready) as (w2 & Hr).
  rewrite (runGameLoop_Normal h w0 w2 Hr (Hq RequestAnimationFrame)). cbn [snd].
  pose proof (render_frame _ _ _ _ Hr) as (Hg & _ & _ & _ & Hf2 & _).
  destruct (render_inv h w0 w2 Hr)
    as [[Hn _] | (_ & p & vb & ub & cv' & buf & _ & _ & _ & _ & _ & _ & Hw2)].
  { change (ready w = false) in Hn. congruence. }
  split; [ | split ].
  - unfold ready in *. cbn [with_animationFrames gpu]. rewrite Hg. exact Hready.
  - cbn. rewrite Hf2. reflexivity.
  - rewrite Hw2. unfold drawn. cbn [with_animationFrames submitted].
    rewrite length_app. cbn [length]. unfold w0. cbn [with_animationFrames submitted]. lia.
Qed.

Lemma quiet_frames fmt (hs : list Host) (w : World) :
  settled fmt w -> ready w = true -> animationFrames w = 1%nat ->
  Forall quiet hs ->
  animationFrames (run (map AnimationFrame hs) w) = 1%nat /\
  length (submitted (run (map AnimationFrame hs) w)) =
  (length (submitted w) + length hs)%nat.
Proof.
  revert w. induction hs as [|h hs IH]; intros w Hs Hready Hf Hq; cbn [map run fold_left].
  - cbn. split; [ exact Hf | lia ].
  - inversion Hq as [|? ? Hqh Hqs]; subst.
    destruct (quiet_frame fmt h w Hs Hready Hf Hqh) as (Hs' & Hr' & Hf' & Hl').
    destruct (IH _ Hs' Hr' Hf' Hqs) as (IH1 & IH2).
    fold (run (map AnimationFrame hs) (handle (AnimationFrame h) w)).
    split; [ exact IH1 | ]. rewrite IH2, Hl'. cbn. lia.
Qed.

(** X10.  The loop at work.  After a successful initialisation that left a
    canvas of non-zero size, on hosts none of whose calls raises: the
    start-up function draws the first frame itself, each animation frame the
    browser then runs draws one more, and one frame is pending afterwards;
    after [n] animation frames the queue holds [n + 1] command buffers. *)
Theorem X10_each_frame_draws_once_and_requests_the_next (h h1 : Host)
    (m : option MessageElement) (hs : list Host) (w1 : World) :
  initializeWebGPU h (script_load m) = (Normal true, w1) ->
  ready w1 = true ->
  quiet h1 -> Forall quiet hs ->
  animationFrames (run (map AnimationFrame hs)
                     (snd (startup h h1 (script_load m)))) = 1%nat /\
  length (submitted (run (map AnimationFrame hs)
                       (snd (startup h h1 (script_load m))))) = S (length hs).
Proof.
  intros Hinit Hready Hq1 Hqs.
  destruct (startup_quiet_first_frame h h1 m w1 Hinit Hready Hq1)
    as (Hs & Hr & Hf & Hl).
  destruct (quiet_frames _ hs _ Hs Hr Hf Hqs) as (H1 & H2).
  split; [ exact H1 | ]. rewrite H2, Hl. reflexivity.
Qed.

Lemma X10_witness :
  initializeWebGPU (page 0) (script_load None) = (Normal true, page_world) /\
  ready page_world = true /\
  length (submitted (run (map AnimationFrame [page 16; page 33])
                       (snd (startup (page 0) (page 0) (script_load None))))) = 3%nat.
Proof.
  split; [ exact page_world_initialised | ]. split; [ exact page_world_ready | ].
  apply (X10_each_frame_draws_once_and_requests_the_next (page 0) (page 0) None
           [page 16; page 33] page_world page_world_initialised page_world_ready
           (quiet_page 0)).
  repeat constructor; apply quiet_page.
Defined.

Lemma ready_with_animationFrames (n : nat) (w : World) :
  ready (with_animationFrames n w) = ready w.
Proof. reflexivity. Qed.

Lemma page_started_frames :
  animationFrames (snd (startup (page 0) (page 0) (script_load None))) = 1%nat.
Proof.
  exact (proj1 (proj2 (proj2 (startup_quiet_first_frame (page 0) (page 0) None
                                page_world page_world_initialised
                                page_world_ready (quiet_page 0))))).
Qed.

Lemma X9_witness :
  animationFrames (snd (startup (page 0) (page 0) (script_load None))) = 1%nat /\
  animationFrames
    (handle (AnimationFrame (page 16))
       (snd (startup (page 0) (page 0) (script_load None)))) = 1%nat.
Proof.
  split; [ exact page_started_frames | ].
  destruct (X9_frame_is_requested_again_only_after_render_returns (page 16)
              (snd (startup (page 0) (page 0) (script_load None))) 0
              page_started_frames) as (Hok & _ & _).
  destruct (render_quiet_settled bgra8unorm (page 16)
              (with_animationFrames 0
                 (snd (startup (page 0) (page 0) (script_load None)))))
    as (w2 & Hr2).
  - apply quiet_page.
  - apply settled_with_animationFrames.
    exact (settled_startup (page 0) (page 0) None page_world page_world_initialised).
  - rewrite ready_with_animationFrames. unfold ready.
    rewrite page_started_gpu, page_world_gpu. reflexivity.
  - rewrite (Hok w2 Hr2 eq_refl). reflexivity.
Defined.

Lemma zero_size_loop fmt (h : Host) (w : World) :
  settled fmt w -> ready w = false ->
  raises h RequestAnimationFrame = None ->
  runGameLoop h w =
  (Normal tt,
   with_animationFrames (S (animationFrames w))
     (with_console warn "Canvas has zero size, skipping render." w)).
Proof.
  intros [(a_ & d & cv & ctx & Hg) _ _ _ _] Hready Hraf.
  unfold ready in Hready. rewrite Hg in Hready. cbn in Hready.
  rewrite (runGameLoop_Normal h w
             (with_console warn "Canvas has zero size, skipping render." w)).
  - reflexivity.
  - apply (render_zero_size h _ d ctx (pipeline_for fmt) cv 0%nat);
      rewrite ?Hg; try reflexivity. exact Hready.
  - exact Hraf.
Qed.

Lemma zero_size_frame fmt (h : Host) (w : World) :
  settled fmt w -> ready w = false -> animationFrames w = 1%nat ->
  raises h RequestAnimationFrame = None ->
  handle (AnimationFrame h) w =
  with_animationFrames 1
    (with_console warn "Canvas has zero size, skipping render."
       (with_animationFrames 0 w)).
Proof.
  intros Hs Hready Hf Hraf.
  cbn [handle]. rewrite Hf.
  rewrite (zero_size_loop fmt h (with_animationFrames 0 w)).
  - reflexivity.
  - apply settled_with_animationFrames. exact Hs.
  - exact Hready.
  - exact Hraf.
Qed.

Lemma zero_size_frames fmt (hs : list Host) (w : World) :
  settled fmt w -> ready w = false -> animationFrames w = 1%nat ->
  Forall (fun h => raises h RequestAnimationFrame = None) hs ->
  animationFrames (run (map AnimationFrame hs) w) = 1%nat /\
  submitted (run (map AnimationFrame hs) w) = submitted w /\
  uploads (run (map AnimationFrame hs) w) = uploads w /\
  buffers (run (map AnimationFrame hs) w) = buffers w /\
  console (run (map AnimationFrame hs) w) =
  console w ++ repeat (warn, "Canvas has zero size, skipping render.") (length hs).
Proof.
  revert w. induction hs as [|h hs IH]; intros w Hs Hready Hf Hq.
  - cbn. rewrite app_nil_r. auto.
  - inversion Hq as [|? ? Hqh Hqs]; subst.
    pose proof (settled_handle fmt (AnimationFrame h) w Hs) as Hs'.
    pose proof (zero_size_frame fmt h w Hs Hready Hf Hqh) as Hw.
    cbn [map run fold_left].
    fold (run (map AnimationFrame hs) (handle (AnimationFrame h) w)).
    destruct (IH (handle (AnimationFrame h) w)) as (H1 & H2 & H3 & H4 & H5).
    + exact Hs'.
    + rewrite Hw. exact Hready.
    + rewrite Hw. reflexivity.
    + exact Hqs.
    + rewrite H1, H2, H3, H4, H5, Hw. cbn [length repeat].
      repeat split. cbn. rewrite <- app_assoc. reflexivity.
Qed.

(** X11.  With a canvas of size zero the loop goes on polling.  After a
    successful initialisation whose canvas has a zero width or height, the
    first frame and every animation frame after it are skipped with one
    console warning each, whatever the hosts' drawing calls would do, and the
    next frame is requested all the same: nothing is ever submitted or
    uploaded, and one frame stays pending. *)
Theorem X11_zero_size_canvas_keeps_the_loop_polling (h h1 : Host)
    (m : option MessageElement) (hs : list Host) (w1 : World) :
  initializeWebGPU h (script_load m) = (Normal true, w1) ->
  ready w1 = false ->
  raises h1 RequestAnimationFrame = None ->
  Forall (fun h => raises h RequestAnimationFrame = None) hs ->
  animationFrames (run (map AnimationFrame hs)
                     (snd (startup h h1 (script_load m)))) = 1%nat /\
  submitted (run (map AnimationFrame hs)
               (snd (startup h h1 (script_load m)))) = [] /\
  uploads (run (map AnimationFrame hs)
             (snd (startup h h1 (script_load m)))) = uploads w1 /\
  buffers (run (map AnimationFrame hs)
             (snd (startup h h1 (script_load m)))) = buffers w1 /\
  console (run (map AnimationFrame hs)
             (snd (startup h h1 (script_load m)))) =
  console w1 ++
  (log, "WebGPU State:") ::
  repeat (warn, "Canvas has zero size, skipping render.") (S (length hs)).
Proof.
  intros Hinit Hready Hq1 Hqs.
  pose proof (settled_startup h h1 m w1 Hinit) as Hs.
  pose proof (initializeWebGPU_any _ _ _ _ Hinit) as (Hf & Hsub & _).
  assert (settled (preferredCanvasFormat h) w1) as Hs1.
  { apply initializeWebGPU_true in Hinit.
    destruct Hinit as (a_ & d & cv & ctx & _ & _ & _ & _ & _ & ->).
    apply settled_initialised. }
  assert (animationFrames w1 = 0%nat) as Hf0
    by (rewrite Hf; destruct m; reflexivity).
  assert (snd (startup h h1 (script_load m)) =
          with_animationFrames 1
            (with_console warn "Canvas has zero size, skipping render."
               (with_console log "WebGPU State:" w1))) as Hstart.
  { rewrite (startup_true h h1 _ w1 Hinit).
    rewrite (zero_size_loop (preferredCanvasFormat h) h1
               (with_console log "WebGPU State:" w1)
               (settled_with_console _ _ _ _ Hs1) Hready Hq1).
    cbn [snd with_console animationFrames]. rewrite Hf0. reflexivity. }
  rewrite Hstart in *.
  destruct (zero_size_frames _ hs _ Hs Hready eq_refl Hqs) as (H1 & H2 & H3 & H4 & H5).
  rewrite H1, H2, H3, H4, H5.
  cbn [with_animationFrames with_console submitted uploads buffers console].
  repeat split; [ rewrite Hsub; destruct m; reflexivity | ].
  cbn [repeat]. rewrite <- !app_assoc. reflexivity.
Qed.

Lemma hidden_world_initialised :
  initializeWebGPU page_hidden (script_load None) = (Normal true, hidden_world).
Proof.
  rewrite hidden_world_eq.
  apply initializeWebGPU_quiet; try reflexivity. intros c. reflexivity.
Qed.

Lemma hidden_world_ready : ready hidden_world = false.
Proof. unfold ready. rewrite hidden_world_gpu. reflexivity. Qed.

Lemma X11_witness :
  initializeWebGPU page_hidden (script_load None) = (Normal true, hidden_world) /\
  ready hidden_world = false /\
  submitted (run (map AnimationFrame [page_hidden; page 16])
               (snd (startup page_hidden page_hidden (script_load None)))) = [].
Proof.
  split; [ exact hidden_world_initialised | ].
  split; [ exact hidden_world_ready | ].
  apply (X11_zero_size_canvas_keeps_the_loop_polling page_hidden page_hidden None
           [page_hidden; page 16] hidden_world hidden_world_initialised
           hidden_world_ready eq_refl).
  repeat constructor.
Defined.

(** ** What holds of every frame ever drawn *)

(** A property of the page that every step of the script keeps, holds in
    every world reachable after a successful initialisation. *)
Lemma reachable_invariant (P : World -> Prop) (h h1 : Host)
    (m : option MessageElement) (es : list Event) (w1 : World) :
  (forall l s w, P w -> P (with_console l s w)) ->
  (forall n w, P w -> P (with_animationFrames n w)) ->
  (forall hf w w' x,
     settled (preferredCanvasFormat h) w -> P w -> render hf w = (x, w') -> P w') ->
  (forall dpr entries_ w,
     settled (preferredCanvasFormat h) w -> P w ->
     resizeObserver w = Some dpr -> P (resize_callback dpr entries_ w)) ->
  initializeWebGPU h (script_load m) = (Normal true, w1) ->
  P w1 ->
  P (run es (snd (startup h h1 (script_load m)))).
Proof.
  intros Hcon Hfr Hrender Hresize Hinit HP.
  assert (forall hf w, settled (preferredCanvasFormat h) w -> P w ->
                       P (snd (runGameLoop hf w))) as Hloop.
  { intros hf w Hs Hw.
    destruct (runGameLoop hf w) as [x w'] eqn:Hl.
    apply runGameLoop_any in Hl. destruct Hl as (y & w2 & Hr & Hw').
    cbn [snd]. destruct Hw' as [-> | (_ & _ & ->)];
      [ | apply Hfr ]; eapply Hrender; eauto. }
  assert (forall es w, settled (preferredCanvasFormat h) w -> P w -> P (run es w))
    as Hrun.
  { clear es. induction es as [|e es IH]; intros w Hs Hw; cbn [run fold_left].
    - exact Hw.
    - apply IH; [ apply settled_handle; exact Hs | ].
      destruct e as [hf|entries_]; cbn [handle].
      + destruct (animationFrames w) as [|n]; [ exact Hw | ].
        apply Hloop; [ apply settled_with_animationFrames; exact Hs | ].
        apply Hfr. exact Hw.
      + destruct (resizeObserver w) as [dpr|] eqn:Hobs; [ | exact Hw ].
        apply Hresize; assumption. }
  apply Hrun; [ exact (settled_startup h h1 m w1 Hinit) | ].
  rewrite (startup_true h h1 _ w1 Hinit).
  apply Hloop; [ | apply Hcon; exact HP ].
  apply settled_with_console.
  apply initializeWebGPU_true in Hinit.
  destruct Hinit as (a_ & d & cv & ctx & _ & _ & _ & _ & _ & ->).
  apply settled_initialised.
Qed.

Lemma failed_startup_is_idle (h h1 : Host) (m : option MessageElement)
    (es : list Event) :
  (forall w1, initializeWebGPU h (script_load m) <> (Normal true, w1)) ->
  animationFrames (run es (snd (startup h h1 (script_load m)))) = 0%nat /\
  submitted (run es (snd (startup h h1 (script_load m)))) = [].
Proof.
  intros Hno.
  destruct (initializeWebGPU h (script_load m)) as [[[|]|e] w1] eqn:Hinit;
    [ exfalso; exact (Hno w1 eq_refl) | | ];
    pose proof (initializeWebGPU_any _ _ _ _ Hinit) as (Hf & Hsub & _);
    assert (animationFrames w1 = 0%nat) as Hf0
      by (rewrite Hf; destruct m; reflexivity);
    assert (submitted w1 = []) as Hsub0
      by (rewrite Hsub; destruct m; reflexivity).
  - rewrite (startup_false h h1 _ w1 Hinit). cbn [snd].
    destruct (idle_run es (with_console log
                "WebGPU setup failed. See console for errors." w1))
      as (I1 & I2 & _); [ exact Hf0 | ].
    rewrite I1, I2. split; [ reflexivity | exact Hsub0 ].
  - rewrite (startup_Throw h h1 _ w1 e Hinit). cbn [snd].
    destruct (idle_run es w1) as (I1 & I2 & _); [ exact Hf0 | ].
    rewrite I1, I2. split; [ reflexivity | exact Hsub0 ].
Qed.

Lemma render_triangle_frames fmt (hf : Host) (w w' : World) (x : completion unit) :
  settled fmt w -> Forall (triangle_frame fmt) (submitted w) ->
  render hf w = (x, w') -> Forall (triangle_frame fmt) (submitted w').
Proof.
  intros [(a_ & d & cv0 & ctx & Hg) _ _ _ _] HP H.
  destruct (render_any hf w w' x H)
    as [-> | [-> | (Hr & [-> | (p & vb & ub & cv & buf & Hp & Hvb & Hcv & _ & _ & _ & [-> | ->])])]];
    try exact HP.
  unfold drawn. cbn [submitted]. apply Forall_app. split; [ exact HP | ].
  constructor; [ | constructor ].
  unfold ready in Hr. rewrite Hg in Hp, Hvb, Hcv, Hr |- *. cbn in Hp, Hvb, Hcv, Hr |- *.
  injection Hp as <-. injection Hvb as <-. injection Hcv as <-.
  exists cv0. split; [ exact Hr | reflexivity ].
Qed.

(** X12.  Whatever the hosts do and whatever frames and resizes happen, the
    queue never receives anything but frames of the triangle: every command
    buffer ever submitted is one render pass on a surface of non-zero size,
    with the pipeline built for the preferred format, the vertex buffer in
    slot 0, the bind group of the uniform buffer, and one draw of three
    vertices.  A page whose initialisation did not succeed submits nothing
    at all. *)
Theorem X12_only_triangle_frames_are_ever_submitted (h h1 : Host)
    (m : option MessageElement) (es : list Event) :
  Forall (triangle_frame (preferredCanvasFormat h))
         (submitted (run es (snd (startup h h1 (script_load m))))) /\
  ((forall w1, initializeWebGPU h (script_load m) <> (Normal true, w1)) ->
   submitted (run es (snd (startup h h1 (script_load m)))) = []).
Proof.
  split; [ | intros Hno; apply failed_startup_is_idle; exact Hno ].
  destruct (initializeWebGPU h (script_load m)) as [[[|]|e] w1] eqn:Hinit.
  - apply (reachable_invariant
             (fun w => Forall (triangle_frame (preferredCanvasFormat h)) (submitted w))
             h h1 m es w1).
    + intros l s w HP. exact HP.
    + intros n w HP. exact HP.
    + intros hf w w' x Hs HP Hr.
      exact (render_triangle_frames _ hf w w' x Hs HP Hr).
    + intros dpr entries_ w _ HP _.
      destruct (resize_callback_canvas dpr entries_ w) as (c' & -> & _). exact HP.
    + exact Hinit.
    + pose proof (initializeWebGPU_any _ _ _ _ Hinit) as (_ & Hsub & _).
      rewrite Hsub. destruct m; constructor.
  - destruct (failed_startup_is_idle h h1 m es) as (_ & ->); [ | constructor ].
    intros w2 Heq. rewrite Hinit in Heq. discriminate.
  - destruct (failed_startup_is_idle h h1 m es) as (_ & ->); [ | constructor ].
    intros w2 Heq. rewrite Hinit in Heq. discriminate.
Qed.

Lemma on_orbit_frame_uniforms (now : R) (u : list R) :
  padded u -> on_orbit (frame_uniforms now u).
Proof.
  intros (x & y & z & t & -> & _ & _). rewrite frame_uniforms_shape.
  eexists _, _, _, _. split; [ reflexivity | ].
  split.
  - exact (proj2 (Math_fround_offset _ (SIN_bound (now / 1000)))).
  - exact (proj2 (Math_fround_offset _ (COS_bound (now / 1000)))).
Qed.

Lemma render_on_orbit fmt (hf : Host) (w w' : World) (x : completion unit) :
  settled fmt w ->
  (forall b, buffers w !! 1%nat = Some b -> on_orbit (contents b)) ->
  render hf w = (x, w') ->
  forall b, buffers w' !! 1%nat = Some b -> on_orbit (contents b).
Proof.
  intros Hs HP H.
  destruct (render_any hf w w' x H)
    as [-> | [-> | (Hr & [-> | (p & vb & ub & cv & buf & _ & _ & _ & Hub & Hbuf & _ & Hw')])]];
    try exact HP.
  destruct (settled_ready_parts fmt w ub buf Hs Hub Hbuf) as (-> & _ & _ & Hpad).
  pose proof (settled_uniforms _ _ Hs) as Hu.
  intros b Hb.
  assert (buffers w' =
          <[ 1%nat := {| buf_size := buf_size buf; buf_usage := buf_usage buf;
                         contents := overwrite 0
                                       (frame_uniforms (performance_now hf)
                                          (uniforms (data w)))
                                       (contents buf) |} ]> (buffers w)) as Hbs
    by (destruct Hw' as [-> | ->]; reflexivity).
  rewrite Hbs in Hb.
  rewrite list_lookup_insert_eq in Hb by (eapply lookup_lt_Some; exact Hbuf).
  injection Hb as <-. cbn [contents].
  rewrite overwrite_padded by (auto using padded_frame_uniforms).
  apply on_orbit_frame_uniforms. exact Hu.
Qed.

Lemma fetch_position_out_of_range (vbuf : list R) (i : nat) :
  (length vbuf <= 6 * i)%nat ->
  fetch_location vertexBufferLayout vbuf i 0 = None.
Proof.
  intros H.
  assert (Z.to_nat ((Z.of_nat i * (6 * 4) + 0) / 4) = (6 * i)%nat) as Hstart.
  { replace (Z.of_nat i * (6 * 4) + 0)%Z with (Z.of_nat (6 * i) * 4)%Z by lia.
    rewrite Z.div_mul by lia. lia. }
  revert H Hstart. generalize (6 * i)%nat as n. intros n H Hstart.
  change (fetch_location vertexBufferLayout vbuf i 0)
    with (let xs := take 2 (drop (Z.to_nat ((Z.of_nat i * (6 * 4) + 0) / 4)) vbuf) in
          if (length xs =? 2)%nat then Some xs else None).
  rewrite Hstart, drop_ge by exact H. reflexivity.
Qed.

Lemma vertex_stage_in_range fmt (i : nat) (ox oy z t : R) :
  (i < 3)%nat ->
  Rabs ox <= 0.3 + / 67108864 -> Rabs oy <= 0.3 + / 67108864 ->
  exists out x y,
    vertex_stage (pipeline_for fmt) (vertices data_init) [ox; oy; z; t] i = Some out /\
    Shader.position out = (x, y, 0, 1) /\
    Rabs x <= 0.8 + / 33554432 /\ Rabs y <= 0.8 + / 33554432.
Proof.
  intros Hi Hx Hy. apply Rabs_le_inv in Hx, Hy.
  unfold vertex_stage, pipeline_for. cbn [vertex_buffers].
  destruct i as [|[|[|i]]]; [ | | | lia ].
  - rewrite (fetch_position (vertices data_init) 0 _ _ _ _ _ _ eq_refl).
    rewrite (fetch_color (vertices data_init) 0 _ _ _ _ _ _ eq_refl).
    eexists _, (0.0 + ox), (0.5 + oy). split; [ reflexivity | ].
    cbn. unfold Shader.vec4_of, Shader.vec2_add. cbn [fst snd].
    split; [ repeat f_equal; lra | split; apply Rabs_le; lra ].
  - rewrite (fetch_position (vertices data_init) 1 _ _ _ _ _ _ eq_refl).
    rewrite (fetch_color (vertices data_init) 1 _ _ _ _ _ _ eq_refl).
    eexists _, (-0.5 + ox), (-0.5 + oy). split; [ reflexivity | ].
    cbn. unfold Shader.vec4_of, Shader.vec2_add. cbn [fst snd].
    split; [ repeat f_equal; lra | split; apply Rabs_le; lra ].
  - rewrite (fetch_position (vertices data_init) 2 _ _ _ _ _ _ eq_refl).
    rewrite (fetch_color (vertices data_init) 2 _ _ _ _ _ _ eq_refl).
    eexists _, (0.5 + ox), (-0.5 + oy). split; [ reflexivity | ].
    cbn. unfold Shader.vec4_of, Shader.vec2_add. cbn [fst snd].
    split; [ repeat f_equal; lra | split; apply Rabs_le; lra ].
Qed.

Lemma vertex_stage_out_of_range fmt (i : nat) (ubuf : list R) :
  (3 <= i)%nat ->
  vertex_stage (pipeline_for fmt) (vertices data_init) ubuf i = None.
Proof.
  intros Hi. unfold vertex_stage, pipeline_for. cbn [vertex_buffers].
  rewrite fetch_position_out_of_range by (cbn [data_init vertices length]; lia).
  destruct ubuf as [|ox [|oy ubuf]]; reflexivity.
Qed.

(** X13.  The triangle never leaves the viewport, and a draw of three
    vertices reads exactly the vertices there are.  In every world reachable
    after a successful initialisation, the vertex stage of the stored
    pipeline, run on the current contents of the vertex and the uniform
    buffer, puts each of the vertices 0, 1 and 2 at a position whose x and y
    are at most 0.8 + 2^-25 in absolute value (0.8 is 0.5 + 0.3; the rest is
    the rounding of 0.3 to a 32-bit float), well inside clip space, with
    z = 0 and w = 1; there is no vertex 3 in the buffer. *)
Theorem X13_triangle_stays_inside_the_viewport (h h1 : Host)
    (m : option MessageElement) (es : list Event) (w1 : World) :
  initializeWebGPU h (script_load m) = (Normal true, w1) ->
  exists p vbuf ubuf,
    renderPipeline (gpu (run es (snd (startup h h1 (script_load m))))) = Some p /\
    buffers (run es (snd (startup h h1 (script_load m)))) !! 0%nat = Some vbuf /\
    buffers (run es (snd (startup h h1 (script_load m)))) !! 1%nat = Some ubuf /\
    (forall i, (i < 3)%nat ->
       exists out x y,
         vertex_stage p (contents vbuf) (contents ubuf) i = Some out /\
         Shader.position out = (x, y, 0, 1) /\
         Rabs x <= 0.8 + / 33554432 /\ Rabs y <= 0.8 + / 33554432) /\
    (forall i, (3 <= i)%nat ->
       vertex_stage p (contents vbuf) (contents ubuf) i = None).
Proof.
  intros Hinit.
  pose proof (settled_reachable h h1 m es w1 Hinit) as Hs.
  assert (forall b,
            buffers (run es (snd (startup h h1 (script_load m)))) !! 1%nat = Some b ->
            on_orbit (contents b)) as Ho.
  { apply (reachable_invariant
             (fun w => forall b, buffers w !! 1%nat = Some b -> on_orbit (contents b))
             h h1 m es w1).
    - intros l s w HP. exact HP.
    - intros n w HP. exact HP.
    - intros hf w w' x Hsw HP Hr. exact (render_on_orbit _ hf w w' x Hsw HP Hr).
    - intros dpr entries_ w _ HP _.
      destruct (resize_callback_canvas dpr entries_ w) as (c' & -> & _). exact HP.
    - exact Hinit.
    - pose proof Hinit as Hi. apply initializeWebGPU_true in Hi.
      destruct Hi as (a_ & d & cv & ctx & _ & _ & _ & _ & _ & ->).
      cbn. intros b [= <-]. cbn.
      eexists _, _, _, _. split; [ reflexivity | ].
      split; apply Rabs_le; lra. }
  destruct Hs as [(a_ & d & cv & ctx & Hg) _ _ (cs & Hcs & Hb) _].
  rewrite Hg, Hb in *. cbn [renderPipeline].
  eexists _, _, _. split; [ reflexivity | ]. split; [ reflexivity | ].
  split; [ reflexivity | ]. cbn [contents].
  destruct (Ho _ eq_refl) as (x & y & z & t & Hc & Hx & Hy). cbn [contents] in Hc. subst cs.
  split.
  - intros i Hi. apply vertex_stage_in_range; assumption.
  - intros i Hi. apply vertex_stage_out_of_range. exact Hi.
Qed.

Lemma X13_witness :
  initializeWebGPU (page 0) (script_load None) = (Normal true, page_world) /\
  exists p vbuf ubuf out x y,
    renderPipeline
      (gpu (run [AnimationFrame (page 16)]
              (snd (startup (page 0) (page 0) (script_load None))))) = Some p /\
    buffers (run [AnimationFrame (page 16)]
               (snd (startup (page 0) (page 0) (script_load None)))) !! 0%nat
      = Some vbuf /\
    buffers (run [AnimationFrame (page 16)]
               (snd (startup (page 0) (page 0) (script_load None)))) !! 1%nat
      = Some ubuf /\
    vertex_stage p (contents vbuf) (contents ubuf) 0 = Some out /\
    Shader.position out = (x, y, 0, 1) /\
    Rabs x <= 0.8 + / 33554432 /\ Rabs y <= 0.8 + / 33554432.
Proof.
  split; [ exact page_world_initialised | ].
  destruct (X13_triangle_stays_inside_the_viewport (page 0) (page 0) None
              [AnimationFrame (page 16)] page_world page_world_initialised)
    as (p & vbuf & ubuf & Hp & Hv & Hu & Hin & _).
  destruct (Hin 0%nat) as (out & x & y & Hout & Hpos & Hx & Hy); [ lia | ].
  exists p, vbuf, ubuf, out, x, y. auto 10.
Defined.

(** ** The resize observer *)














(** ** The status shown on the page *)

Lemma render_status (hf : Host) (w w' : World) (x : completion unit)
    (el : option MessageElement) (line : LogLevel * string) :
  messageEl w = el /\ In line (console w) ->
  render hf w = (x, w') ->
  messageEl w' = el /\ In line (console w').
Proof.
  intros (Hm & Hin) Hr. apply render_frame in Hr.
  destruct Hr as (_ & Hm' & _ & _ & _ & _ & _ & Hc).
  split; [ congruence | ].
  destruct Hc as [-> | ->]; [ exact Hin | ].
  apply in_or_app. left. exact Hin.
Qed.

(** X16.  The success report stays.  After a successful initialisation the
    console holds the line "WebGPU Initialized Successfully!", and the
    [#message] element, if the page has one, reads "WebGPU Ready! (Part 5)"
    on the green background with its two-second timer set; no frame and no
    resize that follows changes the element or removes the line. *)
Theorem X16_success_report_stays (h h1 : Host) (m : option MessageElement)
    (es : list Event) (w1 : World) :
  initializeWebGPU h (script_load m) = (Normal true, w1) ->
  messageEl (run es (snd (startup h h1 (script_load m)))) =
    option_map
      (fun _ => {| innerText := "WebGPU Ready! (Part 5)";
                   backgroundColor := "rgba(0, 255, 100, 0.2)";
                   hide_timer := true |}) m /\
  In (log, "WebGPU Initialized Successfully!")
     (console (run es (snd (startup h h1 (script_load m))))).
Proof.
  intros Hinit.
  apply (reachable_invariant
           (fun w =>
              messageEl w =
                option_map
                  (fun _ => {| innerText := "WebGPU Ready! (Part 5)";
                               backgroundColor := "rgba(0, 255, 100, 0.2)";
                               hide_timer := true |}) m /\
              In (log, "WebGPU Initialized Successfully!") (console w))
           h h1 m es w1).
  - intros l s w (Hm & Hin). split; [ exact Hm | ].
    cbn [with_console console]. apply in_or_app. left. exact Hin.
  - intros n w HP. exact HP.
  - intros hf w w' x _ HP Hr. exact (render_status hf w w' x _ _ HP Hr).
  - intros dpr entries_ w _ HP _.
    destruct (resize_callback_canvas dpr entries_ w) as (c' & -> & _). exact HP.
  - exact Hinit.
  - pose proof Hinit as Hi. apply initializeWebGPU_true in Hi.
    destruct Hi as (a_ & d & cv & ctx & _ & _ & _ & _ & _ & ->).
    split; [ reflexivity | ].
    cbn [initialised console]. apply in_or_app. right. right. left. reflexivity.
Qed.

Lemma X16_witness :
  initializeWebGPU (page 0) (script_load None) = (Normal true, page_world) /\
  In (log, "WebGPU Initialized Successfully!")
     (console (run [AnimationFrame (page 16)]
                 (snd (startup (page 0) (page 0) (script_load None))))).
Proof.
  split; [ exact page_world_initialised | ].
  exact (proj2 (X16_success_report_stays (page 0) (page 0) None
                  [AnimationFrame (page 16)] page_world page_world_initialised)).
Defined.

(** ** Instances of the statements above *)

Lemma page_obliging : obliging (page 0) None.
Proof.
  unfold obliging. split; [ reflexivity | ].
  split; [ eexists; reflexivity | ]. split; [ eexists; reflexivity | ].
  split; [ eexists; reflexivity | ]. split; [ eexists; reflexivity | ].
  cbn [init_calls app]. repeat constructor.
Qed.

Lemma page_without_adapter_fails (w1 : World) :
  initializeWebGPU page_without_adapter (script_load None) <> (Normal true, w1).
Proof.
  destruct (fatal_initialisation_returns_false page_without_adapter None NoDevice)
    as (w' & H & _).
  - reflexivity.
  - left. intros a_. discriminate.
  - rewrite H. discriminate.
Qed.

Lemma X1_witness :
  obliging (page 0) None /\
  exists w', initializeWebGPU (page 0) (script_load None) = (Normal true, w').
Proof.
  split; [ exact page_obliging | ].
  exact (proj2 (X1_initialisation_succeeds_exactly_when (page 0) None) page_obliging).
Defined.

Lemma page_without_adapter_idle (es : list Event) :
  animationFrames
    (run es (snd (startup page_without_adapter (page 0) (script_load None)))) = 0%nat.
Proof.
  exact (proj1 (failed_startup_is_idle page_without_adapter (page 0) None es
                  page_without_adapter_fails)).
Qed.

Lemma X7_witness :
  animationFrames
    (run [ResizeObserved []]
       (snd (startup page_without_adapter (page 0) (script_load None)))) = 0%nat /\
  submitted
    (run ([ResizeObserved []] ++ [AnimationFrame (page 16)])
       (snd (startup page_without_adapter (page 0) (script_load None)))) =
  submitted
    (run [ResizeObserved []]
       (snd (startup page_without_adapter (page 0) (script_load None)))).
Proof.
  split; [ exact (page_without_adapter_idle [ResizeObserved []]) | ].
  exact (proj2 (proj2 (X7_one_frame_pending_at_most_and_no_restart
                         page_without_adapter (page 0) None [ResizeObserved []]
                         [AnimationFrame (page 16)])
                  (page_without_adapter_idle [ResizeObserved []]))).
Defined.

Lemma X12_witness :
  (forall w1,
     initializeWebGPU page_without_adapter (script_load None) <> (Normal true, w1)) /\
  submitted
    (run [AnimationFrame (page 16)]
       (snd (startup page_without_adapter (page 0) (script_load None)))) = [].
Proof.
  split; [ exact page_without_adapter_fails | ].
  exact (proj2 (X12_only_triangle_frames_are_ever_submitted page_without_adapter
                  (page 0) None [AnimationFrame (page 16)])
           page_without_adapter_fails).
Defined.
